(** * GasGuard: the sensor controller of the backend, embedded and verified

    The development follows [controllers/iotController.js] of the backend
    (validation, decision engine, ventilation, history queries), the Mongoose
    schemas of [SensorReading], [Alert] and [VentilationStatus], the
    statistics route of [routes/api.js], the ledger of
    [blockchain-service/server.js] and the legacy helper
    [services/mlService.js].

    Conventions of the embedding:
    - a handler is a function from the request, the per-request answers of the
      outside world ([Env]) and the stores ([World]) to a response and the new
      stores; exceptions are threaded by a small state-and-error monad, and a
      write that happened before an exception stays in the stores, as in the
      source (nothing is transactional there);
    - the log files that [logger] writes are not part of the stores; the
      two calls that can throw on the values of a request,
      [logSensorInput] and [logMLResponse], are embedded for that effect;
    - strings are sequences of 8-bit code units. *)

From Stdlib Require Import List String Ascii ZArith QArith Bool Lia.
From Stdlib Require Import DecimalString DecimalPos DecimalZ.
From Stdlib Require Import Sorted Permutation.
Import ListNotations.

#[local] Set Warnings "-register-all".

Open Scope string_scope.
Open Scope Z_scope.

(** ** JavaScript values *)

Module Js.

(** A JS number: a finite value, an infinity or NaN.  Finite values are
    kept as rationals; the code under study only tests them. *)
Inductive number : Type :=
| Finite (q : Q)
| PosInf
| NegInf
| NaN.

(** A JSON-shaped value, with [Undefined] for an absent property. *)
Inductive value : Type :=
| Undefined
| Null
| Bool (b : bool)
| Num (n : number)
| Str (s : string)
| Arr (items : list value)
| Obj (fields : list (string * value)).

Definition str_nonempty (s : string) : bool :=
  match s with EmptyString => false | String _ _ => true end.

(** ToBoolean. *)
Definition truthy (v : value) : bool :=
  match v with
  | Undefined | Null => false
  | Bool b => b
  | Num (Finite q) => negb (Qeq_bool q 0)
  | Num NaN => false
  | Num PosInf | Num NegInf => true
  | Str s => str_nonempty s
  | Arr _ | Obj _ => true
  end.

Fixpoint assoc (k : string) (fields : list (string * value)) : value :=
  match fields with
  | [] => Undefined
  | (k', v) :: rest => if String.eqb k k' then v else assoc k rest
  end.

(** [v.k] for a key that no prototype defines: only an object has it. *)
Definition prop (v : value) (k : string) : value :=
  match v with
  | Obj fields => assoc k fields
  | _ => Undefined
  end.

Definition is_undefined (v : value) : bool :=
  match v with Undefined => true | _ => false end.

(** [typeof v === 'number'] *)
Definition typeof_number (v : value) : bool :=
  match v with Num _ => true | _ => false end.

(** [Number.isFinite(v)] *)
Definition isFinite (v : value) : bool :=
  match v with Num (Finite _) => true | _ => false end.

(** [v >= 0], for a [v] that is a number (the only use in the source is
    behind [typeof v === 'number']). *)
Definition ge_zero (v : value) : bool :=
  match v with
  | Num (Finite q) => Qle_bool 0 q
  | Num PosInf => true
  | _ => false
  end.

(** *** [parseInt] on strings *)

(** StrWhiteSpaceChar, for 8-bit code units. *)
Definition is_space (c : ascii) : bool :=
  let n := nat_of_ascii c in
  (Nat.eqb n 9 || Nat.eqb n 10 || Nat.eqb n 11 || Nat.eqb n 12
   || Nat.eqb n 13 || Nat.eqb n 32 || Nat.eqb n 160)%bool.

Fixpoint skip_space (s : string) : string :=
  match s with
  | String c rest => if is_space c then skip_space rest else s
  | EmptyString => s
  end.

(** The value of [c] as a digit, whatever the radix (up to 16). *)
Definition digit_raw (c : ascii) : option Z :=
  let n := Z.of_nat (nat_of_ascii c) in
  if (48 <=? n) && (n <=? 57) then Some (n - 48)
  else if (97 <=? n) && (n <=? 102) then Some (n - 87)
  else if (65 <=? n) && (n <=? 70) then Some (n - 55)
  else None.

Definition digit (radix : Z) (c : ascii) : option Z :=
  match digit_raw c with
  | Some d => if d <? radix then Some d else None
  | None => None
  end.

(** The longest prefix of digits, read left to right; [acc] is [None] while
    no digit has been seen. *)
Fixpoint read_digits (radix : Z) (acc : option Z) (s : string) : option Z :=
  match s with
  | EmptyString => acc
  | String c rest =>
      match digit radix c with
      | Some d =>
          read_digits radix
            (Some (match acc with Some a => a * radix + d | None => d end))
            rest
      | None => acc
      end
  end.

Definition strip_hex (s : string) : option string :=
  match s with
  | String "0" (String "x" rest) => Some rest
  | String "0" (String "X" rest) => Some rest
  | _ => None
  end.

(** [parseInt(s)] without a radix; [None] is NaN.  The result is the exact
    integer: a double would round it above 2^53, which no caller here can
    observe (the only caller clamps at 500, and rounding is monotone). *)
Definition parseInt_string (s : string) : option Z :=
  let s := skip_space s in
  let '(sign, s) :=
    match s with
    | String "-" rest => (-1, rest)
    | String "+" rest => (1, rest)
    | _ => (1, s)
    end in
  let '(radix, s) :=
    match strip_hex s with
    | Some rest => (16, rest)
    | None => (10, s)
    end in
  match read_digits radix None s with
  | Some n => Some (sign * n)
  | None => None
  end.

End Js.

(** ** Query-string parameters *)

(** What the query parser hands over for one parameter: a string, a list
    (a repeated parameter) or a nested object. *)
Inductive QueryVal : Type :=
| QStr (s : string)
| QArr (items : list QueryVal)
| QObj (fields : list (string * QueryVal)).

Definition join_comma (l : list string) : string :=
  String.concat "," l.

(** ToString of a query value. *)
Fixpoint query_toString (v : QueryVal) : string :=
  match v with
  | QStr s => s
  | QArr items => join_comma (map query_toString items)
  | QObj _ => "[object Object]"
  end.

(** [String(n)] for an integer [n]: its decimal numeral. *)
Definition decimal (n : Z) : string :=
  NilZero.string_of_int (Z.to_int n).

(** The argument of [parseLimit]: the destructuring default (a number) or the
    value found in the query. *)
Inductive LimitArg : Type :=
| LNum (z : Z)
| LQuery (v : QueryVal).

Definition limit_toString (a : LimitArg) : string :=
  match a with
  | LNum z => decimal z
  | LQuery v => query_toString v
  end.

Definition parseInt (a : LimitArg) : option Z :=
  Js.parseInt_string (limit_toString a).

Definition MAX_QUERY_LIMIT : Z := 500.

(** [x || d] on the result of [parseInt]: NaN and 0 are falsy. *)
Definition or_default (x : option Z) (d : Z) : Z :=
  match x with
  | Some 0 => d
  | Some n => n
  | None => d
  end.

(** [parseLimit]:
    [const parsed = parseInt(value) || 50;
     return Math.min(Math.max(parsed, 1), MAX_QUERY_LIMIT);] *)
Definition parseLimit (value : LimitArg) : Z :=
  let parsed := or_default (parseInt value) 50 in
  Z.min (Z.max parsed 1) MAX_QUERY_LIMIT.

(** [const { limit = 50 } = req.query] *)
Definition limit_or_default (limit : option QueryVal) : LimitArg :=
  match limit with
  | None => LNum 50
  | Some v => LQuery v
  end.

(** ** Data model: the documents of the three collections *)

(** [VentilationStatus.mode]: [enum: ['OFF', 'AUTO', 'FORCED']]. *)
Inductive Mode : Type := OFF | AUTO | FORCED.

(** The four gas values, as read from the [gases] object of the request. *)
Record Gases : Type := mkGases {
  methane : Js.value;
  lpg : Js.value;
  carbonMonoxide : Js.value;
  hydrogenSulfide : Js.value
}.

(** [environmental: { temperature, humidity, pressure }], as received: each
    of the three is any value, [Undefined] when absent.  The schema declares
    them [Number]; the input logger lets a request through only when each is
    a number, null or absent, and the cast leaves such a value as it is. *)
Record Environmental : Type := mkEnvironmental {
  temperature : Js.value;
  humidity : Js.value;
  pressure : Js.value
}.

Definition empty_environmental : Environmental :=
  mkEnvironmental Js.Undefined Js.Undefined Js.Undefined.

(** The answer of the ML service ([POST /predict]).  A field that is used as
    a string is a string or [None] (absent or null); [gasRisks],
    [predictionError] and [recommendedAction], which the controller only
    hands to the logger, the schema and the answer, are kept as received. *)
Record PpmClassification : Type := mkPpm {
  overallRisk : option string;
  dominantGas : option string;
  gasRisks : Js.value
}.

Record AnomalyDetection : Type := mkAnomaly {
  risk : option string;
  predictionError : Js.value;
  trend : option string
}.

Record MLPrediction : Type := mkPrediction {
  riskState : option string;
  confidence : option string;
  ppmClassification : option PpmClassification;
  anomalyDetection : option AnomalyDetection;
  leakProbability : option Q;
  classificationMethod : option string;
  recommendedAction : Js.value
}.

(** The part of the prediction copied into the stored reading. *)
Record StoredPrediction : Type := mkStored {
  sp_riskState : option string;
  sp_confidence : option string;
  sp_ppmClassification : option PpmClassification;
  sp_anomalyDetection : option AnomalyDetection;
  sp_leakProbability : option Q;
  sp_classificationMethod : option string
}.

Record ActionsTaken : Type := mkActionsTaken {
  alertCreated : bool;
  ventilationTriggered : bool;
  blockchainLogged : bool;
  notificationSent : bool
}.

Record SensorReading : Type := mkSensorReading {
  r_id : nat;
  r_clientID : string;
  r_gasReadings : Gases;
  r_environmental : Environmental;
  r_mlPrediction : StoredPrediction;
  r_source : string;
  r_actionsTaken : ActionsTaken;
  r_timestamp : Z
}.

Record AlertMetadata : Type := mkAlertMetadata {
  am_confidence : option string;
  am_ppmRisk : option string;
  am_anomalyRisk : option string;
  am_classificationMethod : option string;
  am_predictionError : Js.value;
  am_leakProbability : option Q
}.

Record Alert : Type := mkAlert {
  a_id : nat;
  a_clientID : string;
  a_severity : string;
  a_riskState : string;
  a_message : string;
  a_gasLevels : Gases;
  a_dominantGas : string;
  a_metadata : AlertMetadata;
  a_status : string;
  a_ventilation : bool;
  a_blockchain : bool;
  a_readingId : nat;
  a_timestamp : Z
}.

Record TriggeredBy : Type := mkTriggeredBy {
  t_riskState : string;
  t_timestamp : Z;
  t_reason : string
}.

Record VentilationStatus : Type := mkVentilationStatus {
  v_clientID : string;
  v_isActive : bool;
  v_mode : Mode;
  v_triggeredBy : option TriggeredBy;
  v_activatedAt : option Z;
  v_deactivatedAt : option Z;
  v_timestamp : Z
}.

(** The body posted to the audit ledger ([/log-event]). *)
Record AuditEvent : Type := mkAuditEvent {
  e_eventType : string;
  e_clientID : string;
  e_riskState : string;
  e_gasLevels : Js.value;
  e_alertId : option nat;
  e_confidence : option string;
  e_timestamp : Z
}.

(** What is sent over the socket; [ws_room = None] is a broadcast to all. *)
Inductive WsPayload : Type :=
| SensorPayload (clientID riskState : string) (timestamp : Z)
| MlPayload (clientID riskState : string) (severity : option string)
| AlertPayload (clientID severity riskState message : string) (timestamp : Z)
| VentPayload (zone : string) (isOn : bool) (mode : Mode) (trigger : string)
              (timestamp : Z).

Record WsEvent : Type := mkWsEvent {
  ws_room : option string;
  ws_name : string;
  ws_payload : WsPayload
}.

(** ** The stores and the outside world *)

(** The three collections, in insertion order, and the traffic the server
    produced: posts to the audit ledger, socket events, and the updates
    requested on [VentilationStatus]. *)
Record World : Type := mkWorld {
  readings : list SensorReading;
  alerts : list Alert;
  ventilation : list VentilationStatus;
  auditPosts : list AuditEvent;
  emitted : list WsEvent;
  ventCalls : list (string * Mode);
  nextId : nat
}.

Definition empty_world : World := mkWorld [] [] [] [] [] [] 0.

Inductive Exn : Type :=
| Error (message : string)
| NetworkError
| DbError
| ValidationError (path : string)
| TypeError.

(** The answer of the ML service to one request: the call fails (refused,
    timed out, non-2xx) or brings back a body, possibly empty. *)
Inductive MLOutcome : Type :=
| MLFail
| MLData (data : option MLPrediction).

(** What the outside world does during one request. *)
Record Env : Type := mkEnv {
  ml : MLOutcome;
  alertSaveOk : bool;
  ventUpdateOk : bool;
  auditPostOk : bool;
  readingSaveOk : bool;
  io : bool;
  now : Z
}.

(** [process.env], read once at start-up. *)
Record Config : Type := mkConfig {
  BLOCKCHAIN_ENABLED : bool
}.

(** ** A state-and-exception monad for the handlers *)

Inductive Result (A : Type) : Type :=
| Ok (a : A)
| Throw (e : Exn).
Arguments Ok {A} a.
Arguments Throw {A} e.

Definition M (A : Type) : Type := World -> Result A * World.

Definition ret {A} (a : A) : M A := fun w => (Ok a, w).

Definition throw {A} (e : Exn) : M A := fun w => (Throw e, w).

Definition bind {A B} (m : M A) (k : A -> M B) : M B :=
  fun w =>
    match m w with
    | (Ok a, w') => k a w'
    | (Throw e, w') => (Throw e, w')
    end.

(** [try { m } catch (e) { h e }] *)
Definition try_catch {A} (m : M A) (h : Exn -> M A) : M A :=
  fun w =>
    match m w with
    | (Ok a, w') => (Ok a, w')
    | (Throw e, w') => h e w'
    end.

Definition modify (f : World -> World) : M unit := fun w => (Ok tt, f w).

Declare Scope monad_scope.
Delimit Scope monad_scope with monad.
Notation "x <- m ;; k" := (bind m (fun x => k))
  (at level 61, m at next level, right associativity) : monad_scope.
Notation "' p <- m ;; k" := (bind m (fun x => match x with p => k end))
  (at level 61, p pattern, m at next level, right associativity) : monad_scope.
Notation "m ;;; k" := (bind m (fun _ => k))
  (at level 61, right associativity) : monad_scope.
Open Scope monad_scope.

Definition fresh_id : M nat :=
  fun w =>
    (Ok (nextId w),
     mkWorld (readings w) (alerts w) (ventilation w) (auditPosts w)
             (emitted w) (ventCalls w) (S (nextId w))).

Definition emit (room : option string) (name : string) (p : WsPayload)
  : M unit :=
  modify (fun w =>
    mkWorld (readings w) (alerts w) (ventilation w) (auditPosts w)
            (emitted w ++ [mkWsEvent room name p]) (ventCalls w) (nextId w)).

(** ** Tables of the controller *)

(** The result of [table[key]] on an object literal: an own property, a
    member inherited from [Object.prototype] (a function or an object:
    truthy, and NaN in a comparison), or [undefined]. *)
Inductive Lookup (A : Type) : Type :=
| Own (a : A)
| Inherited
| Missing.
Arguments Own {A} a.
Arguments Inherited {A}.
Arguments Missing {A}.

Definition object_prototype_keys : list string :=
  [ "constructor"; "__proto__"; "hasOwnProperty"; "isPrototypeOf";
    "propertyIsEnumerable"; "toLocaleString"; "toString"; "valueOf";
    "__defineGetter__"; "__defineSetter__"; "__lookupGetter__";
    "__lookupSetter__" ].

Fixpoint mem_string (k : string) (l : list string) : bool :=
  match l with
  | [] => false
  | x :: rest => String.eqb k x || mem_string k rest
  end.

Fixpoint own {A} (table : list (string * A)) (k : string) : option A :=
  match table with
  | [] => None
  | (k', a) :: rest => if String.eqb k k' then Some a else own rest k
  end.

Definition lookup {A} (table : list (string * A)) (k : string) : Lookup A :=
  match own table k with
  | Some a => Own a
  | None => if mem_string k object_prototype_keys then Inherited else Missing
  end.

(** Risk state hierarchy for decision making *)
Definition RISK_HIERARCHY : list (string * Z) :=
  [ ("NORMAL", 0); ("LOW_ANOMALY", 1); ("UNUSUAL", 2);
    ("ALERT", 3); ("WARNING", 4); ("CRITICAL", 5) ].

(** Severity mapping for alerts *)
Definition SEVERITY_MAP : list (string * string) :=
  [ ("LOW_ANOMALY", "low"); ("UNUSUAL", "medium"); ("ALERT", "medium");
    ("WARNING", "high"); ("CRITICAL", "critical") ].

(** The operand of a comparison with a number: a number, or something that
    converts to NaN (a function, an object, [undefined]). *)
Inductive Operand : Type :=
| Number (n : Z)
| NotNumber.

(** [RISK_HIERARCHY[riskState]], as the operand of a comparison. *)
Definition rank_value (riskState : string) : Operand :=
  match lookup RISK_HIERARCHY riskState with
  | Own n => Number n
  | Inherited => NotNumber
  | Missing => NotNumber
  end.

(** [RISK_HIERARCHY[riskState] || 0]: [undefined] and the rank 0 are falsy,
    an inherited member is truthy and stays. *)
Definition rank_or_zero (riskState : string) : Operand :=
  match lookup RISK_HIERARCHY riskState with
  | Own 0 => Number 0
  | Own n => Number n
  | Inherited => NotNumber
  | Missing => Number 0
  end.

(** [RISK_HIERARCHY['LABEL']] for a label written in the source. *)
Definition rank_of (label : string) : Z :=
  match own RISK_HIERARCHY label with
  | Some n => n
  | None => 0
  end.

(** [a >= b] with a number on the right. *)
Definition js_ge (a : Operand) (b : Z) : bool :=
  match a with
  | Number n => b <=? n
  | NotNumber => false
  end.

(** Validate gas reading value: must be a finite non-negative number *)
Definition isValidGasReading (value : Js.value) : bool :=
  Js.typeof_number value && Js.isFinite value && Js.ge_zero value.

(** ** The schemas: what [save] validates *)

Definition enum_ok (values : list string) (v : option string) : bool :=
  match v with
  | None => true
  | Some s => mem_string s values
  end.

Definition RISK_STATE_ENUM : list string :=
  [ "NORMAL"; "LOW_ANOMALY"; "UNUSUAL"; "ALERT"; "WARNING"; "CRITICAL" ].

Definition CONFIDENCE_ENUM : list string := [ "high"; "medium"; "low" ].

Definition ALERT_SEVERITY_ENUM : list string :=
  [ "low"; "medium"; "high"; "critical" ].

Definition ALERT_RISK_STATE_ENUM : list string :=
  [ "LOW_ANOMALY"; "UNUSUAL"; "ALERT"; "WARNING"; "CRITICAL" ].

Definition ALERT_STATUS_ENUM : list string :=
  [ "active"; "acknowledged"; "resolved" ].

(** [sensorReadingSchema]: [clientID] and the four gas readings are required,
    [mlPrediction.riskState] and [mlPrediction.confidence] are enumerations. *)
Definition SensorReading_valid (r : SensorReading) : bool :=
  Js.str_nonempty (r_clientID r)
  && Js.typeof_number (methane (r_gasReadings r))
  && Js.typeof_number (lpg (r_gasReadings r))
  && Js.typeof_number (carbonMonoxide (r_gasReadings r))
  && Js.typeof_number (hydrogenSulfide (r_gasReadings r))
  && enum_ok RISK_STATE_ENUM (sp_riskState (r_mlPrediction r))
  && enum_ok CONFIDENCE_ENUM (sp_confidence (r_mlPrediction r)).

(** [alertSchema]: [clientID], [severity], [riskState] and [message] are
    required; [severity], [riskState] and [status] are enumerations. *)
Definition Alert_valid (a : Alert) : bool :=
  Js.str_nonempty (a_clientID a)
  && mem_string (a_severity a) ALERT_SEVERITY_ENUM
  && mem_string (a_riskState a) ALERT_RISK_STATE_ENUM
  && Js.str_nonempty (a_message a)
  && mem_string (a_status a) ALERT_STATUS_ENUM.

(** ** Operations on the stores *)

Definition set_alerts (w : World) (l : list Alert) : World :=
  mkWorld (readings w) l (ventilation w) (auditPosts w) (emitted w)
          (ventCalls w) (nextId w).

Definition set_readings (w : World) (l : list SensorReading) : World :=
  mkWorld l (alerts w) (ventilation w) (auditPosts w) (emitted w)
          (ventCalls w) (nextId w).

Definition set_ventilation (w : World) (l : list VentilationStatus) : World :=
  mkWorld (readings w) (alerts w) l (auditPosts w) (emitted w)
          (ventCalls w) (nextId w).

Definition log_ventCall (c : string * Mode) : M unit :=
  modify (fun w =>
    mkWorld (readings w) (alerts w) (ventilation w) (auditPosts w)
            (emitted w) (ventCalls w ++ [c]) (nextId w)).

Definition log_auditPost (e : AuditEvent) : M unit :=
  modify (fun w =>
    mkWorld (readings w) (alerts w) (ventilation w) (auditPosts w ++ [e])
            (emitted w) (ventCalls w) (nextId w)).

(** [alert.save()] *)
Definition Alert_save (env : Env) (a : Alert) : M unit :=
  if negb (Alert_valid a) then throw (ValidationError "Alert")
  else if alertSaveOk env then modify (fun w => set_alerts w (alerts w ++ [a]))
  else throw DbError.

(** [reading.save()] *)
Definition SensorReading_save (env : Env) (r : SensorReading) : M unit :=
  if negb (SensorReading_valid r) then throw (ValidationError "SensorReading")
  else if readingSaveOk env
       then modify (fun w => set_readings w (readings w ++ [r]))
  else throw DbError.

(** The first document of the collection with this [clientID], updated. *)
Fixpoint update_first (clientID : string)
    (f : VentilationStatus -> VentilationStatus)
    (coll : list VentilationStatus)
  : option (VentilationStatus * list VentilationStatus) :=
  match coll with
  | [] => None
  | d :: rest =>
      if String.eqb (v_clientID d) clientID then Some (f d, f d :: rest)
      else match update_first clientID f rest with
           | Some (d', rest') => Some (d', d :: rest')
           | None => None
           end
  end.

(** The update of the first matching document, or the insertion of
    [set fresh] when there is none ([upsert: true]). *)
Definition upsert_first (clientID : string)
    (set : VentilationStatus -> VentilationStatus) (fresh : VentilationStatus)
    (coll : list VentilationStatus)
  : VentilationStatus * list VentilationStatus :=
  match update_first clientID set coll with
  | Some r => r
  | None => (set fresh, (coll ++ [set fresh])%list)
  end.

(** [VentilationStatus.findOneAndUpdate({ clientID }, { $set }, { upsert: true,
    new: true, setDefaultsOnInsert: true })]: the first matching document is
    updated, or a document with the schema defaults is inserted and updated;
    the updated document is returned. *)
Definition VentilationStatus_findOneAndUpdate (env : Env) (clientID : string)
    (set : VentilationStatus -> VentilationStatus) : M VentilationStatus :=
  fun w =>
    if ventUpdateOk env then
      let '(d, coll) :=
        upsert_first clientID set
          (mkVentilationStatus clientID false OFF None None None (now env))
          (ventilation w) in
      (Ok d, set_ventilation w coll)
    else (Throw DbError, w).

Definition find_ventilation (clientID : string) (w : World)
  : option VentilationStatus :=
  find (fun d => String.eqb (v_clientID d) clientID) (ventilation w).

(** The ventilation mode of a zone: that of its document, [OFF] (the schema
    default) while it has none. *)
Definition ventilationMode (w : World) (clientID : string) : Mode :=
  match find_ventilation clientID w with
  | Some d => v_mode d
  | None => OFF
  end.

(** ** Requests and responses *)

(** The body of [POST /api/readings].  The identifier is a string or absent
    (the schemas declare it a [String]); [gases] is any value;
    [environmental] is an object, or [None] when it is absent or falsy. *)
Record Body : Type := mkBody {
  clientID : option string;
  gases : Js.value;
  environmental : option Environmental;
  source : option string
}.

Record ReadingSummary : Type := mkReadingSummary {
  rs_id : nat;
  rs_clientID : string;
  rs_riskState : option string;
  rs_confidence : option string;
  rs_timestamp : Z
}.

(** The [actions] object of the 200 answer. *)
Record Actions : Type := mkActions {
  act_alertCreated : bool;
  act_alertId : option nat;
  act_ventilationTriggered : bool;
  act_ventilationMode : option Mode;
  act_blockchainLogged : bool
}.

Inductive ResponseBody : Type :=
| Failure (error : string) (detail : option Exn)
| Processed (reading : ReadingSummary) (classification : MLPrediction)
            (actions : Actions)
| ReadingList (count : nat) (docs : list SensorReading)
| AlertList (count : nat)
            (docs : list (Alert * option (Gases * Z))).

Record Response : Type := mkResponse {
  status : Z;
  body : ResponseBody
}.

(** The outer [try { ... } catch (error) { res.status(500)... }]. *)
Definition handler (error : string) (m : M Response)
  : World -> Response * World :=
  fun w =>
    match m w with
    | (Ok r, w') => (r, w')
    | (Throw e, w') => (mkResponse 500 (Failure error (Some e)), w')
    end.

(** ** The controller *)

(** ToString of a property that holds a string or is absent. *)
Definition label_of (o : option string) : string :=
  match o with
  | Some s => s
  | None => "undefined"
  end.

Definition truthy_string (o : option string) : bool :=
  match o with
  | Some s => Js.str_nonempty s
  | None => false
  end.

Definition is_some {A} (o : option A) : bool :=
  match o with Some _ => true | None => false end.

Definition upper_char (c : ascii) : ascii :=
  let n := nat_of_ascii c in
  if (Nat.leb 97 n && Nat.leb n 122)%bool then ascii_of_nat (n - 32) else c.

(** [s.toUpperCase()], for ASCII letters. *)
Fixpoint toUpperCase (s : string) : string :=
  match s with
  | EmptyString => EmptyString
  | String c rest => String (upper_char c) (toUpperCase rest)
  end.

(** [SEVERITY_MAP[riskState] || fallback]; [None] when the result is an
    inherited member, which is not a string. *)
Definition severity_or (riskState fallback : string) : option string :=
  match lookup SEVERITY_MAP riskState with
  | Own s => if Js.str_nonempty s then Some s else Some fallback
  | Inherited => None
  | Missing => Some fallback
  end.

(** *** The logger (utils/logger.js) *)

(** The log files and the console are not part of the stores; what the
    logger can do to a request is throw, when it formats a value that has
    not the method it calls. *)

(** [v.toFixed(n)]: only a number has the method. *)
Definition has_toFixed (v : Js.value) : bool := Js.typeof_number v.

(** [v?.toFixed(n)]: skipped on null and undefined. *)
Definition opt_toFixed (v : Js.value) : bool :=
  match v with
  | Js.Undefined | Js.Null => true
  | _ => has_toFixed v
  end.

(** [v?.toUpperCase()]: skipped on null and undefined; only a string has
    the method. *)
Definition opt_toUpperCase (v : Js.value) : bool :=
  match v with
  | Js.Undefined | Js.Null | Js.Str _ => true
  | _ => false
  end.

(** The values that [logSensorInput] formats without an exception: the four
    gas values with [toFixed], the three environmental ones with
    [?.toFixed]. *)
Definition sensor_loggable (gases : Js.value) (environmental : Environmental)
  : bool :=
  has_toFixed (Js.prop gases "methane")
  && has_toFixed (Js.prop gases "lpg")
  && has_toFixed (Js.prop gases "carbonMonoxide")
  && has_toFixed (Js.prop gases "hydrogenSulfide")
  && opt_toFixed (temperature environmental)
  && opt_toFixed (humidity environmental)
  && opt_toFixed (pressure environmental).

(** Log incoming sensor reading *)
Definition logSensorInput (gases : Js.value) (environmental : Environmental)
  : M unit :=
  if sensor_loggable gases environmental then ret tt else throw TypeError.

(** [mlPrediction.ppmClassification?.gasRisks?.[gas]?.ppm] *)
Definition gasRisk_ppm (mlPrediction : MLPrediction) (gas : string)
  : Js.value :=
  match ppmClassification mlPrediction with
  | Some c => Js.prop (Js.prop (gasRisks c) gas) "ppm"
  | None => Js.Undefined
  end.

(** The answers that [logMLResponse] formats without an exception: the four
    [ppm] and the prediction error with [?.toFixed], the recommended action
    with [?.toUpperCase]. *)
Definition ml_loggable (mlPrediction : MLPrediction) : bool :=
  opt_toFixed (gasRisk_ppm mlPrediction "methane")
  && opt_toFixed (gasRisk_ppm mlPrediction "lpg")
  && opt_toFixed (gasRisk_ppm mlPrediction "carbonMonoxide")
  && opt_toFixed (gasRisk_ppm mlPrediction "hydrogenSulfide")
  && opt_toFixed (match anomalyDetection mlPrediction with
                  | Some a => predictionError a
                  | None => Js.Undefined
                  end)
  && opt_toUpperCase (recommendedAction mlPrediction).

(** Log ML service response (prediction) *)
Definition logMLResponse (mlPrediction : MLPrediction) : M unit :=
  if ml_loggable mlPrediction then ret tt else throw TypeError.

(** [logMLRequest], [logAlert], [logActions] and [logError] format values
    that are strings and numbers where they are called (the request was
    validated, the alert was saved), and do not throw. *)

(** Create alert based on ML classification *)
Definition createAlert (cfg : Config) (env : Env) (clientID : string)
    (mlPrediction : MLPrediction) (gasLevels : Js.value) (readingId : nat)
  : M Alert :=
  let riskState := label_of (riskState mlPrediction) in
  let severity := severity_or riskState "medium" in
  let dominantGas :=
    match ppmClassification mlPrediction with
    | Some p => if truthy_string (dominantGas p)
                then label_of (dominantGas p) else "unknown"
    | None => "unknown"
    end in
  let message := riskState ++ " risk detected in " ++ clientID in
  let message :=
    if negb (String.eqb dominantGas "unknown") then
      let gasName :=
        if String.eqb dominantGas "carbonMonoxide" then "CO"
        else if String.eqb dominantGas "hydrogenSulfide" then "H2S"
        else toUpperCase dominantGas in
      message ++ " - " ++ gasName ++ " levels elevated"
    else message in
  id <- fresh_id ;;
  match severity with
  | None => throw (ValidationError "Alert")
  | Some severity =>
      let alert :=
        mkAlert id clientID severity riskState message
          (mkGases (Js.prop gasLevels "methane") (Js.prop gasLevels "lpg")
                   (Js.prop gasLevels "carbonMonoxide")
                   (Js.prop gasLevels "hydrogenSulfide"))
          dominantGas
          (mkAlertMetadata
             (confidence mlPrediction)
             (match ppmClassification mlPrediction with
              | Some p => overallRisk p | None => None end)
             (match anomalyDetection mlPrediction with
              | Some a => risk a | None => None end)
             (classificationMethod mlPrediction)
             (match anomalyDetection mlPrediction with
              | Some a => predictionError a | None => Js.Undefined end)
             (leakProbability mlPrediction))
          "active"
          (js_ge (rank_value riskState) (rank_of "WARNING"))
          (BLOCKCHAIN_ENABLED cfg
           && js_ge (rank_value riskState) (rank_of "WARNING"))
          readingId
          (now env) in
      Alert_save env alert ;;;
      ret alert
  end.

(** Trigger ventilation system *)
Definition triggerVentilation (env : Env) (clientID riskState : string)
  : M VentilationStatus :=
  let mode := if String.eqb riskState "CRITICAL" then FORCED else AUTO in
  log_ventCall (clientID, mode) ;;;
  VentilationStatus_findOneAndUpdate env clientID
    (fun d =>
       mkVentilationStatus (v_clientID d) true mode
         (Some (mkTriggeredBy riskState (now env)
                              (riskState ++ " risk detected")))
         (Some (now env)) (v_deactivatedAt d) (v_timestamp d)).

(** [axios.post(`${ML_SERVICE_URL}/predict`, ...)]: the body of the answer,
    or an exception when the call fails or times out. *)
Definition axios_post_predict (env : Env) : M (option MLPrediction) :=
  match ml env with
  | MLFail => throw NetworkError
  | MLData d => ret d
  end.

(** [axios.post(`${BLOCKCHAIN_URL}/log-event`, ...)] *)
Definition axios_post_log_event (env : Env) (e : AuditEvent) : M unit :=
  log_auditPost e ;;;
  if auditPostOk env then ret tt else throw NetworkError.

Definition bad_request (error : string) : Response :=
  mkResponse 400 (Failure error None).

Definition set_alertCreated (a : ActionsTaken) : ActionsTaken :=
  mkActionsTaken true (ventilationTriggered a) (blockchainLogged a)
                 (notificationSent a).

Definition set_ventilationTriggered (a : ActionsTaken) : ActionsTaken :=
  mkActionsTaken (alertCreated a) true (blockchainLogged a)
                 (notificationSent a).

Definition set_blockchainLogged (a : ActionsTaken) : ActionsTaken :=
  mkActionsTaken (alertCreated a) (ventilationTriggered a) true
                 (notificationSent a).

Definition zone_room (clientID : string) : option string :=
  Some ("zone-" ++ clientID).

(** [mlPrediction.riskState], where a local [riskState] is in scope. *)
Definition ml_riskState (p : MLPrediction) : option string := riskState p.

(** Step 4 of [processSensorReading]: broadcast to the connected clients. *)
Definition broadcast (env : Env) (clientID riskState : string)
    (mlPrediction : MLPrediction) (reading : SensorReading)
    (alert : option Alert) (ventilationAction : option VentilationStatus)
  : M unit :=
  if io env then
    let sensorPayload := SensorPayload clientID riskState (r_timestamp reading) in
    let mlPayloadWs :=
      MlPayload clientID (label_of (ml_riskState mlPrediction))
                (severity_or (label_of (ml_riskState mlPrediction)) "low") in
    emit (zone_room clientID) "sensor-reading" sensorPayload ;;;
    emit (zone_room clientID) "ml-prediction" mlPayloadWs ;;;
    emit None "sensor-update" sensorPayload ;;;
    emit None "sensor-reading" sensorPayload ;;;
    emit None "ml-prediction" mlPayloadWs ;;;
    match alert with
    | Some alert =>
        let alertPayload :=
          AlertPayload clientID (a_severity alert) (a_riskState alert)
                       (a_message alert) (a_timestamp alert) in
        emit (zone_room clientID) "alert" alertPayload ;;;
        emit None "alert" alertPayload
    | None => ret tt
    end ;;;
    match ventilationAction with
    | Some ventilationAction =>
        let ventPayload :=
          VentPayload clientID (v_isActive ventilationAction)
                      (v_mode ventilationAction) riskState
                      (v_timestamp ventilationAction) in
        emit (zone_room clientID) "ventilation" ventPayload ;;;
        emit (zone_room clientID) "ventilation-status" ventPayload ;;;
        emit None "ventilation" ventPayload
    | None => ret tt
    end
  else ret tt.

(** Step 1 of [processSensorReading]: the call to the ML service, inside its
    own [try]; the [catch] answers 503, which ends the request. *)
Definition callMlService (env : Env) : M (MLPrediction + Response) :=
  try_catch
    (data <- axios_post_predict env ;;
     (* Validate ML response has required fields *)
     match data with
     | Some mlPrediction =>
         if negb (truthy_string (riskState mlPrediction))
            || negb (is_some (ppmClassification mlPrediction))
         then throw (Error "ML service returned incomplete response")
         else logMLResponse mlPrediction ;;; ret (inl mlPrediction)
     | None => throw (Error "ML service returned incomplete response")
     end)
    (fun mlError =>
       ret (inr (mkResponse 503
                   (Failure "ML service unavailable" (Some mlError))))).

(** Step 3, first action: create alert for UNUSUAL and above. *)
Definition alertStep (cfg : Config) (env : Env) (clientID : string)
    (mlPrediction : MLPrediction) (gases : Js.value) (readingId : nat)
    (riskLevel : Operand) (actionsTaken : ActionsTaken)
  : M (option Alert * ActionsTaken) :=
  if js_ge riskLevel (rank_of "UNUSUAL") then
    alert <- createAlert cfg env clientID mlPrediction gases readingId ;;
    ret (Some alert, set_alertCreated actionsTaken)
  else ret (None, actionsTaken).

(** Step 3, second action: trigger ventilation for WARNING and CRITICAL. *)
Definition ventilationStep (env : Env) (clientID riskState : string)
    (riskLevel : Operand) (actionsTaken : ActionsTaken)
  : M (option VentilationStatus * ActionsTaken) :=
  if js_ge riskLevel (rank_of "WARNING") then
    ventilationAction <- triggerVentilation env clientID riskState ;;
    ret (Some ventilationAction, set_ventilationTriggered actionsTaken)
  else ret (None, actionsTaken).

(** Step 3, third action: log to blockchain for WARNING and above; a failure
    of the post is caught and only leaves the flag unset. *)
Definition blockchainStep (cfg : Config) (env : Env)
    (clientID riskState : string) (gases : Js.value)
    (mlPrediction : MLPrediction) (alert : option Alert)
    (riskLevel : Operand) (actionsTaken : ActionsTaken)
  : M ActionsTaken :=
  if BLOCKCHAIN_ENABLED cfg && js_ge riskLevel (rank_of "WARNING") then
    try_catch
      (axios_post_log_event env
         (mkAuditEvent "GAS_ALERT" clientID riskState gases
            (match alert with Some a => Some (a_id a) | None => None end)
            (confidence mlPrediction) (now env)) ;;;
       ret (set_blockchainLogged actionsTaken))
      (fun bcError => ret actionsTaken)
  else ret actionsTaken.

(** What the collection keeps of a nested object of the prediction: nothing
    when none of its fields is set (a field that is null counts as not
    set). *)
Definition stored_ppm (c : option PpmClassification)
  : option PpmClassification :=
  match c with
  | Some c =>
      if is_some (overallRisk c) || is_some (dominantGas c)
         || negb (Js.is_undefined (gasRisks c))
      then Some c else None
  | None => None
  end.

Definition stored_anomaly (a : option AnomalyDetection)
  : option AnomalyDetection :=
  match a with
  | Some a =>
      if is_some (risk a) || negb (Js.is_undefined (predictionError a))
         || is_some (trend a)
      then Some a else None
  | None => None
  end.

(** Steps 2 to 5 of [processSensorReading], for a request that passed the
    validation and a complete answer of the ML service. *)
Definition decisionEngine (cfg : Config) (env : Env) (req : Body)
    (clientID : string) (gasReadings : Gases) (mlPrediction : MLPrediction)
  : M Response :=
  (* Step 2: the reading document *)
  readingId <- fresh_id ;;
  let new_reading (actionsTaken : ActionsTaken) : SensorReading :=
    mkSensorReading readingId clientID gasReadings
      (match environmental req with
       | Some e => e | None => empty_environmental end)
      (mkStored (riskState mlPrediction) (confidence mlPrediction)
                (stored_ppm (ppmClassification mlPrediction))
                (stored_anomaly (anomalyDetection mlPrediction))
                (leakProbability mlPrediction)
                (classificationMethod mlPrediction))
      (if truthy_string (source req)
       then label_of (source req) else "iot_device")
      actionsTaken
      (now env) in
  let actionsTaken := mkActionsTaken false false false false in
  (* Step 3: Decision Engine - Take actions based on risk state *)
  let riskState := label_of (riskState mlPrediction) in
  let riskLevel := rank_or_zero riskState in
  '(alert, actionsTaken) <-
    alertStep cfg env clientID mlPrediction (gases req) readingId riskLevel
              actionsTaken ;;
  '(ventilationAction, actionsTaken) <-
    ventilationStep env clientID riskState riskLevel actionsTaken ;;
  actionsTaken <-
    blockchainStep cfg env clientID riskState (gases req) mlPrediction alert
                   riskLevel actionsTaken ;;
  (* Update reading with actions taken *)
  let reading := new_reading actionsTaken in
  SensorReading_save env reading ;;;
  (* Step 4: Broadcast to connected clients via WebSocket *)
  broadcast env clientID riskState mlPrediction reading alert
            ventilationAction ;;;
  (* Step 5: Send response *)
  ret (mkResponse 200
    (Processed
       (mkReadingSummary (r_id reading) (r_clientID reading)
          (ml_riskState mlPrediction) (confidence mlPrediction)
          (r_timestamp reading))
       mlPrediction
       (mkActions
          (alertCreated (r_actionsTaken reading))
          (match alert with Some a => Some (a_id a) | None => None end)
          (ventilationTriggered (r_actionsTaken reading))
          (match ventilationAction with
           | Some v => Some (v_mode v) | None => None end)
          (blockchainLogged (r_actionsTaken reading))))).

(** Process IoT sensor reading.  Main endpoint: POST /api/readings.
    The function of the source, with its numbered steps named above. *)
Definition processSensorReading (cfg : Config) (env : Env) (req : Body)
  : World -> Response * World :=
  handler "Internal server error" (
    (* Validate required fields *)
    if negb (truthy_string (clientID req)) || negb (Js.truthy (gases req)) then
      ret (bad_request "Missing required fields: clientID and gases")
    else
    (* Validate gas readings exist and are valid numbers *)
    let methane := Js.prop (gases req) "methane" in
    let lpg := Js.prop (gases req) "lpg" in
    let carbonMonoxide := Js.prop (gases req) "carbonMonoxide" in
    let hydrogenSulfide := Js.prop (gases req) "hydrogenSulfide" in
    if Js.is_undefined methane || Js.is_undefined lpg
       || Js.is_undefined carbonMonoxide || Js.is_undefined hydrogenSulfide
    then
      ret (bad_request
        "All gas readings required: methane, lpg, carbonMonoxide, hydrogenSulfide")
    else
    if negb (isValidGasReading methane) || negb (isValidGasReading lpg)
       || negb (isValidGasReading carbonMonoxide)
       || negb (isValidGasReading hydrogenSulfide)
    then
      ret (bad_request "Gas readings must be non-negative finite numbers")
    else
    (* Log incoming sensor reading *)
    logSensorInput (gases req)
      (match environmental req with
       | Some e => e | None => empty_environmental end) ;;;
    called <- callMlService env ;;
    match called with
    | inr response => ret response
    | inl mlPrediction =>
        decisionEngine cfg env req (label_of (clientID req))
          (mkGases methane lpg carbonMonoxide hydrogenSulfide) mlPrediction
    end).

(** The request is one that the input logger formats without an
    exception. *)
Definition input_loggable (req : Body) : bool :=
  sensor_loggable (gases req)
    (match environmental req with
     | Some e => e | None => empty_environmental end).

Definition gas_names : list string :=
  [ "methane"; "lpg"; "carbonMonoxide"; "hydrogenSulfide" ].

(** A body that passes the validation of [processSensorReading]. *)
Definition valid_body (req : Body) : bool :=
  truthy_string (clientID req)
  && Js.truthy (gases req)
  && forallb (fun g => isValidGasReading (Js.prop (gases req) g)) gas_names.

(** The collections and the outgoing traffic are the same in [w] and [w']
    (the counter of identifiers may differ). *)
Definition same_stores (w w' : World) : Prop :=
  readings w' = readings w
  /\ alerts w' = alerts w
  /\ ventilation w' = ventilation w
  /\ auditPosts w' = auditPosts w
  /\ emitted w' = emitted w
  /\ ventCalls w' = ventCalls w.

(** A run of the server: the readings are processed one after the other. *)
Fixpoint processAll (cfg : Config) (inputs : list (Env * Body)) (w : World)
  : list Response * World :=
  match inputs with
  | [] => ([], w)
  | (env, req) :: rest =>
      let '(r, w1) := processSensorReading cfg env req w in
      let '(rs, w2) := processAll cfg rest w1 in
      (r :: rs, w2)
  end.

(** ** The history queries *)

Fixpoint insert_desc {A} (key : A -> Z) (x : A) (l : list A) : list A :=
  match l with
  | [] => [x]
  | y :: rest =>
      if key y <=? key x then x :: y :: rest
      else y :: insert_desc key x rest
  end.

(** [.sort({ timestamp: -1 })]: newest first; documents of equal timestamp
    keep their order. *)
Definition sort_desc {A} (key : A -> Z) (l : list A) : list A :=
  fold_right (insert_desc key) [] l.

(** [.limit(n)] for a positive [n]. *)
Definition limit {A} (n : Z) (l : list A) : list A :=
  firstn (Z.to_nat n) l.

(** [req.query] of [GET /api/readings]. *)
Record ReadingsQuery : Type := mkReadingsQuery {
  rq_clientID : option string;
  rq_limit : option QueryVal;
  rq_riskState : option string
}.

(** [req.query] of [GET /api/alerts]. *)
Record AlertsQuery : Type := mkAlertsQuery {
  aq_clientID : option string;
  aq_status : option string;
  aq_limit : option QueryVal
}.

(** A filter field that is set only when the parameter is truthy. *)
Definition field_matches (param : option string) (actual : option string)
  : bool :=
  if truthy_string param
  then match actual with
       | Some s => String.eqb s (label_of param)
       | None => false
       end
  else true.

(** Get recent readings.  GET /api/readings *)
Definition getReadings (dbOk : bool) (query : ReadingsQuery) (w : World)
  : Response :=
  if dbOk then
    let found :=
      filter (fun r =>
                field_matches (rq_clientID query) (Some (r_clientID r))
                && field_matches (rq_riskState query)
                                 (sp_riskState (r_mlPrediction r)))
             (readings w) in
    let docs :=
      limit (parseLimit (limit_or_default (rq_limit query)))
            (sort_desc r_timestamp found) in
    mkResponse 200 (ReadingList (List.length docs) docs)
  else mkResponse 500 (Failure "" (Some DbError)).

(** [.populate('readingId', 'gasReadings timestamp')] *)
Definition populate (w : World) (a : Alert) : Alert * option (Gases * Z) :=
  (a,
   match find (fun r => Nat.eqb (r_id r) (a_readingId a)) (readings w) with
   | Some r => Some (r_gasReadings r, r_timestamp r)
   | None => None
   end).

(** Get active alerts.  GET /api/alerts *)
Definition getAlerts (dbOk : bool) (query : AlertsQuery) (w : World)
  : Response :=
  if dbOk then
    let status :=
      match aq_status query with
      | Some s => s
      | None => "active"
      end in
    let found :=
      filter (fun a =>
                String.eqb (a_status a) status
                && field_matches (aq_clientID query) (Some (a_clientID a)))
             (alerts w) in
    let docs :=
      map (populate w)
          (limit (parseLimit (limit_or_default (aq_limit query)))
                 (sort_desc a_timestamp found)) in
    mkResponse 200 (AlertList (List.length docs) docs)
  else mkResponse 500 (Failure "" (Some DbError)).

(** The documents carried by an answer. *)
Definition returned_documents (r : Response) : nat :=
  match body r with
  | ReadingList _ docs => List.length docs
  | AlertList _ docs => List.length docs
  | _ => 0%nat
  end.

(** ** The legacy helper [services/mlService.js] *)

Record LegacyPrediction : Type := mkLegacyPrediction {
  lp_riskState : string;
  lp_notify : bool;
  lp_alarm : bool;
  lp_ventilation : bool
}.

(** [getRiskPrediction]: the answer of the ML service, or the safe fallback
    when the call throws. *)
Definition getRiskPrediction (answer : option LegacyPrediction)
  : LegacyPrediction :=
  match answer with
  | Some data => data
  | None => mkLegacyPrediction "UNKNOWN" false false false
  end.

(** ** The risk levels *)

(** The six labels of [RISK_HIERARCHY]. *)
Inductive RiskLevel : Type :=
| NORMAL | LOW_ANOMALY | UNUSUAL | ALERT | WARNING | CRITICAL.

Definition label (l : RiskLevel) : string :=
  match l with
  | NORMAL => "NORMAL"
  | LOW_ANOMALY => "LOW_ANOMALY"
  | UNUSUAL => "UNUSUAL"
  | ALERT => "ALERT"
  | WARNING => "WARNING"
  | CRITICAL => "CRITICAL"
  end.

(** The rank of a level in [RISK_HIERARCHY]. *)
Definition rank (l : RiskLevel) : Z := rank_of (label l).

Definition all_levels : list RiskLevel :=
  [ NORMAL; LOW_ANOMALY; UNUSUAL; ALERT; WARNING; CRITICAL ].

(** The mode [triggerVentilation] asks for. *)
Definition target_mode (l : RiskLevel) : Mode :=
  match l with
  | CRITICAL => FORCED
  | _ => AUTO
  end.

(** ** The fusion rule *)

Module Fusion.

Inductive Confidence : Type := high | medium | low.

Inductive Trend : Type := increasing | decreasing | stable.

Record ThresholdClassification : Type := mkThreshold {
  t_overallRisk : RiskLevel;
  t_dominantGas : string
}.

Record AnomalyClassification : Type := mkAnomalyClassification {
  a_risk : RiskLevel;
  a_predictionError : Q;
  a_trend : Trend
}.

Inductive AnomalyOutcome : Type :=
| Available (a : AnomalyClassification)
| Unavailable.

Record FusedClassification : Type := mkFused {
  f_riskLevel : RiskLevel;
  f_confidence : Confidence;
  f_leakProbability : Q
}.

Definition max_level (a b : RiskLevel) : RiskLevel :=
  if rank a <? rank b then b else a.

Definition agreement (a b : RiskLevel) : Confidence :=
  let d := Z.abs (rank a - rank b) in
  if d =? 0 then high else if d =? 1 then medium else low.

Definition leak_probability (l : RiskLevel) : Q :=
  Qmake (rank l) 5.

(** Modelled from the spec: the hybrid classifier of the ML service
    ([ml-service/app.py]) is not among the sources; only its documentation
    is ([ARCHITECTURE.md], "Fusion: Max-Risk Rule").  [Fuse] follows the
    Fusion Engine of the specification: the level is the maximum of both
    ranks (the threshold level alone when the anomaly detector is
    unavailable), the confidence comes from the distance of the ranks (low
    when unavailable), the leak probability is the rank over 5. *)
Definition Fuse (threshold : ThresholdClassification)
    (anomaly : AnomalyOutcome) : FusedClassification :=
  match anomaly with
  | Available a =>
      let l := max_level (t_overallRisk threshold) (a_risk a) in
      mkFused l (agreement (t_overallRisk threshold) (a_risk a))
              (leak_probability l)
  | Unavailable =>
      mkFused (t_overallRisk threshold) low
              (leak_probability (t_overallRisk threshold))
  end.

End Fusion.

(** ** Decimal numerals *)

(** The value of a decimal numeral read from the left, [acc] being the
    value of the digits already read. *)
Fixpoint uint_value (acc : Z) (d : Decimal.uint) : Z :=
  match d with
  | Decimal.Nil => acc
  | Decimal.D0 d => uint_value (acc * 10 + 0) d
  | Decimal.D1 d => uint_value (acc * 10 + 1) d
  | Decimal.D2 d => uint_value (acc * 10 + 2) d
  | Decimal.D3 d => uint_value (acc * 10 + 3) d
  | Decimal.D4 d => uint_value (acc * 10 + 4) d
  | Decimal.D5 d => uint_value (acc * 10 + 5) d
  | Decimal.D6 d => uint_value (acc * 10 + 6) d
  | Decimal.D7 d => uint_value (acc * 10 + 7) d
  | Decimal.D8 d => uint_value (acc * 10 + 8) d
  | Decimal.D9 d => uint_value (acc * 10 + 9) d
  end.

(** ** Sample data *)

Definition sample_number (z : Z) : Js.value :=
  Js.Num (Js.Finite (inject_Z z)).

Definition sample_gases : Js.value :=
  Js.Obj [ ("methane", sample_number 300); ("lpg", sample_number 200);
           ("carbonMonoxide", sample_number 50);
           ("hydrogenSulfide", sample_number 45) ].

Definition sample_body : Body :=
  mkBody (Some "zone-1") sample_gases None None.

(** A body without the [lpg] reading. *)
Definition sample_body_no_lpg : Body :=
  mkBody (Some "zone-1")
         (Js.Obj [ ("methane", sample_number 300);
                   ("carbonMonoxide", sample_number 50);
                   ("hydrogenSulfide", sample_number 45) ])
         None None.

(** A valid body whose temperature is the string ["25"]. *)
Definition sample_body_temperature_string : Body :=
  mkBody (Some "zone-1") sample_gases
         (Some (mkEnvironmental (Js.Str "25") Js.Undefined Js.Undefined))
         None.

Definition sample_prediction (riskState : string) : MLPrediction :=
  mkPrediction (Some riskState) (Some "high")
    (Some (mkPpm (Some riskState) (Some "hydrogenSulfide")
                 (Js.Obj [("hydrogenSulfide",
                           Js.Obj [("ppm", sample_number 45);
                                   ("risk", Js.Str riskState)])])))
    (Some (mkAnomaly (Some "NORMAL") (sample_number 0) (Some "stable")))
    None (Some "hybrid_ppm_lstm") (Js.Str "evacuate").

(** Every collaborator answers; the ML service returns [riskState]. *)
Definition sample_env (riskState : string) : Env :=
  mkEnv (MLData (Some (sample_prediction riskState)))
        true true true true true 1000.

Definition sample_env_ml_down : Env :=
  mkEnv MLFail true true true true true 1000.


Definition sample_env_audit_down (riskState : string) : Env :=
  mkEnv (MLData (Some (sample_prediction riskState)))
        true true false true true 1000.

Definition blockchain_on : Config := mkConfig true.

Definition blockchain_off : Config := mkConfig false.

(** The stores after one WARNING reading of [zone-1]: its mode is AUTO. *)
Definition world_after_warning : World :=
  snd (processSensorReading blockchain_on (sample_env "WARNING") sample_body
                            empty_world).

(** ** What one request may do to the stores *)

(** How many documents and calls one request may add. *)
Record Growth : Type := mkGrowth {
  g_readings : nat;
  g_alerts : nat;
  g_audit : nat;
  g_vent : nat;
  g_events : nat
}.

Definition no_growth : Growth := mkGrowth 0 0 0 0 0.

Definition add_growth (a b : Growth) : Growth :=
  mkGrowth (g_readings a + g_readings b) (g_alerts a + g_alerts b)
           (g_audit a + g_audit b) (g_vent a + g_vent b)
           (g_events a + g_events b).

(** [w'] comes from [w] by appending: at most as many readings, alerts,
    audit posts, ventilation updates and socket events as [g] allows; the
    ventilation documents of the zones other than [cid] are the
    same; identifiers are not reused. *)
Definition grows (g : Growth) (cid : string) (w w' : World) : Prop :=
  (exists l, readings w' = (readings w ++ l)%list
             /\ (List.length l <= g_readings g)%nat)
  /\ (exists l, alerts w' = (alerts w ++ l)%list
                /\ (List.length l <= g_alerts g)%nat)
  /\ (exists l, auditPosts w' = (auditPosts w ++ l)%list
                /\ (List.length l <= g_audit g)%nat)
  /\ (exists l, ventCalls w' = (ventCalls w ++ l)%list
                /\ (List.length l <= g_vent g)%nat)
  /\ (exists l, emitted w' = (emitted w ++ l)%list
                /\ (List.length l <= g_events g)%nat)
  /\ (forall c, c <> cid -> find_ventilation c w' = find_ventilation c w)
  /\ (nextId w <= nextId w')%nat.

(** Neither a reading nor a socket event was added. *)
Definition keeps_log (w w' : World) : Prop :=
  readings w' = readings w /\ emitted w' = emitted w.

(** A reading of another zone. *)
Definition sample_body_zone2 : Body :=
  mkBody (Some "zone-2") sample_gases None None.

(** The ML service answered, with the two fields [processSensorReading]
    requires, and the logger can format the answer. *)
Definition ml_accepted (env : Env) : bool :=
  match ml env with
  | MLData (Some p) =>
      truthy_string (riskState p) && is_some (ppmClassification p)
      && ml_loggable p
  | _ => false
  end.

(** The reading is saved last: every collaborator answers but the collection
    of readings. *)
Definition sample_env_reading_down (riskState : string) : Env :=
  mkEnv (MLData (Some (sample_prediction riskState)))
        true true true false true 1000.

(** The alert of a CRITICAL reading of [zone-1] whose audit post fails. *)
Definition sample_alert : Alert :=
  match alerts (snd (processSensorReading blockchain_on
                       (sample_env_audit_down "CRITICAL") sample_body
                       empty_world)) with
  | a :: _ => a
  | [] => mkAlert 0 "" "" "" "" (mkGases Js.Undefined Js.Undefined
                                         Js.Undefined Js.Undefined)
                  "" (mkAlertMetadata None None None None Js.Undefined None)
                  "" false false 0 0
  end.


(** [GET /api/alerts?clientID=zone-1] *)
Definition sample_alerts_query : AlertsQuery :=
  mkAlertsQuery (Some "zone-1") None None.

(** The alert of the WARNING reading of [world_after_warning]. *)
Definition sample_warning_alert : Alert :=
  match alerts world_after_warning with
  | a :: _ => a
  | [] => sample_alert
  end.

(** ** Manual ventilation control *)

(** The body of [POST /api/ventilation].  The mode is one of the three names
    of the schema enumeration, or absent; [isOn] is any value. *)
Record VentilationBody : Type := mkVentilationBody {
  vb_clientID : option string;
  vb_isOn : Js.value;
  vb_mode : option Mode;
  vb_reason : option string
}.

(** [ventStatus || { clientID, isActive: false, mode: 'OFF' }] *)
Inductive VentilationView : Type :=
| VentilationDocument (d : VentilationStatus)
| VentilationDefault (clientID : string).

Inductive ControlBody : Type :=
| ControlRejected (error : string)
| ControlThrown (e : Exn)
| ControlDone (ventilation : VentilationView).

Record ControlResponse : Type := mkControlResponse {
  c_status : Z;
  c_body : ControlBody
}.

(** [VentilationStatus.findOneAndUpdate({ clientID }, { $set }, { new: true })]
    without [upsert]: the first matching document is updated and returned;
    when there is none, nothing is written and the result is [null]. *)
Definition VentilationStatus_findOneAndUpdate_existing (env : Env)
    (clientID : string) (set : VentilationStatus -> VentilationStatus)
  : M (option VentilationStatus) :=
  fun w =>
    if ventUpdateOk env then
      match update_first clientID set (ventilation w) with
      | Some (d, coll) => (Ok (Some d), set_ventilation w coll)
      | None => (Ok None, w)
      end
    else (Throw DbError, w).

(** [mode || 'AUTO'] *)
Definition mode_or_auto (mode : option Mode) : Mode :=
  match mode with
  | Some m => m
  | None => AUTO
  end.

(** The [$set] of a manual activation. *)
Definition manual_on (env : Env) (req : VentilationBody)
    (d : VentilationStatus) : VentilationStatus :=
  mkVentilationStatus (v_clientID d) true (mode_or_auto (vb_mode req))
    (Some (mkTriggeredBy "MANUAL" (now env)
             (if truthy_string (vb_reason req)
              then label_of (vb_reason req)
              else "Manual activation from dashboard")))
    (Some (now env)) (v_deactivatedAt d) (v_timestamp d).

(** The [$set] of a manual deactivation. *)
Definition manual_off (env : Env) (d : VentilationStatus)
  : VentilationStatus :=
  mkVentilationStatus (v_clientID d) false OFF (v_triggeredBy d)
    (v_activatedAt d) (Some (now env)) (v_timestamp d).

(** Manual ventilation control.  POST /api/ventilation *)
Definition controlVentilation (env : Env) (req : VentilationBody)
  : World -> ControlResponse * World :=
  fun w =>
    match
      (if negb (truthy_string (vb_clientID req)) then
         ret (mkControlResponse 400 (ControlRejected "clientID required"))
       else
         let clientID := label_of (vb_clientID req) in
         ventStatus <-
           (if Js.truthy (vb_isOn req) then
              log_ventCall (clientID, mode_or_auto (vb_mode req)) ;;;
              d <- VentilationStatus_findOneAndUpdate env clientID
                     (manual_on env req) ;;
              ret (Some d)
            else
              log_ventCall (clientID, OFF) ;;;
              VentilationStatus_findOneAndUpdate_existing env clientID
                (manual_off env)) ;;
         (* Broadcast via WebSocket *)
         (if io env then
            let payload :=
              VentPayload clientID (Js.truthy (vb_isOn req))
                (if Js.truthy (vb_isOn req)
                 then mode_or_auto (vb_mode req) else OFF)
                "MANUAL" (now env) in
            emit (zone_room clientID) "ventilation-status" payload ;;;
            emit None "ventilation" payload
          else ret tt) ;;;
         ret (mkControlResponse 200
                (ControlDone
                   (match ventStatus with
                    | Some d => VentilationDocument d
                    | None => VentilationDefault clientID
                    end)))) w
    with
    | (Ok r, w') => (r, w')
    | (Throw e, w') => (mkControlResponse 500 (ControlThrown e), w')
    end.

Definition sample_switch_off : VentilationBody :=
  mkVentilationBody (Some "zone-1") (Js.Bool false) None None.

Definition sample_switch_on : VentilationBody :=
  mkVentilationBody (Some "zone-1") (Js.Bool true) (Some FORCED) None.

(** The stores after one CRITICAL reading of [zone-1]: its mode is FORCED. *)
Definition world_after_critical : World :=
  snd (processSensorReading blockchain_on (sample_env "CRITICAL") sample_body
                            empty_world).

(** ** Acknowledging an alert *)

(** The collections together with the [acknowledgedAt] field of the alerts,
    which no alert has when it is created: the times are kept beside the
    collection, by alert identifier. *)
Record Desk : Type := mkDesk {
  stores : World;
  acknowledgedAt : list (nat * Z)
}.

Inductive AckBody : Type :=
| AckThrown (e : Exn)
| AckNotFound (error : string)
| AckDone (alert : Alert) (acknowledged_at : Z).

Record AckResponse : Type := mkAckResponse {
  k_status : Z;
  k_body : AckBody
}.

(** The update of the first alert with this identifier. *)
Fixpoint update_alert (id : nat) (f : Alert -> Alert) (coll : list Alert)
  : option (Alert * list Alert) :=
  match coll with
  | [] => None
  | a :: rest =>
      if Nat.eqb (a_id a) id then Some (f a, f a :: rest)
      else match update_alert id f rest with
           | Some (a', rest') => Some (a', a :: rest')
           | None => None
           end
  end.

Definition set_status (status : string) (a : Alert) : Alert :=
  mkAlert (a_id a) (a_clientID a) (a_severity a) (a_riskState a)
          (a_message a) (a_gasLevels a) (a_dominantGas a) (a_metadata a)
          status (a_ventilation a) (a_blockchain a) (a_readingId a)
          (a_timestamp a).

Definition record_time (id : nat) (t : Z) (times : list (nat * Z))
  : list (nat * Z) :=
  (id, t) :: filter (fun e => negb (Nat.eqb (fst e) id)) times.

Fixpoint time_of (id : nat) (times : list (nat * Z)) : option Z :=
  match times with
  | [] => None
  | (i, t) :: rest => if Nat.eqb i id then Some t else time_of id rest
  end.

(** Acknowledge alert.  PUT /api/alerts/:id/acknowledge, for a path segment
    that is a well-formed identifier:
    [Alert.findByIdAndUpdate(id, { status: 'acknowledged',
                                   acknowledgedAt: new Date() }, { new: true })],
    404 when there is no such alert, 500 when the update throws. *)
Definition acknowledgeAlert (dbOk : bool) (now : Z) (id : nat) (s : Desk)
  : AckResponse * Desk :=
  if dbOk then
    match update_alert id (set_status "acknowledged") (alerts (stores s)) with
    | Some (alert, coll) =>
        (mkAckResponse 200 (AckDone alert now),
         mkDesk (set_alerts (stores s) coll)
                (record_time id now (acknowledgedAt s)))
    | None => (mkAckResponse 404 (AckNotFound "Alert not found"), s)
    end
  else (mkAckResponse 500 (AckThrown DbError), s).

(** ** Statistics *)

Definition RISK_DISTRIBUTION : list (string * nat) :=
  [ ("NORMAL", 0%nat); ("LOW_ANOMALY", 0%nat); ("UNUSUAL", 0%nat);
    ("ALERT", 0%nat); ("WARNING", 0%nat); ("CRITICAL", 0%nat) ].

(** [riskDistribution[risk]++] for an own key [risk]. *)
Fixpoint increment (risk : string) (dist : list (string * nat))
  : list (string * nat) :=
  match dist with
  | [] => []
  | (k, n) :: rest =>
      if String.eqb risk k then (k, S n) :: rest
      else (k, n) :: increment risk rest
  end.

(** The body of the [forEach] over the recent readings. *)
Definition tally (dist : list (string * nat)) (reading : SensorReading)
  : list (string * nat) :=
  let risk := sp_riskState (r_mlPrediction reading) in
  if truthy_string risk && is_some (own dist (label_of risk))
  then increment (label_of risk) dist
  else dist.

Record Stats : Type := mkStats {
  totalReadings : nat;
  activeAlerts : nat;
  riskDistribution : list (string * nat)
}.

Inductive StatsResponse : Type :=
| StatsOk (stats : Stats)
| StatsFailed (e : Exn).

(** The readings the distribution is computed from:
    [SensorReading.find().sort({ timestamp: -1 }).limit(100)]. *)
Definition recentReadings (w : World) : list SensorReading :=
  limit 100 (sort_desc r_timestamp (readings w)).

(** Statistics route.  GET /api/stats *)
Definition getStats (dbOk : bool) (w : World) : StatsResponse :=
  if dbOk then
    StatsOk
      (mkStats
         (List.length (readings w))
         (List.length
            (filter (fun a => String.eqb (a_status a) "active") (alerts w)))
         (fold_left tally (recentReadings w) RISK_DISTRIBUTION))
  else StatsFailed DbError.

(** The readings of a list whose risk state is [risk]. *)
Definition with_risk (risk : string) (l : list SensorReading)
  : list SensorReading :=
  filter (fun r => match sp_riskState (r_mlPrediction r) with
                   | Some s => String.eqb s risk
                   | None => false
                   end) l.

(** The sum of the counts of a distribution. *)
Definition total (dist : list (string * nat)) : nat :=
  fold_right (fun e n => (snd e + n)%nat) 0%nat dist.

(** ** The audit ledger (blockchain-service/server.js) *)

Module Ledger.

Definition MAX_TRANSACTIONS : Z := 10000.
Definition MAX_BLOCKS : Z := 2000.

Record Transaction : Type := mkTransaction {
  hash : string;
  eventType : Js.value;
  data : Js.value;
  timestamp : Z;
  blockNumber : Z;
  gasUsed : Z;
  from : string
}.

Record Block : Type := mkBlock {
  b_number : Z;
  b_hash : string;
  b_parentHash : string;
  b_timestamp : Z;
  b_transactions : list string;
  b_gasUsed : Z;
  b_gasLimit : Z
}.

(** [blockchainSimulation] *)
Record Simulation : Type := mkSimulation {
  blocks : list Block;
  transactions : list Transaction;
  currentBlock : Z
}.

(** [blockchainSimulation] as [loadFromFile] leaves it when there is no
    usable data file, before the service is initialized. *)
Definition fresh : Simulation := mkSimulation [] [] 0.

(** What [generateHash] and the clock give during one request. *)
Record Draw : Type := mkDraw {
  txHash : string;
  txTime : Z;
  blockHash : string;
  blockTime : Z;
  replyTime : Z
}.

(** [l.slice(start)] for an integer [start]. *)
Definition slice {A} (start : Z) (l : list A) : list A :=
  let len := Z.of_nat (List.length l) in
  let k := if start <? 0 then Z.max (len + start) 0 else Z.min start len in
  skipn (Z.to_nat k) l.

(** [l.slice(-limit)] for the result of [parseInt]; [-NaN] is NaN, which
    [slice] takes as 0. *)
Definition slice_last {A} (limit : option Z) (l : list A) : list A :=
  match limit with
  | Some n => slice (- n) l
  | None => slice 0 l
  end.

Definition ZERO_HASH : string :=
  "0x0000000000000000000000000000000000000000000000000000000000000000".

Definition ACCOUNT : string := "0x1234567890123456789012345678901234567890".

Definition set_blocks (s : Simulation) (bs : list Block) : Simulation :=
  mkSimulation bs (transactions s) (currentBlock s).

Definition createSimulatedBlock (d : Draw) (s : Simulation) : Simulation :=
  let blockTransactions := slice (-5) (transactions s) in
  let block :=
    mkBlock (currentBlock s) (blockHash d)
      (match blocks s with
       | b :: _ => b_hash (last (blocks s) b)
       | [] => ZERO_HASH
       end)
      (blockTime d)
      (map hash blockTransactions)
      (fold_left (fun sum tx => sum + gasUsed tx) blockTransactions 0)
      8000000 in
  let pushed := (blocks s ++ [block])%list in
  if Z.of_nat (List.length pushed) >? MAX_BLOCKS
  then set_blocks s (slice (- MAX_BLOCKS) pushed)
  else set_blocks s pushed.

(** [saveToFile] writes the state out and swallows its own errors; it does
    not change the state. *)
Definition addSimulatedTransaction (d : Draw) (eventType data : Js.value)
    (s : Simulation) : Transaction * Simulation :=
  let number := currentBlock s + 1 in
  let transaction :=
    mkTransaction (txHash d) eventType data (txTime d) number 21000 ACCOUNT in
  let pushed := (transactions s ++ [transaction])%list in
  let kept :=
    if Z.of_nat (List.length pushed) >? MAX_TRANSACTIONS
    then slice (- MAX_TRANSACTIONS) pushed
    else pushed in
  let s1 := mkSimulation (blocks s) kept number in
  (transaction,
   if Z.of_nat (List.length kept) mod 5 =? 0
   then createSimulatedBlock d s1
   else s1).

Record LogResult : Type := mkLogResult {
  success : bool;
  transactionHash : string;
  r_blockNumber : Z;
  r_gasUsed : Z;
  simulated : bool
}.

Definition logEventSimulated (d : Draw) (eventType data : Js.value)
    (s : Simulation) : LogResult * Simulation :=
  let '(transaction, s') := addSimulatedTransaction d eventType data s in
  (mkLogResult true (hash transaction) (blockNumber transaction) 21000 true,
   s').

Definition logEvent (isConnected : bool) (d : Draw)
    (eventType data : Js.value) (s : Simulation) : LogResult * Simulation :=
  if isConnected then
    (mkLogResult true (txHash d) (currentBlock s + 1) 21000 false,
     mkSimulation (blocks s) (transactions s) (currentBlock s + 1))
  else logEventSimulated d eventType data s.

(** [initializeBlockchain] leaves [isConnected] false on both of its paths,
    and nothing else assigns it. *)
Definition isConnected : bool := false.

Record LogEventBody : Type := mkLogEventBody {
  q_eventType : Js.value;
  q_data : Js.value;
  q_timestamp : Js.value
}.

Inductive Stamp : Type :=
| Given (v : Js.value)
| Clock (t : Z).

Inductive LogEventResponse : Type :=
| Rejected (status : Z) (error : string)
| Logged (transaction : LogResult) (stamp : Stamp).

(** [app.post('/log-event', ...)] *)
Definition postLogEvent (d : Draw) (body : LogEventBody) (s : Simulation)
  : LogEventResponse * Simulation :=
  if negb (Js.truthy (q_eventType body)) || negb (Js.truthy (q_data body))
  then (Rejected 400 "eventType and data are required", s)
  else
    let '(result, s') :=
      logEvent isConnected d (q_eventType body) (q_data body) s in
    (Logged result
       (if Js.truthy (q_timestamp body) then Given (q_timestamp body)
        else Clock (replyTime d)),
     s').

(** [initializeSimulation]: a chain that is empty gets its two first
    transactions. *)
Definition initializeSimulation (d1 d2 : Draw) (s : Simulation)
  : Simulation :=
  if Nat.eqb (List.length (transactions s)) 0 then
    snd (addSimulatedTransaction d2 (Js.Str "sensor_calibration")
           (Js.Obj [("sensors", Js.Num (Js.Finite (inject_Z 24)))])
           (snd (addSimulatedTransaction d1 (Js.Str "system_start")
                   (Js.Obj [("action", Js.Str "initialization")]) s)))
  else s.

(** The service once started: [loadFromFile], which yields the data of the
    file or the empty chain, then the constructor of [BlockchainService]. *)
Definition start (loaded : option Simulation) (d1 d2 : Draw) : Simulation :=
  initializeSimulation d1 d2
    (match loaded with
     | Some data => data
     | None => fresh
     end).

(** The sequence of the events that were accepted. *)
Fixpoint logEvents (events : list (Draw * Js.value * Js.value))
    (s : Simulation) : Simulation :=
  match events with
  | [] => s
  | (d, eventType, data) :: rest =>
      logEvents rest (snd (logEvent isConnected d eventType data s))
  end.

Record TransactionView : Type := mkTransactionView {
  v_eventType : Js.value;
  v_data : Js.value;
  v_timestamp : Z;
  v_transactionHash : string;
  v_blockNumber : Z;
  v_gasUsed : Z;
  v_simulated : bool
}.

Definition view (tx : Transaction) : TransactionView :=
  mkTransactionView (eventType tx) (data tx) (timestamp tx) (hash tx)
                    (blockNumber tx) (gasUsed tx) true.

Definition getSimulatedTransactions (limit : option Z) (s : Simulation)
  : list TransactionView :=
  map view (slice_last limit (transactions s)).

(** [app.get('/transactions', ...)], with
    [const { limit = 10 } = req.query]: the transactions and their count. *)
Definition getTransactions (limit : option QueryVal) (s : Simulation)
  : list TransactionView * nat :=
  let limit :=
    parseInt (match limit with
              | None => LNum 10
              | Some v => LQuery v
              end) in
  let transactions := getSimulatedTransactions limit s in
  (transactions, List.length transactions).

(** [v === zone] for a string [zone]. *)
Definition is_string (v : Js.value) (zone : string) : bool :=
  match v with
  | Js.Str s => String.eqb s zone
  | _ => false
  end.

(** [app.get('/transactions/zone/:zone', ...)] *)
Definition getTransactionsByZone (zone : string) (s : Simulation)
  : list TransactionView * nat :=
  let filtered :=
    filter (fun tx =>
              Js.truthy (data tx)
              && (is_string (Js.prop (data tx) "clientID") zone
                  || is_string (Js.prop (data tx) "zone") zone))
           (transactions s) in
  (map view filtered, List.length filtered).

(** [app.get('/blocks', ...)]: the blocks, their count and [totalBlocks]. *)
Definition getBlocks (limit : option QueryVal) (s : Simulation)
  : list Block * nat * nat :=
  let limit :=
    Z.min (or_default (match limit with
                       | None => None
                       | Some v => parseInt (LQuery v)
                       end) 50) 500 in
  let found := slice (- limit) (blocks s) in
  (found, List.length found, List.length (blocks s)).

(** Each block names the block before it. *)
Fixpoint linked (bs : list Block) : Prop :=
  match bs with
  | [] => True
  | b :: rest =>
      match rest with
      | [] => True
      | b' :: _ => b_parentHash b' = b_hash b /\ linked rest
      end
  end.

(** The transactions are numbered in increasing order, up to the counter. *)
Definition numbered (s : Simulation) : Prop :=
  StronglySorted Z.lt (map blockNumber (transactions s))
  /\ Forall (fun tx => blockNumber tx <= currentBlock s) (transactions s).

End Ledger.

(** ** From the controller to the ledger *)

(** The request body that [axios.post] sends for an audit event of a request
    whose [clientID] is a string, the only identifiers that [Body] covers:
    the controller posts the identifier as it received it.  An instant and
    an alert identifier are written as their numerals. *)
Definition wire (e : AuditEvent) : Ledger.LogEventBody :=
  Ledger.mkLogEventBody
    (Js.Str (e_eventType e))
    (Js.Obj
       ([ ("clientID", Js.Str (e_clientID e));
          ("riskState", Js.Str (e_riskState e));
          ("gasLevels", e_gasLevels e);
          ("alertId",
           match e_alertId e with
           | Some id => Js.Str (decimal (Z.of_nat id))
           | None => Js.Null
           end) ]
        ++ match e_confidence e with
           | Some c => [("confidence", Js.Str c)]
           | None => []
           end)%list)
    (Js.Str (decimal (e_timestamp e))).

(** The audit posts of a run: those made, in order, all satisfying [P]. *)
Definition posts (P : AuditEvent -> Prop) (w w' : World) : Prop :=
  exists l, auditPosts w' = (auditPosts w ++ l)%list /\ Forall P l.

Definition sample_draw (n : Z) : Ledger.Draw :=
  Ledger.mkDraw ("0xa" ++ decimal n) n ("0xb" ++ decimal n) n n.

Definition sample_event (n : Z) : Ledger.Draw * Js.value * Js.value :=
  (sample_draw n, Js.Str "GAS_ALERT",
   Js.Obj [("clientID", Js.Str "zone-1")]).

Definition sample_events : list (Ledger.Draw * Js.value * Js.value) :=
  map sample_event [1; 2; 3; 4; 5; 6; 7].

Definition sample_ledger : Ledger.Simulation :=
  Ledger.logEvents sample_events Ledger.fresh.

Definition sample_transaction : Ledger.Transaction :=
  Ledger.mkTransaction "0xa0" (Js.Str "GAS_ALERT")
    (Js.Obj [("clientID", Js.Str "zone-1")]) 0 1 21000 Ledger.ACCOUNT.

(** A ledger that has reached the cap of its transactions. *)
Definition full_ledger : Ledger.Simulation :=
  Ledger.mkSimulation [] (repeat sample_transaction (Z.to_nat 10000)) 10000.

(** The stores after a second WARNING reading of [zone-1], and after the
    alert of the first one has been acknowledged. *)
Definition world_after_two_warnings : World :=
  snd (processSensorReading blockchain_on (sample_env "WARNING") sample_body
                            world_after_warning).

Definition desk_after_acknowledge : Desk :=
  snd (acknowledgeAlert true 2000 (a_id sample_warning_alert)
         (mkDesk world_after_two_warnings [])).

Definition sample_listing : list (Alert * option (Gases * Z)) :=
  match body (getAlerts true sample_alerts_query
                (stores desk_after_acknowledge)) with
  | AlertList _ docs => docs
  | _ => []
  end.

Definition sample_listed : Alert * option (Gases * Z) :=
  hd (sample_warning_alert, None) sample_listing.

(** Three WARNING readings of [zone-1], received at the times 1000, 3000 and
    2000, and the two newest of them as [GET /api/readings] returns them. *)
Definition sample_env_at (riskState : string) (time : Z) : Env :=
  mkEnv (MLData (Some (sample_prediction riskState)))
        true true true true true time.

Definition world_three_readings : World :=
  snd (processAll blockchain_on
         [ (sample_env_at "WARNING" 1000, sample_body);
           (sample_env_at "WARNING" 3000, sample_body);
           (sample_env_at "WARNING" 2000, sample_body) ]
         empty_world).

Definition sample_query_two : ReadingsQuery :=
  mkReadingsQuery (Some "zone-1") (Some (QStr "2")) (Some "WARNING").

Definition sample_newest : list SensorReading :=
  match body (getReadings true sample_query_two world_three_readings) with
  | ReadingList _ docs => docs
  | _ => []
  end.

(** * Properties *)

#[local] Open Scope list_scope.

(** ** [parseLimit] and the history queries *)

Section ParseLimit.

Lemma read_digits_some (acc : Z) (d : Decimal.uint) :
  Js.read_digits 10 (Some acc) (NilEmpty.string_of_uint d)
  = Some (uint_value acc d).
Proof.
  revert acc.
  induction d; intros acc;
    cbn [NilEmpty.string_of_uint Js.read_digits uint_value];
    try reflexivity;
    match goal with
    | |- context [Js.digit 10 ?c] =>
        let v := eval vm_compute in (Js.digit 10 c) in
        change (Js.digit 10 c) with v
    end;
    cbv iota beta; apply IHd.
Qed.

Lemma read_digits_none (d : Decimal.uint) :
  d <> Decimal.Nil ->
  Js.read_digits 10 None (NilEmpty.string_of_uint d)
  = Some (uint_value 0 d).
Proof.
  destruct d; intros H; try congruence;
    cbn [NilEmpty.string_of_uint Js.read_digits uint_value];
    match goal with
    | |- context [Js.digit 10 ?c] =>
        let v := eval vm_compute in (Js.digit 10 c) in
        change (Js.digit 10 c) with v
    end;
    cbv iota beta; rewrite read_digits_some; reflexivity.
Qed.

Lemma of_uint_acc_value (d : Decimal.uint) (acc : positive) :
  Z.pos (Pos.of_uint_acc d acc) = uint_value (Z.pos acc) d.
Proof.
  revert acc. induction d; intros acc; cbn [Pos.of_uint_acc uint_value];
    try rewrite IHd; try reflexivity; f_equal; lia.
Qed.

Lemma of_uint_value (d : Decimal.uint) :
  Z.of_N (Pos.of_uint d) = uint_value 0 d.
Proof.
  induction d; cbn [Pos.of_uint uint_value Z.of_N]; try reflexivity;
    try (rewrite of_uint_acc_value; reflexivity).
  exact IHd.
Qed.

Lemma to_uint_value (p : positive) :
  uint_value 0 (Pos.to_uint p) = Z.pos p.
Proof.
  rewrite <- of_uint_value, DecimalPos.Unsigned.of_to. reflexivity.
Qed.

Lemma skip_space_digits (d : Decimal.uint) :
  Js.skip_space (NilEmpty.string_of_uint d) = NilEmpty.string_of_uint d.
Proof. destruct d; reflexivity. Qed.

Lemma strip_hex_digits (d : Decimal.uint) :
  Js.strip_hex (NilEmpty.string_of_uint d) = None.
Proof. destruct d as [|d|d|d|d|d|d|d|d|d|d]; try reflexivity; destruct d; reflexivity. Qed.

Lemma sign_digits (d : Decimal.uint) :
  match NilEmpty.string_of_uint d with
  | String "-" rest => (-1, rest)
  | String "+" rest => (1, rest)
  | _ => (1, NilEmpty.string_of_uint d)
  end = (1, NilEmpty.string_of_uint d).
Proof. destruct d; reflexivity. Qed.

Lemma parseInt_string_uint (d : Decimal.uint) :
  d <> Decimal.Nil ->
  Js.parseInt_string (NilEmpty.string_of_uint d) = Some (uint_value 0 d).
Proof.
  intros H. unfold Js.parseInt_string.
  rewrite skip_space_digits, sign_digits, strip_hex_digits,
    read_digits_none by exact H.
  f_equal; lia.
Qed.

Lemma parseInt_string_neg (d : Decimal.uint) :
  d <> Decimal.Nil ->
  Js.parseInt_string (String "-" (NilEmpty.string_of_uint d))
  = Some (- uint_value 0 d).
Proof.
  intros H. unfold Js.parseInt_string.
  change (Js.skip_space (String "-" (NilEmpty.string_of_uint d)))
    with (String "-" (NilEmpty.string_of_uint d)).
  cbv beta iota zeta.
  rewrite strip_hex_digits, read_digits_none by exact H.
  f_equal; lia.
Qed.

(** [parseInt] reads back the decimal numeral of any integer. *)
Lemma parseInt_decimal (n : Z) :
  Js.parseInt_string (decimal n) = Some n.
Proof.
  unfold decimal, NilZero.string_of_int, NilZero.string_of_uint.
  destruct n as [|p|p]; cbn [Z.to_int].
  - reflexivity.
  - pose proof (DecimalPos.Unsigned.to_uint_nonnil p) as NN.
    destruct (Pos.to_uint p) eqn:E; try congruence;
      rewrite <- E in *; rewrite parseInt_string_uint by exact NN;
      rewrite to_uint_value; reflexivity.
  - pose proof (DecimalPos.Unsigned.to_uint_nonnil p) as NN.
    destruct (Pos.to_uint p) eqn:E; try congruence;
      rewrite <- E in *; rewrite parseInt_string_neg by exact NN;
      rewrite to_uint_value; reflexivity.
Qed.

Lemma parseLimit_bounds (value : LimitArg) :
  1 <= parseLimit value <= MAX_QUERY_LIMIT.
Proof. unfold parseLimit, MAX_QUERY_LIMIT. lia. Qed.

Lemma limit_length {A} (n : Z) (l : list A) :
  (List.length (limit n l) <= Z.to_nat n)%nat.
Proof. unfold limit. apply firstn_le_length. Qed.

End ParseLimit.

(** ** The monad *)

Section MonadFacts.

Context {A B : Type}.

Lemma bind_inv (m : M A) (k : A -> M B) (w w' : World) (b : B) :
  bind m k w = (Ok b, w') ->
  exists a w1, m w = (Ok a, w1) /\ k a w1 = (Ok b, w').
Proof.
  unfold bind. destruct (m w) as [[a | e] w1]; intros H.
  - exists a, w1. split; [reflexivity | exact H].
  - discriminate H.
Qed.

Lemma bind_ok (m : M A) (k : A -> M B) (w w1 : World) (a : A) :
  m w = (Ok a, w1) -> bind m k w = k a w1.
Proof. unfold bind. intros ->. reflexivity. Qed.


End MonadFacts.

Lemma handler_200 (error : string) (m : M Response) (w w' : World)
    (r : Response) :
  handler error m w = (r, w') -> status r = 200 -> m w = (Ok r, w').
Proof.
  unfold handler. destruct (m w) as [[r0 | e] w0]; intros H S.
  - inversion H; subst. reflexivity.
  - inversion H; subst. discriminate S.
Qed.

(** ** The tables *)

Lemma mem_enum_label (rs : string) :
  mem_string rs RISK_STATE_ENUM = true -> exists l, rs = label l.
Proof.
  unfold RISK_STATE_ENUM. cbn [mem_string]. intros H.
  repeat (apply orb_true_iff in H; destruct H as [H | H]);
    try discriminate H; apply String.eqb_eq in H.
  - exists NORMAL. exact H.
  - exists LOW_ANOMALY. exact H.
  - exists UNUSUAL. exact H.
  - exists ALERT. exact H.
  - exists WARNING. exact H.
  - exists CRITICAL. exact H.
Qed.


Lemma rank_or_zero_label (l : RiskLevel) :
  rank_or_zero (label l) = Number (rank l).
Proof. destruct l; reflexivity. Qed.

Lemma js_ge_label (l : RiskLevel) (b : Z) :
  js_ge (rank_or_zero (label l)) b = (b <=? rank l).
Proof. rewrite rank_or_zero_label. reflexivity. Qed.

(** A label outside the enumeration never passes a positive threshold. *)
Lemma unknown_label_rank (rs : string) (b : Z) :
  mem_string rs RISK_STATE_ENUM = false -> 0 < b ->
  js_ge (rank_or_zero rs) b = false.
Proof.
  unfold RISK_STATE_ENUM. cbn [mem_string]. intros H Hb.
  repeat (apply orb_false_iff in H; destruct H as [? H]).
  unfold rank_or_zero, lookup, RISK_HIERARCHY. cbn [own].
  repeat match goal with
         | E : String.eqb rs _ = false |- _ => rewrite E; clear E
         end.
  destruct (mem_string rs object_prototype_keys); cbn [js_ge];
    [reflexivity | apply Z.leb_gt; exact Hb].
Qed.


(** What [isValidGasReading] accepts: the finite numbers that are not
    negative. *)
Lemma isValidGasReading_spec (v : Js.value) :
  isValidGasReading v = true <->
  exists q, v = Js.Num (Js.Finite q) /\ (0 <= q)%Q.
Proof.
  unfold isValidGasReading. split.
  - destruct v as [| | b | [q | | |] | s | l | f]; cbn; try discriminate.
    intros H. exists q. split; [reflexivity |].
    apply Qle_bool_iff. exact H.
  - intros [q [-> H]]. cbn. apply Qle_bool_iff. exact H.
Qed.

Lemma undefined_invalid (v : Js.value) :
  Js.is_undefined v = true -> isValidGasReading v = false.
Proof. destruct v; cbn; intros H; try discriminate H; reflexivity. Qed.

(** ** The ventilation collection *)

Section Ventilation.

Variable clientID : string.
Variable set : VentilationStatus -> VentilationStatus.
Hypothesis set_keeps_id : forall d, v_clientID (set d) = v_clientID d.

Lemma update_first_some (coll coll' : list VentilationStatus)
    (d : VentilationStatus) :
  update_first clientID set coll = Some (d, coll') ->
  find (fun x => String.eqb (v_clientID x) clientID) coll' = Some d
  /\ exists d0, d = set d0.
Proof.
  revert coll' d. induction coll as [| x rest IH]; intros coll' d H.
  - discriminate H.
  - cbn [update_first] in H.
    destruct (String.eqb (v_clientID x) clientID) eqn:E.
    + inversion H; subst. split; [| exists x; reflexivity].
      cbn [find]. rewrite set_keeps_id, E. reflexivity.
    + destruct (update_first clientID set rest) as [[d1 rest1] |] eqn:U;
        [| discriminate H].
      inversion H; subst.
      destruct (IH rest1 d eq_refl) as [F X]. split; [| exact X].
      cbn [find]. rewrite E. exact F.
Qed.

Lemma update_first_none (coll : list VentilationStatus) :
  update_first clientID set coll = None ->
  find (fun x => String.eqb (v_clientID x) clientID) coll = None.
Proof.
  induction coll as [| x rest IH]; intros H; [reflexivity |].
  cbn [update_first] in H. cbn [find].
  destruct (String.eqb (v_clientID x) clientID); [discriminate H |].
  destruct (update_first clientID set rest) as [[d1 rest1] |];
    [discriminate H | apply IH; reflexivity].
Qed.

Lemma find_app_none {T} (p : T -> bool) (l : list T) (x : T) :
  find p l = None -> find p (l ++ [x]) = if p x then Some x else None.
Proof.
  induction l as [| y rest IH]; intros H; [reflexivity |].
  cbn [find app] in *. destruct (p y); [discriminate H | apply IH, H].
Qed.

Lemma upsert_first_find (fresh d : VentilationStatus)
    (coll coll' : list VentilationStatus) :
  v_clientID fresh = clientID ->
  upsert_first clientID set fresh coll = (d, coll') ->
  find (fun x => String.eqb (v_clientID x) clientID) coll' = Some d
  /\ exists d0, d = set d0.
Proof.
  intros Hid. unfold upsert_first.
  destruct (update_first clientID set coll) as [[d1 c1] |] eqn:U; intros H.
  - injection H as <- <-. eapply update_first_some; exact U.
  - injection H as <- <-. split; [| exists fresh; reflexivity].
    rewrite find_app_none by (apply update_first_none; exact U).
    rewrite set_keeps_id, Hid, String.eqb_refl.
    reflexivity.
Qed.

End Ventilation.

(** ** The steps of the decision engine *)

Lemma createAlert_inv (cfg : Config) (env : Env) (cid : string)
    (p : MLPrediction) (g : Js.value) (rid : nat) (a : Alert)
    (w w' : World) :
  createAlert cfg env cid p g rid w = (Ok a, w') ->
  alerts w' = alerts w ++ [a]
  /\ readings w' = readings w
  /\ ventilation w' = ventilation w
  /\ auditPosts w' = auditPosts w
  /\ emitted w' = emitted w
  /\ ventCalls w' = ventCalls w
  /\ severity_or (label_of (riskState p)) "medium" = Some (a_severity a)
  /\ a_riskState a = label_of (riskState p)
  /\ a_clientID a = cid
  /\ a_readingId a = rid.
Proof.
  unfold createAlert. intros H.
  apply bind_inv in H. destruct H as [id [w1 [F H]]].
  unfold fresh_id in F. inversion F; subst id w1; clear F.
  destruct (severity_or (label_of (riskState p)) "medium") as [sev |];
    [| discriminate H].
  apply bind_inv in H. destruct H as [[] [w2 [S H]]].
  unfold ret in H. inversion H; subst a w'; clear H.
  unfold Alert_save in S.
  destruct (negb (Alert_valid _)); [discriminate S |].
  destruct (alertSaveOk env); [| discriminate S].
  unfold modify in S. inversion S; subst w2; clear S.
  cbn. repeat split; reflexivity.
Qed.

Lemma triggerVentilation_inv (env : Env) (cid rs : string)
    (d : VentilationStatus) (w w' : World) :
  triggerVentilation env cid rs w = (Ok d, w') ->
  let mode := if String.eqb rs "CRITICAL" then FORCED else AUTO in
  v_mode d = mode
  /\ ventilationMode w' cid = mode
  /\ ventCalls w' = ventCalls w ++ [(cid, mode)]
  /\ readings w' = readings w
  /\ alerts w' = alerts w
  /\ auditPosts w' = auditPosts w
  /\ emitted w' = emitted w.
Proof.
  intros H. cbv zeta. unfold triggerVentilation in H.
  apply bind_inv in H. destruct H as [[] [w1 [L H]]].
  unfold log_ventCall, modify in L. inversion L; subst w1; clear L.
  unfold VentilationStatus_findOneAndUpdate in H.
  destruct (ventUpdateOk env); [| discriminate H].
  destruct (upsert_first _ _ _ _) as [d1 coll] eqn:U.
  inversion H; subst d1 w'; clear H.
  apply upsert_first_find in U; [| intros x; reflexivity | reflexivity].
  destruct U as [F [d0 ->]].
  cbn in F |- *. unfold ventilationMode, find_ventilation. cbn.
  rewrite F. cbn. repeat split; reflexivity.
Qed.

Lemma alertStep_inv (cfg : Config) (env : Env) (cid : string)
    (p : MLPrediction) (g : Js.value) (rid : nat) (l : RiskLevel)
    (acts acts' : ActionsTaken) (oa : option Alert) (w w' : World) :
  riskState p = Some (label l) ->
  alertStep cfg env cid p g rid (rank_or_zero (label l)) acts w
  = (Ok (oa, acts'), w') ->
  alerts w' = alerts w ++ match oa with Some a => [a] | None => [] end
  /\ is_some oa = (2 <=? rank l)
  /\ acts' = (if 2 <=? rank l then set_alertCreated acts else acts)
  /\ (forall a, oa = Some a ->
        severity_or (label l) "medium" = Some (a_severity a)
        /\ a_riskState a = label l /\ a_clientID a = cid)
  /\ readings w' = readings w
  /\ ventilation w' = ventilation w
  /\ auditPosts w' = auditPosts w
  /\ emitted w' = emitted w
  /\ ventCalls w' = ventCalls w.
Proof.
  intros Hrs. unfold alertStep. rewrite js_ge_label.
  change (rank_of "UNUSUAL") with 2.
  destruct (2 <=? rank l); intros H.
  - apply bind_inv in H. destruct H as [a [w1 [C H]]].
    unfold ret in H. inversion H; subst oa acts' w1; clear H.
    apply createAlert_inv in C. rewrite Hrs in C. cbn [label_of] in C.
    destruct C as (Ha & Hr & Hv & Hp & He & Hc & Hs & Hl & Hi & _).
    split; [exact Ha |]. split; [reflexivity |]. split; [reflexivity |].
    split; [| repeat split; assumption].
    intros a0 E. inversion E; subst a0. repeat split; assumption.
  - unfold ret in H. inversion H; subst oa acts' w'; clear H.
    rewrite app_nil_r.
    split; [reflexivity |]. split; [reflexivity |]. split; [reflexivity |].
    split; [| repeat split; reflexivity].
    intros a0 E. discriminate E.
Qed.

Lemma ventilationStep_inv (env : Env) (cid : string) (l : RiskLevel)
    (acts acts' : ActionsTaken) (ov : option VentilationStatus)
    (w w' : World) :
  ventilationStep env cid (label l) (rank_or_zero (label l)) acts w
  = (Ok (ov, acts'), w') ->
  ventCalls w' = ventCalls w
                 ++ (if 4 <=? rank l then [(cid, target_mode l)] else [])
  /\ (if 4 <=? rank l then ventilationMode w' cid = target_mode l
      else ventilation w' = ventilation w)
  /\ option_map v_mode ov
     = (if 4 <=? rank l then Some (target_mode l) else None)
  /\ acts' = (if 4 <=? rank l then set_ventilationTriggered acts else acts)
  /\ readings w' = readings w
  /\ alerts w' = alerts w
  /\ auditPosts w' = auditPosts w
  /\ emitted w' = emitted w.
Proof.
  unfold ventilationStep. rewrite js_ge_label.
  change (rank_of "WARNING") with 4.
  destruct (4 <=? rank l) eqn:G; intros H.
  - apply bind_inv in H. destruct H as [d [w1 [T H]]].
    unfold ret in H. inversion H; subst ov acts' w1; clear H.
    apply triggerVentilation_inv in T. cbv zeta in T.
    assert (M : (if String.eqb (label l) "CRITICAL" then FORCED else AUTO)
                = target_mode l) by (destruct l; reflexivity).
    rewrite M in T. destruct T as (Hd & Hm & Hc & Hr & Ha & Hp & He).
    cbn [option_map]. rewrite Hd.
    repeat split; assumption || reflexivity.
  - unfold ret in H. inversion H; subst ov acts' w'; clear H.
    rewrite app_nil_r. repeat split; reflexivity.
Qed.

Lemma blockchainStep_inv (cfg : Config) (env : Env) (cid : string)
    (g : Js.value) (p : MLPrediction) (alert : option Alert) (l : RiskLevel)
    (acts acts' : ActionsTaken) (w w' : World) :
  blockchainStep cfg env cid (label l) g p alert (rank_or_zero (label l))
                 acts w = (Ok acts', w') ->
  let due := BLOCKCHAIN_ENABLED cfg && (4 <=? rank l) in
  auditPosts w' = auditPosts w
     ++ (if due
         then [mkAuditEvent "GAS_ALERT" cid (label l) g
                 (option_map a_id alert) (confidence p) (now env)]
         else [])
  /\ acts' = (if due && auditPostOk env
              then set_blockchainLogged acts else acts)
  /\ readings w' = readings w
  /\ alerts w' = alerts w
  /\ ventilation w' = ventilation w
  /\ emitted w' = emitted w
  /\ ventCalls w' = ventCalls w.
Proof.
  unfold blockchainStep. rewrite js_ge_label.
  change (rank_of "WARNING") with 4.
  destruct (BLOCKCHAIN_ENABLED cfg && (4 <=? rank l)); cbv zeta; intros H.
  - unfold try_catch, bind, axios_post_log_event, bind, log_auditPost,
      modify, ret, throw in H.
    destruct (auditPostOk env); inversion H; subst acts' w'; clear H;
      cbn; destruct alert; repeat split; reflexivity.
  - unfold ret in H. inversion H; subst acts' w'; clear H.
    rewrite app_nil_r. repeat split; reflexivity.
Qed.

Lemma SensorReading_save_inv (env : Env) (r : SensorReading) (w w' : World) :
  SensorReading_save env r w = (Ok tt, w') ->
  SensorReading_valid r = true
  /\ readings w' = readings w ++ [r]
  /\ alerts w' = alerts w
  /\ ventilation w' = ventilation w
  /\ auditPosts w' = auditPosts w
  /\ emitted w' = emitted w
  /\ ventCalls w' = ventCalls w.
Proof.
  unfold SensorReading_save.
  destruct (SensorReading_valid r); cbn [negb]; [| discriminate].
  destruct (readingSaveOk env); [| discriminate].
  unfold modify. intros H. inversion H; subst w'; clear H.
  cbn. repeat split; reflexivity.
Qed.

(** The broadcast only adds socket events, and never fails. *)
Lemma broadcast_frame (env : Env) (cid rs : string) (p : MLPrediction)
    (reading : SensorReading) (alert : option Alert)
    (vent : option VentilationStatus) (w : World) :
  exists w',
    broadcast env cid rs p reading alert vent w = (Ok tt, w')
    /\ readings w' = readings w
    /\ alerts w' = alerts w
    /\ ventilation w' = ventilation w
    /\ auditPosts w' = auditPosts w
    /\ ventCalls w' = ventCalls w.
Proof.
  unfold broadcast.
  destruct (io env), alert, vent; cbn; eexists;
    repeat split; reflexivity.
Qed.

Lemma ventilationMode_ext (w1 w2 : World) (c : string) :
  ventilation w1 = ventilation w2 ->
  ventilationMode w1 c = ventilationMode w2 c.
Proof.
  unfold ventilationMode, find_ventilation. intros ->. reflexivity.
Qed.

(** What a run of the decision engine that ends without exception did. *)
Lemma decisionEngine_inv (cfg : Config) (env : Env) (req : Body)
    (cid : string) (g : Gases) (p : MLPrediction) (rs : string)
    (r : Response) (w w' : World) :
  riskState p = Some rs ->
  decisionEngine cfg env req cid g p w = (Ok r, w') ->
  exists (l : RiskLevel) (oa : option Alert) (reading : SensorReading),
    rs = label l
    /\ alerts w' = alerts w ++ match oa with Some a => [a] | None => [] end
    /\ is_some oa = (2 <=? rank l)
    /\ (forall a, oa = Some a ->
          severity_or (label l) "medium" = Some (a_severity a)
          /\ a_riskState a = label l /\ a_clientID a = cid)
    /\ ventCalls w' = ventCalls w
         ++ (if 4 <=? rank l then [(cid, target_mode l)] else [])
    /\ (if 4 <=? rank l then ventilationMode w' cid = target_mode l
        else ventilation w' = ventilation w)
    /\ auditPosts w' = auditPosts w
         ++ (if BLOCKCHAIN_ENABLED cfg && (4 <=? rank l)
             then [mkAuditEvent "GAS_ALERT" cid (label l) (gases req)
                     (option_map a_id oa) (confidence p) (now env)]
             else [])
    /\ readings w' = readings w ++ [reading]
    /\ r = mkResponse 200
             (Processed
                (mkReadingSummary (r_id reading) cid (Some rs) (confidence p)
                                  (now env))
                p
                (mkActions
                   (2 <=? rank l) (option_map a_id oa) (4 <=? rank l)
                   (if 4 <=? rank l then Some (target_mode l) else None)
                   (BLOCKCHAIN_ENABLED cfg && (4 <=? rank l)
                    && auditPostOk env))).
Proof.
  intros Hrs H. unfold decisionEngine in H.
  apply bind_inv in H. destruct H as [rid [w1 [F H]]].
  unfold fresh_id in F. inversion F; subst rid w1; clear F.
  apply bind_inv in H. destruct H as [[oa acts1] [w2 [SA H]]].
  apply bind_inv in H. destruct H as [[ov acts2] [w3 [SV H]]].
  apply bind_inv in H. destruct H as [acts3 [w4 [SB H]]].
  apply bind_inv in H. destruct H as [[] [w5 [SS H]]].
  apply bind_inv in H. destruct H as [[] [w6 [BC H]]].
  unfold ret in H. inversion H; subst r w6; clear H.
  apply SensorReading_save_inv in SS.
  destruct SS as (Valid & S1 & S2 & S3 & S4 & S5 & S6).
  assert (En : mem_string rs RISK_STATE_ENUM = true).
  { unfold SensorReading_valid in Valid. cbn in Valid. rewrite Hrs in Valid.
    cbn [enum_ok] in Valid.
    repeat (apply andb_true_iff in Valid; destruct Valid as [Valid ?]).
    assumption. }
  destruct (mem_enum_label rs En) as [l ->].
  rewrite Hrs in SA, SV, SB. cbn [label_of] in SA, SV, SB.
  apply alertStep_inv in SA; [| exact Hrs].
  apply ventilationStep_inv in SV.
  apply blockchainStep_inv in SB. cbv zeta in SB.
  cbn [readings alerts ventilation auditPosts emitted ventCalls] in SA.
  destruct SA as (A1 & A2 & A3 & A4 & A5 & A6 & A7 & A8 & A9).
  destruct SV as (V1 & V2 & V3 & V4 & V5 & V6 & V7 & V8).
  destruct SB as (B1 & B2 & B3 & B4 & B5 & B6 & B7).
  match type of BC with
  | broadcast ?e ?c ?s ?q ?rd ?al ?ve ?w0 = _ =>
      destruct (broadcast_frame e c s q rd al ve w0)
        as (w6 & BC' & C1 & C2 & C3 & C4 & C5)
  end.
  rewrite BC' in BC. inversion BC; subst w6; clear BC BC'.
  eexists l, oa, _.
  split; [reflexivity |].
  split; [rewrite C2, S2, B4, V6; exact A1 |].
  split; [exact A2 |]. split; [exact A4 |].
  split; [rewrite C5, S6, B7, V1, A9; reflexivity |].
  split.
  { destruct (4 <=? rank l).
    - rewrite <- V2. apply ventilationMode_ext.
      rewrite C3, S3, B5. reflexivity.
    - rewrite C3, S3, B5, V2. exact A6. }
  split; [rewrite C4, S4, B1, V7, A7; reflexivity |].
  split; [rewrite C1, S1, B3, V5, A5; reflexivity |].
  unfold ml_riskState. rewrite Hrs. cbn [r_id r_clientID r_timestamp r_actionsTaken].
  f_equal. f_equal. subst acts3 acts2 acts1.
  rewrite <- A2.
  destruct oa, ov, (4 <=? rank l), (BLOCKCHAIN_ENABLED cfg), (auditPostOk env);
    cbn in *; try discriminate; try reflexivity; congruence.
Qed.

(** ** The validation *)

Lemma valid_body_inv (req : Body) :
  valid_body req = true ->
  truthy_string (clientID req) = true
  /\ Js.truthy (gases req) = true
  /\ isValidGasReading (Js.prop (gases req) "methane") = true
  /\ isValidGasReading (Js.prop (gases req) "lpg") = true
  /\ isValidGasReading (Js.prop (gases req) "carbonMonoxide") = true
  /\ isValidGasReading (Js.prop (gases req) "hydrogenSulfide") = true.
Proof.
  unfold valid_body, gas_names. cbn [forallb]. intros H.
  repeat (apply andb_true_iff in H; destruct H as [H ?]).
  repeat match goal with
         | E : _ && _ = true |- _ =>
             apply andb_true_iff in E; destruct E as [? ?]
         end.
  repeat split; assumption.
Qed.

Lemma valid_not_undefined (v : Js.value) :
  isValidGasReading v = true -> Js.is_undefined v = false.
Proof. destruct v; cbn; intros H; try discriminate H; reflexivity. Qed.

Lemma valid_has_toFixed (v : Js.value) :
  isValidGasReading v = true -> has_toFixed v = true.
Proof. destruct v; cbn; intros H; try discriminate H; reflexivity. Qed.

(** The gas values of a valid body are numbers: the input logger can only
    fail on the environmental values. *)
Lemma valid_sensor_loggable (req : Body) (e : Environmental) :
  valid_body req = true ->
  sensor_loggable (gases req) e
  = opt_toFixed (temperature e) && opt_toFixed (humidity e)
    && opt_toFixed (pressure e).
Proof.
  intros V. apply valid_body_inv in V.
  destruct V as (_ & _ & Hm & Hl & Hco & Hh). unfold sensor_loggable.
  rewrite (valid_has_toFixed _ Hm), (valid_has_toFixed _ Hl),
    (valid_has_toFixed _ Hco), (valid_has_toFixed _ Hh).
  reflexivity.
Qed.

(** A valid body passes the three checks and reaches the input logger. *)
Lemma process_checked (cfg : Config) (env : Env) (req : Body) (w : World) :
  valid_body req = true ->
  processSensorReading cfg env req w
  = handler "Internal server error"
      (logSensorInput (gases req)
         (match environmental req with
          | Some e => e | None => empty_environmental end) ;;;
       called <- callMlService env ;;
       match called with
       | inr response => ret response
       | inl mlPrediction =>
           decisionEngine cfg env req (label_of (clientID req))
             (mkGases (Js.prop (gases req) "methane")
                      (Js.prop (gases req) "lpg")
                      (Js.prop (gases req) "carbonMonoxide")
                      (Js.prop (gases req) "hydrogenSulfide"))
             mlPrediction
       end) w.
Proof.
  intros V. apply valid_body_inv in V.
  destruct V as (Hc & Hg & Hm & Hl & Hco & Hh).
  unfold processSensorReading. cbv zeta.
  rewrite Hc, Hg, Hm, Hl, Hco, Hh.
  rewrite (valid_not_undefined _ Hm), (valid_not_undefined _ Hl),
    (valid_not_undefined _ Hco), (valid_not_undefined _ Hh).
  reflexivity.
Qed.

(** The gas readings the handler works with, once the input is logged. *)
Lemma process_valid (cfg : Config) (env : Env) (req : Body) (w : World) :
  valid_body req = true ->
  input_loggable req = true ->
  processSensorReading cfg env req w
  = handler "Internal server error"
      (called <- callMlService env ;;
       match called with
       | inr response => ret response
       | inl mlPrediction =>
           decisionEngine cfg env req (label_of (clientID req))
             (mkGases (Js.prop (gases req) "methane")
                      (Js.prop (gases req) "lpg")
                      (Js.prop (gases req) "carbonMonoxide")
                      (Js.prop (gases req) "hydrogenSulfide"))
             mlPrediction
       end) w.
Proof.
  intros V L. rewrite process_checked by exact V.
  unfold logSensorInput. unfold input_loggable in L. rewrite L.
  reflexivity.
Qed.

(** A valid body that the input logger cannot format is answered with 500
    before anything is done. *)
Lemma process_unloggable (cfg : Config) (env : Env) (req : Body)
    (w : World) :
  valid_body req = true ->
  input_loggable req = false ->
  processSensorReading cfg env req w
  = (mkResponse 500 (Failure "Internal server error" (Some TypeError)), w).
Proof.
  intros V L. rewrite process_checked by exact V.
  unfold logSensorInput. unfold input_loggable in L. rewrite L.
  reflexivity.
Qed.

Lemma process_invalid (cfg : Config) (env : Env) (req : Body) (w : World) :
  valid_body req = false ->
  exists error,
    processSensorReading cfg env req w
    = (mkResponse 400 (Failure error None), w).
Proof.
  intros V. unfold processSensorReading, handler, bad_request. cbv zeta.
  destruct (negb (truthy_string (clientID req))
            || negb (Js.truthy (gases req))) eqn:E1;
    [eexists; reflexivity |].
  destruct (Js.is_undefined (Js.prop (gases req) "methane")
            || Js.is_undefined (Js.prop (gases req) "lpg")
            || Js.is_undefined (Js.prop (gases req) "carbonMonoxide")
            || Js.is_undefined (Js.prop (gases req) "hydrogenSulfide"));
    [eexists; reflexivity |].
  destruct (negb (isValidGasReading (Js.prop (gases req) "methane"))
            || negb (isValidGasReading (Js.prop (gases req) "lpg"))
            || negb (isValidGasReading (Js.prop (gases req) "carbonMonoxide"))
            || negb (isValidGasReading
                       (Js.prop (gases req) "hydrogenSulfide"))) eqn:E3;
    [eexists; reflexivity |].
  exfalso.
  apply orb_false_iff in E1. destruct E1 as [C G].
  repeat (apply orb_false_iff in E3; destruct E3 as [E3 ?]).
  apply negb_false_iff in C, G, E3.
  repeat match goal with
         | E : negb _ = false |- _ => apply negb_false_iff in E
         end.
  unfold valid_body, gas_names in V. cbn [forallb] in V.
  rewrite C, G, E3 in V.
  repeat match goal with
         | E : isValidGasReading _ = true |- _ => rewrite E in V; clear E
         end.
  discriminate V.
Qed.

(** A successful answer comes from the decision engine, on a valid body and a
    complete prediction. *)
Lemma process_200_inv (cfg : Config) (env : Env) (req : Body)
    (r : Response) (w w' : World) :
  processSensorReading cfg env req w = (r, w') ->
  status r = 200 ->
  exists p rs,
    valid_body req = true
    /\ ml env = MLData (Some p)
    /\ riskState p = Some rs
    /\ decisionEngine cfg env req (label_of (clientID req))
         (mkGases (Js.prop (gases req) "methane")
                  (Js.prop (gases req) "lpg")
                  (Js.prop (gases req) "carbonMonoxide")
                  (Js.prop (gases req) "hydrogenSulfide")) p w
       = (Ok r, w').
Proof.
  intros H S.
  destruct (valid_body req) eqn:V.
  - destruct (input_loggable req) eqn:L;
      [| rewrite process_unloggable in H by assumption;
         inversion H; subst r; discriminate S].
    rewrite process_valid in H by assumption.
    apply handler_200 in H; [| exact S].
    apply bind_inv in H. destruct H as [called [w1 [C H]]].
    unfold callMlService, try_catch, bind, axios_post_predict,
      logMLResponse in C.
    destruct (ml env) as [| [p |]] eqn:E; cbn in C.
    + inversion C; subst called w1. cbn in H. inversion H; subst r.
      discriminate S.
    + destruct (riskState p) as [rs |] eqn:R; cbn in C.
      * destruct (negb (Js.str_nonempty rs)
                  || negb (is_some (ppmClassification p))); cbn in C;
          [| destruct (ml_loggable p); cbn in C];
          inversion C; subst called w1; cbn in H.
        -- inversion H; subst r. discriminate S.
        -- exists p, rs. repeat split; try reflexivity; assumption.
        -- inversion H; subst r. discriminate S.
      * inversion C; subst called w1. cbn in H. inversion H; subst r.
        discriminate S.
    + inversion C; subst called w1. cbn in H. inversion H; subst r.
      discriminate S.
  - destruct (process_invalid cfg env req w V) as [error E].
    rewrite E in H. inversion H; subst r. discriminate S.
Qed.

(** ** Progress of the steps when the stores answer *)






Lemma callMlService_complete (env : Env) (p : MLPrediction) (w : World) :
  ml env = MLData (Some p) ->
  truthy_string (riskState p) = true ->
  is_some (ppmClassification p) = true ->
  ml_loggable p = true ->
  callMlService env w = (Ok (inl p), w).
Proof.
  intros E R P L.
  unfold callMlService, try_catch, bind, axios_post_predict, logMLResponse.
  rewrite E. cbn. rewrite R, P, L. reflexivity.
Qed.

(** A complete answer that the logger cannot format is answered with 503,
    as if the service were down. *)
Lemma callMlService_unloggable (env : Env) (p : MLPrediction) (w : World) :
  ml env = MLData (Some p) ->
  truthy_string (riskState p) = true ->
  is_some (ppmClassification p) = true ->
  ml_loggable p = false ->
  callMlService env w
  = (Ok (inr (mkResponse 503
                (Failure "ML service unavailable" (Some TypeError)))), w).
Proof.
  intros E R P L.
  unfold callMlService, try_catch, bind, axios_post_predict, logMLResponse.
  rewrite E. cbn. rewrite R, P, L. reflexivity.
Qed.

(** The call to the ML service leaves the stores alone, and never throws. *)
Lemma callMlService_frame (env : Env) (w : World) :
  exists called, callMlService env w = (Ok called, w).
Proof.
  unfold callMlService, try_catch, bind, axios_post_predict, logMLResponse.
  destruct (ml env) as [| [p |]]; cbn; try (eexists; reflexivity).
  destruct (negb (truthy_string (riskState p))
            || negb (is_some (ppmClassification p)));
    [| destruct (ml_loggable p)]; cbn; eexists; reflexivity.
Qed.

Lemma callMlService_unreachable (env : Env) (w : World) :
  ml env = MLFail ->
  callMlService env w
  = (Ok (inr (mkResponse 503
                (Failure "ML service unavailable" (Some NetworkError)))), w).
Proof.
  intros E. unfold callMlService, try_catch, bind, axios_post_predict.
  rewrite E. reflexivity.
Qed.


(** An unknown label goes through the decision engine without any action and
    is stopped by the schema when the reading is saved. *)
Lemma decisionEngine_unknown (cfg : Config) (env : Env) (req : Body)
    (cid : string) (g : Gases) (p : MLPrediction) (rs : string) (w : World) :
  riskState p = Some rs ->
  mem_string rs RISK_STATE_ENUM = false ->
  exists w',
    decisionEngine cfg env req cid g p w
    = (Throw (ValidationError "SensorReading"), w')
    /\ same_stores w w'.
Proof.
  intros Hrs Hun.
  unfold decisionEngine, alertStep, ventilationStep, blockchainStep.
  rewrite Hrs. cbn [label_of].
  rewrite (unknown_label_rank rs (rank_of "UNUSUAL") Hun) by reflexivity.
  rewrite (unknown_label_rank rs (rank_of "WARNING") Hun) by reflexivity.
  rewrite andb_false_r.
  unfold bind, fresh_id, ret. cbv beta iota.
  unfold SensorReading_save, SensorReading_valid.
  cbn [r_clientID r_gasReadings r_mlPrediction sp_riskState sp_confidence
       enum_ok].
  rewrite Hun. rewrite andb_false_r. cbn [andb negb].
  unfold throw. eexists. split; [reflexivity |].
  unfold same_stores. cbn. repeat split; reflexivity.
Qed.

(** * The claims *)

(** ** C2: invalid input *)

(** C2. A request whose body lacks the zone identifier, lacks one of the four
    gas concentrations, or carries a concentration that is not a finite
    non-negative number, is answered with status 400, and the stores are left
    exactly as they were: no reading stored, no alert, no ventilation change,
    no audit post (and no socket event). *)
Theorem invalid_input_rejected (cfg : Config) (env : Env) (req : Body)
    (w : World) :
  (truthy_string (clientID req) = false
   \/ exists gas, In gas gas_names
        /\ (Js.is_undefined (Js.prop (gases req) gas) = true
            \/ isValidGasReading (Js.prop (gases req) gas) = false)) ->
  exists error,
    processSensorReading cfg env req w
    = (mkResponse 400 (Failure error None), w).
Proof.
  intros H. apply process_invalid.
  destruct (valid_body req) eqn:V; [exfalso | reflexivity].
  apply valid_body_inv in V. destruct V as (Hc & _ & Hm & Hl & Hco & Hh).
  destruct H as [H | (gas & Hin & H)].
  - congruence.
  - assert (Hv : isValidGasReading (Js.prop (gases req) gas) = true).
    { unfold gas_names in Hin. cbn [In] in Hin.
      destruct Hin as [<- | [<- | [<- | [<- | []]]]]; assumption. }
    destruct H as [H | H].
    + apply undefined_invalid in H. congruence.
    + congruence.
Qed.

Lemma invalid_input_rejected_witness :
  exists error,
    processSensorReading blockchain_on (sample_env "CRITICAL")
      sample_body_no_lpg empty_world
    = (mkResponse 400 (Failure error None), empty_world).
Proof.
  apply (invalid_input_rejected blockchain_on (sample_env "CRITICAL")
           sample_body_no_lpg empty_world).
  right. exists "lpg". split.
  - unfold gas_names. cbn [In]. right. left. reflexivity.
  - left. reflexivity.
Defined.

(** ** C3: unknown risk label *)

(** C3. When the prediction carries a label outside the six-value
    enumeration, the request fails: the answer is an error (503 when the
    prediction is incomplete or cannot be logged, 500 from the input logger
    or from the schema check of the reading otherwise), the reading is not
    stored, and no alert, no ventilation update, no audit post and no socket
    event is produced. *)
Theorem unknown_label_fails_closed (cfg : Config) (env : Env) (req : Body)
    (p : MLPrediction) (rs : string) (w : World) :
  valid_body req = true ->
  ml env = MLData (Some p) ->
  riskState p = Some rs ->
  mem_string rs RISK_STATE_ENUM = false ->
  exists r w',
    processSensorReading cfg env req w = (r, w')
    /\ (status r = 500 \/ status r = 503)
    /\ (exists error detail, body r = Failure error detail)
    /\ same_stores w w'.
Proof.
  intros V E Hrs Hun.
  destruct (input_loggable req) eqn:L.
  2: { rewrite process_unloggable by assumption.
       eexists; eexists. split; [reflexivity |]. cbn.
       split; [left; reflexivity |].
       split; [eexists; eexists; reflexivity |].
       unfold same_stores. repeat split; reflexivity. }
  rewrite process_valid by assumption. unfold handler.
  destruct (negb (truthy_string (riskState p))
            || negb (is_some (ppmClassification p))) eqn:C.
  - assert (M : callMlService env w
                = (Ok (inr (mkResponse 503
                     (Failure "ML service unavailable"
                        (Some (Error "ML service returned incomplete response"))))),
                   w)).
    { unfold callMlService, try_catch, bind, axios_post_predict.
      rewrite E. cbn. rewrite C. reflexivity. }
    rewrite (bind_ok _ _ _ _ _ M). cbn.
    eexists; eexists. split; [reflexivity |]. cbn.
    split; [right; reflexivity |].
    split; [eexists; eexists; reflexivity |].
    unfold same_stores. repeat split; reflexivity.
  - apply orb_false_iff in C. destruct C as [C1 C2].
    apply negb_false_iff in C1, C2.
    destruct (ml_loggable p) eqn:ML.
    2: { rewrite (bind_ok _ _ _ _ _
                    (callMlService_unloggable env p w E C1 C2 ML)).
         cbn. eexists; eexists. split; [reflexivity |]. cbn.
         split; [right; reflexivity |].
         split; [eexists; eexists; reflexivity |].
         unfold same_stores. repeat split; reflexivity. }
    rewrite (bind_ok _ _ _ _ _ (callMlService_complete env p w E C1 C2 ML)).
    destruct (decisionEngine_unknown cfg env req (label_of (clientID req))
                (mkGases (Js.prop (gases req) "methane")
                         (Js.prop (gases req) "lpg")
                         (Js.prop (gases req) "carbonMonoxide")
                         (Js.prop (gases req) "hydrogenSulfide"))
                p rs w Hrs Hun) as (w' & D & S).
    rewrite D. eexists; eexists. split; [reflexivity |]. cbn.
    split; [left; reflexivity |].
    split; [eexists; eexists; reflexivity | exact S].
Qed.

Lemma unknown_label_fails_closed_witness :
  exists r w',
    processSensorReading blockchain_on (sample_env "SEVERE") sample_body
                         empty_world = (r, w')
    /\ (status r = 500 \/ status r = 503)
    /\ (exists error detail, body r = Failure error detail)
    /\ same_stores empty_world w'.
Proof.
  apply (unknown_label_fails_closed blockchain_on (sample_env "SEVERE")
           sample_body (sample_prediction "SEVERE") "SEVERE" empty_world);
    reflexivity.
Defined.

(** ** C4: the ML service is down *)

(** C4, as stated, fails: with a valid reading and an unreachable ML service
    the answer carries no classification. *)
Lemma ml_down_counterexample :
  ~ (forall (cfg : Config) (env : Env) (req : Body) (w : World),
       valid_body req = true ->
       ml env = MLFail ->
       exists reading classification actions,
         body (fst (processSensorReading cfg env req w))
         = Processed reading classification actions).
Proof.
  intros H.
  destruct (H blockchain_on sample_env_ml_down sample_body empty_world
              eq_refl eq_refl) as (rd & c & a & E).
  vm_compute in E. discriminate E.
Qed.

(** C4, amended. For every reading that passes the validation, when the call
    to the ML service fails (unreachable, timed out), no classification is
    computed from the thresholds alone and the stores are left exactly as
    they were: the request is answered with 503 "ML service unavailable"
    when the input logger can format the reading, that is when each
    environmental value given is a number, and with 500 before the service
    is even called when it cannot. *)
Theorem ml_down_is_503 (cfg : Config) (env : Env) (req : Body) (w : World) :
  valid_body req = true ->
  ml env = MLFail ->
  processSensorReading cfg env req w
  = (if input_loggable req
     then mkResponse 503
            (Failure "ML service unavailable" (Some NetworkError))
     else mkResponse 500 (Failure "Internal server error" (Some TypeError)),
     w).
Proof.
  intros V E. destruct (input_loggable req) eqn:L.
  - rewrite process_valid by assumption. unfold handler.
    rewrite (bind_ok _ _ _ _ _ (callMlService_unreachable env w E)).
    reflexivity.
  - apply process_unloggable; assumption.
Qed.

Lemma ml_down_is_503_witness :
  processSensorReading blockchain_on sample_env_ml_down sample_body
                       empty_world
  = (mkResponse 503 (Failure "ML service unavailable" (Some NetworkError)),
     empty_world)
  /\ processSensorReading blockchain_on sample_env_ml_down
       sample_body_temperature_string empty_world
     = (mkResponse 500 (Failure "Internal server error" (Some TypeError)),
        empty_world).
Proof.
  split.
  - apply (ml_down_is_503 blockchain_on sample_env_ml_down sample_body
             empty_world); reflexivity.
  - apply (ml_down_is_503 blockchain_on sample_env_ml_down
             sample_body_temperature_string empty_world); reflexivity.
Defined.

(** The legacy helper answers a failed call with a fixed fallback: the state
    UNKNOWN and no action. *)
Lemma getRiskPrediction_fallback :
  getRiskPrediction None = mkLegacyPrediction "UNKNOWN" false false false.
Proof. reflexivity. Qed.

(** ** C5: alerts *)

(** C5. For every successfully processed reading (answer 200), the prediction
    carries one of the six levels, and the alerts grow by exactly one alert
    when the level ranks at UNUSUAL or above, of severity medium for UNUSUAL
    and ALERT, high for WARNING and critical for CRITICAL, and by none for
    NORMAL and LOW_ANOMALY. *)
Theorem alert_iff_unusual_or_above (cfg : Config) (env : Env) (req : Body)
    (w w' : World) (r : Response) :
  processSensorReading cfg env req w = (r, w') ->
  status r = 200 ->
  exists (p : MLPrediction) (l : RiskLevel),
    ml env = MLData (Some p)
    /\ riskState p = Some (label l)
    /\ match l with
       | NORMAL | LOW_ANOMALY => rank l < 2 /\ alerts w' = alerts w
       | UNUSUAL | ALERT =>
           2 <= rank l
           /\ exists a, alerts w' = alerts w ++ [a]
                /\ a_severity a = "medium" /\ a_riskState a = label l
                /\ a_clientID a = label_of (clientID req)
       | WARNING =>
           2 <= rank l
           /\ exists a, alerts w' = alerts w ++ [a]
                /\ a_severity a = "high" /\ a_riskState a = label l
                /\ a_clientID a = label_of (clientID req)
       | CRITICAL =>
           2 <= rank l
           /\ exists a, alerts w' = alerts w ++ [a]
                /\ a_severity a = "critical" /\ a_riskState a = label l
                /\ a_clientID a = label_of (clientID req)
       end.
Proof.
  intros H S.
  destruct (process_200_inv _ _ _ _ _ _ H S) as (p & rs & V & E & Hrs & D).
  destruct (decisionEngine_inv _ _ _ _ _ _ _ _ _ _ Hrs D)
    as (l & oa & rd & -> & Ha & Hsome & Hsev & _).
  exists p, l. split; [exact E |]. split; [exact Hrs |].
  destruct l; cbn in Hsome; destruct oa as [a |]; try discriminate Hsome;
    cbn [app] in Ha;
    try (split; [unfold rank; cbn; lia | rewrite app_nil_r in Ha; exact Ha]);
    destruct (Hsev a eq_refl) as (Sv & Sr & Sc); cbn in Sv;
    inversion Sv;
    (split; [unfold rank; cbn; lia |]);
    exists a; repeat split; auto.
Qed.

Lemma alert_iff_unusual_or_above_witness :
  exists (p : MLPrediction) (l : RiskLevel),
    ml (sample_env "WARNING") = MLData (Some p)
    /\ riskState p = Some (label l)
    /\ match l with
       | NORMAL | LOW_ANOMALY =>
           rank l < 2 /\ alerts world_after_warning = alerts empty_world
       | UNUSUAL | ALERT =>
           2 <= rank l
           /\ exists a, alerts world_after_warning = alerts empty_world ++ [a]
                /\ a_severity a = "medium" /\ a_riskState a = label l
                /\ a_clientID a = label_of (clientID sample_body)
       | WARNING =>
           2 <= rank l
           /\ exists a, alerts world_after_warning = alerts empty_world ++ [a]
                /\ a_severity a = "high" /\ a_riskState a = label l
                /\ a_clientID a = label_of (clientID sample_body)
       | CRITICAL =>
           2 <= rank l
           /\ exists a, alerts world_after_warning = alerts empty_world ++ [a]
                /\ a_severity a = "critical" /\ a_riskState a = label l
                /\ a_clientID a = label_of (clientID sample_body)
       end.
Proof.
  apply (alert_iff_unusual_or_above blockchain_on (sample_env "WARNING")
           sample_body empty_world world_after_warning
           (fst (processSensorReading blockchain_on (sample_env "WARNING")
                   sample_body empty_world)));
    vm_compute; reflexivity.
Defined.

(** ** C6: ventilation *)

(** C6, as stated, fails: a WARNING reading of a zone that is already in AUTO
    is processed successfully and the ventilation update is requested again,
    although the mode does not change. *)
Lemma ventilation_only_on_transition_counterexample :
  ~ (forall (cfg : Config) (env : Env) (req : Body) (w w' : World)
            (r : Response),
       processSensorReading cfg env req w = (r, w') ->
       status r = 200 ->
       ventCalls w' <> ventCalls w ->
       ventilationMode w' (label_of (clientID req))
       <> ventilationMode w (label_of (clientID req))).
Proof.
  intros H.
  apply (H blockchain_on (sample_env "WARNING") sample_body
           world_after_warning
           (snd (processSensorReading blockchain_on (sample_env "WARNING")
                   sample_body world_after_warning))
           (fst (processSensorReading blockchain_on (sample_env "WARNING")
                   sample_body world_after_warning))).
  - vm_compute. reflexivity.
  - vm_compute. reflexivity.
  - vm_compute. discriminate.
  - vm_compute. reflexivity.
Qed.

(** C6, amended. For every successfully processed reading, the ventilation
    update is requested exactly once when the level ranks at WARNING or
    above, whether or not the zone is already in the requested mode, with
    mode AUTO for WARNING and FORCED for CRITICAL, and the zone is in that
    mode afterwards; for a level below WARNING no update is requested and the
    ventilation collection is unchanged. *)
Theorem ventilation_on_warning_or_above (cfg : Config) (env : Env)
    (req : Body) (w w' : World) (r : Response) :
  processSensorReading cfg env req w = (r, w') ->
  status r = 200 ->
  exists (p : MLPrediction) (l : RiskLevel),
    ml env = MLData (Some p)
    /\ riskState p = Some (label l)
    /\ match l with
       | WARNING =>
           ventCalls w' = ventCalls w ++ [(label_of (clientID req), AUTO)]
           /\ ventilationMode w' (label_of (clientID req)) = AUTO
       | CRITICAL =>
           ventCalls w' = ventCalls w ++ [(label_of (clientID req), FORCED)]
           /\ ventilationMode w' (label_of (clientID req)) = FORCED
       | _ =>
           rank l < 4
           /\ ventCalls w' = ventCalls w
           /\ ventilation w' = ventilation w
       end.
Proof.
  intros H S.
  destruct (process_200_inv _ _ _ _ _ _ H S) as (p & rs & V & E & Hrs & D).
  destruct (decisionEngine_inv _ _ _ _ _ _ _ _ _ _ Hrs D)
    as (l & oa & rd & -> & _ & _ & _ & Hc & Hm & _).
  exists p, l. split; [exact E |]. split; [exact Hrs |].
  destruct l; cbn in Hc, Hm;
    try (rewrite app_nil_r in Hc; split; [unfold rank; cbn; lia |]);
    split; assumption.
Qed.

Lemma ventilation_on_warning_or_above_witness :
  exists (p : MLPrediction) (l : RiskLevel),
    ml (sample_env "WARNING") = MLData (Some p)
    /\ riskState p = Some (label l)
    /\ match l with
       | WARNING =>
           ventCalls world_after_warning
           = ventCalls empty_world ++ [(label_of (clientID sample_body), AUTO)]
           /\ ventilationMode world_after_warning
                (label_of (clientID sample_body)) = AUTO
       | CRITICAL =>
           ventCalls world_after_warning
           = ventCalls empty_world
               ++ [(label_of (clientID sample_body), FORCED)]
           /\ ventilationMode world_after_warning
                (label_of (clientID sample_body)) = FORCED
       | _ =>
           rank l < 4
           /\ ventCalls world_after_warning = ventCalls empty_world
           /\ ventilation world_after_warning = ventilation empty_world
       end.
Proof.
  apply (ventilation_on_warning_or_above blockchain_on (sample_env "WARNING")
           sample_body empty_world world_after_warning
           (fst (processSensorReading blockchain_on (sample_env "WARNING")
                   sample_body empty_world)));
    vm_compute; reflexivity.
Defined.

(** ** C7: audit events *)

(** C7, as stated, fails: with blockchain logging disabled (the default of
    the configuration) a CRITICAL reading is processed successfully and no
    audit event is posted. *)
Lemma audit_event_counterexample :
  ~ (forall (cfg : Config) (env : Env) (req : Body) (w w' : World)
            (r : Response) (p : MLPrediction) (l : RiskLevel),
       processSensorReading cfg env req w = (r, w') ->
       status r = 200 ->
       ml env = MLData (Some p) ->
       riskState p = Some (label l) ->
       4 <= rank l ->
       exists e, auditPosts w' = auditPosts w ++ [e]).
Proof.
  intros H.
  destruct (H blockchain_off (sample_env "CRITICAL") sample_body empty_world
              (snd (processSensorReading blockchain_off
                      (sample_env "CRITICAL") sample_body empty_world))
              (fst (processSensorReading blockchain_off
                      (sample_env "CRITICAL") sample_body empty_world))
              (sample_prediction "CRITICAL") CRITICAL) as (e & E).
  - vm_compute. reflexivity.
  - vm_compute. reflexivity.
  - reflexivity.
  - reflexivity.
  - vm_compute. discriminate.
  - vm_compute in E. discriminate E.
Qed.

(** C7, amended. For every successfully processed reading, exactly one audit
    event is posted when blockchain logging is enabled and the level ranks at
    WARNING or above, and none otherwise: never for a level below WARNING,
    and never while blockchain logging is disabled. *)
Theorem audit_event_when_enabled (cfg : Config) (env : Env) (req : Body)
    (w w' : World) (r : Response) :
  processSensorReading cfg env req w = (r, w') ->
  status r = 200 ->
  exists (p : MLPrediction) (l : RiskLevel),
    ml env = MLData (Some p)
    /\ riskState p = Some (label l)
    /\ ((BLOCKCHAIN_ENABLED cfg = true /\ 4 <= rank l
         /\ exists e, auditPosts w' = auditPosts w ++ [e]
              /\ e_eventType e = "GAS_ALERT"
              /\ e_clientID e = label_of (clientID req)
              /\ e_riskState e = label l)
        \/ ((BLOCKCHAIN_ENABLED cfg = false \/ rank l < 4)
            /\ auditPosts w' = auditPosts w)).
Proof.
  intros H S.
  destruct (process_200_inv _ _ _ _ _ _ H S) as (p & rs & V & E & Hrs & D).
  destruct (decisionEngine_inv _ _ _ _ _ _ _ _ _ _ Hrs D)
    as (l & oa & rd & -> & _ & _ & _ & _ & _ & Hp & _).
  exists p, l. split; [exact E |]. split; [exact Hrs |].
  destruct (BLOCKCHAIN_ENABLED cfg); cbn [andb] in Hp.
  - destruct (4 <=? rank l) eqn:G.
    + left. split; [reflexivity |]. split; [apply Z.leb_le; exact G |].
      eexists. split; [exact Hp |]. repeat split; reflexivity.
    + right. rewrite app_nil_r in Hp. split; [| exact Hp].
      right. apply Z.leb_gt. exact G.
  - right. rewrite app_nil_r in Hp. split; [left; reflexivity | exact Hp].
Qed.

Lemma audit_event_when_enabled_witness :
  exists (p : MLPrediction) (l : RiskLevel),
    ml (sample_env "WARNING") = MLData (Some p)
    /\ riskState p = Some (label l)
    /\ ((BLOCKCHAIN_ENABLED blockchain_on = true /\ 4 <= rank l
         /\ exists e, auditPosts world_after_warning
                      = auditPosts empty_world ++ [e]
              /\ e_eventType e = "GAS_ALERT"
              /\ e_clientID e = label_of (clientID sample_body)
              /\ e_riskState e = label l)
        \/ ((BLOCKCHAIN_ENABLED blockchain_on = false \/ rank l < 4)
            /\ auditPosts world_after_warning = auditPosts empty_world)).
Proof.
  apply (audit_event_when_enabled blockchain_on (sample_env "WARNING")
           sample_body empty_world world_after_warning
           (fst (processSensorReading blockchain_on (sample_env "WARNING")
                   sample_body empty_world)));
    vm_compute; reflexivity.
Defined.

(** ** C9: a failing collaborator *)

Lemma label_inj (l l' : RiskLevel) : label l = label l' -> l = l'.
Proof. destruct l, l'; intros H; try reflexivity; discriminate H. Qed.




(** ** C1: the FORCED mode *)


(** The same in general: whatever the mode of the zone was, a successfully
    processed WARNING reading leaves it in AUTO. *)
Lemma warning_sets_auto (cfg : Config) (env : Env) (req : Body)
    (p : MLPrediction) (w w' : World) (r : Response) :
  processSensorReading cfg env req w = (r, w') ->
  status r = 200 ->
  ml env = MLData (Some p) ->
  riskState p = Some (label WARNING) ->
  ventilationMode w' (label_of (clientID req)) = AUTO.
Proof.
  intros H S E Hrs.
  destruct (process_200_inv _ _ _ _ _ _ H S)
    as (p' & rs & _ & E' & Hrs' & D).
  rewrite E in E'. inversion E'; subst p'; clear E'.
  destruct (decisionEngine_inv _ _ _ _ _ _ _ _ _ _ Hrs' D)
    as (l' & oa & rd & -> & _ & _ & _ & _ & Hm & _).
  rewrite Hrs in Hrs'. inversion Hrs' as [L].
  apply (label_inj WARNING l') in L. subst l'. exact Hm.
Qed.

(** The part of the latch that holds: a successfully processed reading of
    any level other than WARNING leaves a zone that is in FORCED in FORCED. *)
Lemma forced_kept_unless_warning (cfg : Config) (env : Env) (req : Body)
    (p : MLPrediction) (l : RiskLevel) (w w' : World) (r : Response) :
  processSensorReading cfg env req w = (r, w') ->
  status r = 200 ->
  ml env = MLData (Some p) ->
  riskState p = Some (label l) ->
  l <> WARNING ->
  ventilationMode w (label_of (clientID req)) = FORCED ->
  ventilationMode w' (label_of (clientID req)) = FORCED.
Proof.
  intros H S E Hrs Hl F.
  destruct (process_200_inv _ _ _ _ _ _ H S)
    as (p' & rs & _ & E' & Hrs' & D).
  rewrite E in E'. inversion E'; subst p'; clear E'.
  destruct (decisionEngine_inv _ _ _ _ _ _ _ _ _ _ Hrs' D)
    as (l' & oa & rd & -> & _ & _ & _ & _ & Hm & _).
  rewrite Hrs in Hrs'. inversion Hrs' as [L]. apply label_inj in L.
  subst l'.
  destruct l; cbn in Hm; try congruence;
    rewrite (ventilationMode_ext w' w _ Hm); exact F.
Qed.

(** ** C8: the fusion rule *)

Lemma rank_values :
  map rank all_levels = [0; 1; 2; 3; 4; 5].
Proof. reflexivity. Qed.

(** C8. For every threshold classification and every anomaly
    classification, the rank of the fused level is the maximum of the two
    ranks, under the order NORMAL(0) < LOW_ANOMALY(1) < UNUSUAL(2) < ALERT(3)
    < WARNING(4) < CRITICAL(5); the fused level is below neither input. *)
Theorem fuse_is_max (threshold : Fusion.ThresholdClassification)
    (anomaly : Fusion.AnomalyClassification) :
  let fused := Fusion.Fuse threshold (Fusion.Available anomaly) in
  rank (Fusion.f_riskLevel fused)
  = Z.max (rank (Fusion.t_overallRisk threshold))
          (rank (Fusion.a_risk anomaly))
  /\ rank (Fusion.t_overallRisk threshold) <= rank (Fusion.f_riskLevel fused)
  /\ rank (Fusion.a_risk anomaly) <= rank (Fusion.f_riskLevel fused)
  /\ map rank all_levels = [0; 1; 2; 3; 4; 5].
Proof.
  cbv zeta. unfold Fusion.Fuse. cbn [Fusion.f_riskLevel].
  unfold Fusion.max_level.
  destruct (rank (Fusion.t_overallRisk threshold)
            <? rank (Fusion.a_risk anomaly)) eqn:C.
  - apply Z.ltb_lt in C. repeat split; lia.
  - apply Z.ltb_ge in C. repeat split; lia.
Qed.

(** Without an anomaly signal the fused level is the threshold level and the
    confidence is low. *)
Lemma fuse_unavailable (threshold : Fusion.ThresholdClassification) :
  Fusion.f_riskLevel (Fusion.Fuse threshold Fusion.Unavailable)
  = Fusion.t_overallRisk threshold
  /\ Fusion.f_confidence (Fusion.Fuse threshold Fusion.Unavailable)
     = Fusion.low.
Proof. split; reflexivity. Qed.

(** ** C10: the limit of the history queries *)

Example parseLimit_missing : parseLimit (limit_or_default None) = 50.
Proof. reflexivity. Qed.

Example parseLimit_25 : parseLimit (LQuery (QStr "25")) = 25.
Proof. reflexivity. Qed.

Example parseLimit_big : parseLimit (LQuery (QStr " +9999")) = 500.
Proof. reflexivity. Qed.

Example parseLimit_neg : parseLimit (LQuery (QStr "-3")) = 1.
Proof. reflexivity. Qed.

Example parseLimit_hex : parseLimit (LQuery (QStr "0x1F")) = 31.
Proof. reflexivity. Qed.

Example parseLimit_abc : parseLimit (LQuery (QStr "abc")) = 50.
Proof. reflexivity. Qed.

Example parseLimit_arr : parseLimit (LQuery (QArr [QStr "7"; QStr "9"])) = 7.
Proof. reflexivity. Qed.

Lemma getReadings_at_most (dbOk : bool) (query : ReadingsQuery) (w : World) :
  (returned_documents (getReadings dbOk query w) <= 500)%nat.
Proof.
  unfold getReadings, returned_documents. destruct dbOk; cbn [body]; [| lia].
  eapply Nat.le_trans; [apply limit_length |].
  pose proof (parseLimit_bounds (limit_or_default (rq_limit query))) as B.
  unfold MAX_QUERY_LIMIT in B. lia.
Qed.

Lemma getAlerts_at_most (dbOk : bool) (query : AlertsQuery) (w : World) :
  (returned_documents (getAlerts dbOk query w) <= 500)%nat.
Proof.
  unfold getAlerts, returned_documents. destruct dbOk; cbn [body]; [| lia].
  rewrite length_map.
  eapply Nat.le_trans; [apply limit_length |].
  pose proof (parseLimit_bounds (limit_or_default (aq_limit query))) as B.
  unfold MAX_QUERY_LIMIT in B. lia.
Qed.

(** C10, as stated, fails: the numeric limit 0 is not clamped to 1, it is
    replaced by the default 50. *)
Lemma limit_zero_counterexample :
  ~ (forall n : Z,
       parseLimit (LQuery (QStr (decimal n)))
       = Z.min (Z.max n 1) MAX_QUERY_LIMIT).
Proof. intros H. specialize (H 0). vm_compute in H. discriminate H. Qed.

(** A limit that starts with a character that is neither white space, nor a
    sign, nor a decimal digit holds no number for [parseInt]. *)
Lemma parseInt_non_numeric (c : ascii) (rest : string) :
  Js.is_space c = false ->
  c <> "-"%char ->
  c <> "+"%char ->
  Js.digit 10 c = None ->
  Js.parseInt_string (String c rest) = None.
Proof.
  intros Hs Hm Hp Hd.
  destruct c as [[] [] [] [] [] [] [] []];
    try discriminate Hs; try discriminate Hd;
    try (exfalso; apply Hm; reflexivity);
    try (exfalso; apply Hp; reflexivity);
    reflexivity.
Qed.

(** C10, amended. The readings-history and alerts-listing endpoints return at
    most 500 documents.  The limit is read by [parseInt], that is by its
    leading integer: a missing limit, and a limit in which [parseInt] finds
    no leading integer, give 50; a limit whose leading integer [n] is not 0
    gives [min (max n 1) 500], so that the decimal numeral of an integer
    other than 0 is clamped into the range from 1 to 500, while ["12.7"] is
    read as 12 and ["1e3"] as 1; a limit whose leading integer is 0, as
    ["0"] and ["0.5"], gives 50. *)
Theorem query_limit :
  (forall dbOk query w,
     (returned_documents (getReadings dbOk query w) <= 500)%nat)
  /\ (forall dbOk query w,
        (returned_documents (getAlerts dbOk query w) <= 500)%nat)
  /\ parseLimit (limit_or_default None) = 50
  /\ (forall v, parseInt (LQuery v) = None -> parseLimit (LQuery v) = 50)
  /\ (forall v n, parseInt (LQuery v) = Some n -> n <> 0 ->
        parseLimit (LQuery v) = Z.min (Z.max n 1) MAX_QUERY_LIMIT)
  /\ (forall n, parseInt (LQuery (QStr (decimal n))) = Some n)
  /\ (forall v, parseInt (LQuery v) = Some 0 -> parseLimit (LQuery v) = 50)
  /\ parseLimit (LQuery (QStr "12.7")) = 12
  /\ parseLimit (LQuery (QStr "1e3")) = 1
  /\ parseLimit (LQuery (QStr "0.5")) = 50.
Proof.
  split; [exact getReadings_at_most |].
  split; [exact getAlerts_at_most |].
  split; [reflexivity |].
  split.
  { intros v H. unfold parseLimit. rewrite H. reflexivity. }
  split.
  { intros v n H Hn. unfold parseLimit. rewrite H.
    destruct n; [congruence | reflexivity | reflexivity]. }
  split.
  { intros n. unfold parseInt, limit_toString. cbn [query_toString].
    apply parseInt_decimal. }
  split.
  { intros v H. unfold parseLimit. rewrite H. reflexivity. }
  repeat split; reflexivity.
Qed.

Lemma query_limit_witness :
  parseLimit (LQuery (QStr "7")) = Z.min (Z.max 7 1) MAX_QUERY_LIMIT
  /\ parseLimit (LQuery (QStr "abc")) = 50
  /\ parseLimit (LQuery (QStr "0")) = 50.
Proof.
  split; [| split].
  - apply (proj1 (proj2 (proj2 (proj2 (proj2 query_limit)))) (QStr "7") 7).
    + reflexivity.
    + lia.
  - apply (proj1 (proj2 (proj2 (proj2 query_limit))) (QStr "abc")).
    reflexivity.
  - apply (proj1 (proj2 (proj2 (proj2 (proj2 (proj2 (proj2 query_limit))))))
             (QStr "0")).
    reflexivity.
Defined.

(** * Further properties of the controller *)

(** ** Effects of a request, whatever its outcome *)

Lemma grows_refl (cid : string) (w : World) : grows no_growth cid w w.
Proof.
  unfold grows.
  refine (conj _ (conj _ (conj _ (conj _ (conj _ (conj _ _))))));
    try (exists []; rewrite app_nil_r; split; [reflexivity | cbn; lia]).
  - intros c _. reflexivity.
  - apply Nat.le_refl.
Qed.

Lemma grows_trans (g1 g2 : Growth) (cid : string) (w1 w2 w3 : World) :
  grows g1 cid w1 w2 -> grows g2 cid w2 w3 ->
  grows (add_growth g1 g2) cid w1 w3.
Proof.
  intros (R1 & A1 & P1 & C1 & E1 & F1 & N1) (R2 & A2 & P2 & C2 & E2 & F2 & N2).
  unfold grows, add_growth. cbn [g_readings g_alerts g_audit g_vent g_events].
  refine (conj _ (conj _ (conj _ (conj _ (conj _ (conj _ _)))))).
  - destruct R2 as (l2 & -> & L2), R1 as (l1 & -> & L1).
    exists (l1 ++ l2). rewrite app_assoc, length_app. split; [reflexivity | lia].
  - destruct A2 as (l2 & -> & L2), A1 as (l1 & -> & L1).
    exists (l1 ++ l2). rewrite app_assoc, length_app. split; [reflexivity | lia].
  - destruct P2 as (l2 & -> & L2), P1 as (l1 & -> & L1).
    exists (l1 ++ l2). rewrite app_assoc, length_app. split; [reflexivity | lia].
  - destruct C2 as (l2 & -> & L2), C1 as (l1 & -> & L1).
    exists (l1 ++ l2). rewrite app_assoc, length_app. split; [reflexivity | lia].
  - destruct E2 as (l2 & -> & L2), E1 as (l1 & -> & L1).
    exists (l1 ++ l2). rewrite app_assoc, length_app. split; [reflexivity | lia].
  - intros c Hc. rewrite (F2 c Hc). apply F1. exact Hc.
  - lia.
Qed.

Lemma grows_weaken (g g' : Growth) (cid : string) (w w' : World) :
  (g_readings g <= g_readings g')%nat ->
  (g_alerts g <= g_alerts g')%nat ->
  (g_audit g <= g_audit g')%nat ->
  (g_vent g <= g_vent g')%nat ->
  (g_events g <= g_events g')%nat ->
  grows g cid w w' -> grows g' cid w w'.
Proof.
  intros Hr Ha Hp Hc He (R & A & P & C & E & F & N).
  unfold grows.
  refine (conj _ (conj _ (conj _ (conj _ (conj _ (conj F N)))))).
  - destruct R as (l & -> & L). exists l. split; [reflexivity | lia].
  - destruct A as (l & -> & L). exists l. split; [reflexivity | lia].
  - destruct P as (l & -> & L). exists l. split; [reflexivity | lia].
  - destruct C as (l & -> & L). exists l. split; [reflexivity | lia].
  - destruct E as (l & -> & L). exists l. split; [reflexivity | lia].
Qed.

Section GrowthOfSteps.

Context {A B : Type}.
Variable cid : string.

Lemma grows_bind (g1 g2 : Growth) (m : M A) (k : A -> M B) :
  (forall w, grows g1 cid w (snd (m w))) ->
  (forall a w, grows g2 cid w (snd (k a w))) ->
  forall w, grows (add_growth g1 g2) cid w (snd (bind m k w)).
Proof.
  intros Hm Hk w. unfold bind. specialize (Hm w).
  destruct (m w) as [[a | e] w1]; cbn [snd] in *.
  - eapply grows_trans; [exact Hm | apply Hk].
  - eapply grows_weaken; [.. | exact Hm]; cbn; lia.
Qed.

Lemma grows_try_catch (g1 g2 : Growth) (m : M A) (h : Exn -> M A) :
  (forall w, grows g1 cid w (snd (m w))) ->
  (forall e w, grows g2 cid w (snd (h e w))) ->
  forall w, grows (add_growth g1 g2) cid w (snd (try_catch m h w)).
Proof.
  intros Hm Hh w. unfold try_catch. specialize (Hm w).
  destruct (m w) as [[a | e] w1]; cbn [snd] in *.
  - eapply grows_weaken; [.. | exact Hm]; cbn; lia.
  - eapply grows_trans; [exact Hm | apply Hh].
Qed.

End GrowthOfSteps.

Lemma grows_ret {A} (cid : string) (a : A) (w : World) :
  grows no_growth cid w (snd (ret a w)).
Proof. apply grows_refl. Qed.

Lemma grows_throw {A} (cid : string) (e : Exn) (w : World) :
  grows no_growth cid w (snd (@throw A e w)).
Proof. apply grows_refl. Qed.

Lemma grows_intro (g : Growth) (cid : string) (w w' : World)
    (lr : list SensorReading) (la : list Alert) (lp : list AuditEvent)
    (lc : list (string * Mode)) (le : list WsEvent) :
  readings w' = readings w ++ lr -> (List.length lr <= g_readings g)%nat ->
  alerts w' = alerts w ++ la -> (List.length la <= g_alerts g)%nat ->
  auditPosts w' = auditPosts w ++ lp -> (List.length lp <= g_audit g)%nat ->
  ventCalls w' = ventCalls w ++ lc -> (List.length lc <= g_vent g)%nat ->
  emitted w' = emitted w ++ le -> (List.length le <= g_events g)%nat ->
  (forall c, c <> cid -> find_ventilation c w' = find_ventilation c w) ->
  (nextId w <= nextId w')%nat ->
  grows g cid w w'.
Proof.
  intros. unfold grows.
  refine (conj _ (conj _ (conj _ (conj _ (conj _ (conj _ _))))));
    try assumption; eexists; try split; eassumption.
Qed.

(** Closes [grows g cid w w'] when [w'] is [w] with lists appended. *)
Ltac appended lr la lp lc le :=
  apply (grows_intro _ _ _ _ lr la lp lc le);
  cbn; rewrite ?app_nil_r; try reflexivity; try lia; try (intros; reflexivity).

Lemma grows_fresh_id (cid : string) (w : World) :
  grows no_growth cid w (snd (fresh_id w)).
Proof. unfold fresh_id. appended (@nil SensorReading) (@nil Alert)
         (@nil AuditEvent) (@nil (string * Mode)) (@nil WsEvent). Qed.

Lemma grows_emit (cid : string) (room : option string) (name : string)
    (p : WsPayload) (w : World) :
  grows (mkGrowth 0 0 0 0 1) cid w (snd (emit room name p w)).
Proof.
  unfold emit, modify.
  appended (@nil SensorReading) (@nil Alert) (@nil AuditEvent)
           (@nil (string * Mode)) [mkWsEvent room name p].
Qed.

Lemma grows_Alert_save (cid : string) (env : Env) (a : Alert) (w : World) :
  grows (mkGrowth 0 1 0 0 0) cid w (snd (Alert_save env a w)).
Proof.
  unfold Alert_save.
  destruct (negb (Alert_valid a)); [| destruct (alertSaveOk env)];
    unfold throw, modify; cbn [snd].
  - eapply grows_weaken; [.. | apply grows_refl]; cbn; lia.
  - appended (@nil SensorReading) [a] (@nil AuditEvent)
             (@nil (string * Mode)) (@nil WsEvent).
  - eapply grows_weaken; [.. | apply grows_refl]; cbn; lia.
Qed.

Lemma grows_SensorReading_save (cid : string) (env : Env)
    (r : SensorReading) (w : World) :
  grows (mkGrowth 1 0 0 0 0) cid w (snd (SensorReading_save env r w)).
Proof.
  unfold SensorReading_save.
  destruct (negb (SensorReading_valid r)); [| destruct (readingSaveOk env)];
    unfold throw, modify; cbn [snd].
  - eapply grows_weaken; [.. | apply grows_refl]; cbn; lia.
  - appended [r] (@nil Alert) (@nil AuditEvent)
             (@nil (string * Mode)) (@nil WsEvent).
  - eapply grows_weaken; [.. | apply grows_refl]; cbn; lia.
Qed.

Lemma grows_createAlert (cfg : Config) (env : Env) (cid : string)
    (p : MLPrediction) (g : Js.value) (rid : nat) (w : World) :
  grows (mkGrowth 0 1 0 0 0) cid w (snd (createAlert cfg env cid p g rid w)).
Proof.
  unfold createAlert.
  apply (grows_bind cid no_growth (mkGrowth 0 1 0 0 0)).
  - apply grows_fresh_id.
  - intros id w0.
    destruct (severity_or (label_of (riskState p)) "medium").
    + apply (grows_bind cid (mkGrowth 0 1 0 0 0) no_growth).
      * apply grows_Alert_save.
      * intros; apply grows_ret.
    + eapply grows_weaken; [.. | apply grows_throw]; cbn; lia.
Qed.

Lemma grows_alertStep (cfg : Config) (env : Env) (cid : string)
    (p : MLPrediction) (g : Js.value) (rid : nat) (level : Operand)
    (acts : ActionsTaken) (w : World) :
  grows (mkGrowth 0 1 0 0 0) cid w
        (snd (alertStep cfg env cid p g rid level acts w)).
Proof.
  unfold alertStep. destruct (js_ge level (rank_of "UNUSUAL")).
  - apply (grows_bind cid (mkGrowth 0 1 0 0 0) no_growth).
    + apply grows_createAlert.
    + intros; apply grows_ret.
  - eapply grows_weaken; [.. | apply grows_ret]; cbn; lia.
Qed.

(** The update of one zone leaves the documents of the others alone. *)
Lemma update_first_other (cid c : string)
    (f : VentilationStatus -> VentilationStatus)
    (coll : list VentilationStatus) :
  (forall d, v_clientID (f d) = v_clientID d) ->
  c <> cid ->
  forall d coll', update_first cid f coll = Some (d, coll') ->
  find (fun x => String.eqb (v_clientID x) c) coll'
  = find (fun x => String.eqb (v_clientID x) c) coll.
Proof.
  intros Hf Hc. induction coll as [| x rest IH]; intros d coll' H.
  - discriminate H.
  - cbn [update_first] in H.
    destruct (String.eqb (v_clientID x) cid) eqn:E.
    + injection H as <- <-. cbn [find]. rewrite Hf.
      apply String.eqb_eq in E.
      assert (N : String.eqb (v_clientID x) c = false).
      { apply String.eqb_neq. congruence. }
      rewrite N. reflexivity.
    + destruct (update_first cid f rest) as [[d1 rest1] |] eqn:U;
        [| discriminate H].
      injection H as <- <-. cbn [find].
      rewrite (IH d1 rest1 eq_refl). reflexivity.
Qed.

Lemma find_app_last {T} (q : T -> bool) (l : list T) (x : T) :
  q x = false -> find q (l ++ [x]) = find q l.
Proof.
  intros H. induction l as [| y rest IH]; cbn [find app].
  - rewrite H. reflexivity.
  - destruct (q y); [reflexivity | exact IH].
Qed.

Lemma upsert_first_other (cid c : string)
    (f : VentilationStatus -> VentilationStatus) (fresh : VentilationStatus)
    (coll : list VentilationStatus) :
  (forall d, v_clientID (f d) = v_clientID d) ->
  v_clientID fresh = cid ->
  c <> cid ->
  find (fun x => String.eqb (v_clientID x) c)
       (snd (upsert_first cid f fresh coll))
  = find (fun x => String.eqb (v_clientID x) c) coll.
Proof.
  intros Hf Hfresh Hc. unfold upsert_first.
  destruct (update_first cid f coll) as [[d coll'] |] eqn:U; cbn [snd].
  - eapply update_first_other; eassumption.
  - apply find_app_last. rewrite Hf, Hfresh.
    apply String.eqb_neq. congruence.
Qed.

Lemma grows_findOneAndUpdate (env : Env) (cid : string)
    (f : VentilationStatus -> VentilationStatus) (w : World) :
  (forall d, v_clientID (f d) = v_clientID d) ->
  grows no_growth cid w
        (snd (VentilationStatus_findOneAndUpdate env cid f w)).
Proof.
  intros Hf. unfold VentilationStatus_findOneAndUpdate.
  destruct (ventUpdateOk env); [| apply grows_refl].
  destruct (upsert_first cid f _ (ventilation w)) as [d coll] eqn:U.
  cbn [snd].
  apply (grows_intro _ _ _ _ (@nil SensorReading) (@nil Alert)
           (@nil AuditEvent) (@nil (string * Mode)) (@nil WsEvent));
    cbn; rewrite ?app_nil_r; try reflexivity; try lia.
  intros c Hc. unfold find_ventilation. cbn [ventilation].
  replace coll with (snd (upsert_first cid f
     (mkVentilationStatus cid false OFF None None None (now env))
     (ventilation w))) by (rewrite U; reflexivity).
  apply upsert_first_other; [exact Hf | reflexivity | exact Hc].
Qed.

Lemma grows_triggerVentilation (env : Env) (cid rs : string) (w : World) :
  grows (mkGrowth 0 0 0 1 0) cid w (snd (triggerVentilation env cid rs w)).
Proof.
  unfold triggerVentilation.
  apply (grows_bind cid (mkGrowth 0 0 0 1 0) no_growth).
  - intros w0. unfold log_ventCall, modify.
    appended (@nil SensorReading) (@nil Alert) (@nil AuditEvent)
      [(cid, if String.eqb rs "CRITICAL" then FORCED else AUTO)]
      (@nil WsEvent).
  - intros _ w0. apply grows_findOneAndUpdate. intros d. reflexivity.
Qed.

Lemma grows_ventilationStep (env : Env) (cid rs : string) (level : Operand)
    (acts : ActionsTaken) (w : World) :
  grows (mkGrowth 0 0 0 1 0) cid w
        (snd (ventilationStep env cid rs level acts w)).
Proof.
  unfold ventilationStep. destruct (js_ge level (rank_of "WARNING")).
  - apply (grows_bind cid (mkGrowth 0 0 0 1 0) no_growth).
    + apply grows_triggerVentilation.
    + intros; apply grows_ret.
  - eapply grows_weaken; [.. | apply grows_ret]; cbn; lia.
Qed.

Lemma grows_blockchainStep (cfg : Config) (env : Env) (cid rs : string)
    (g : Js.value) (p : MLPrediction) (alert : option Alert)
    (level : Operand) (acts : ActionsTaken) (w : World) :
  grows (mkGrowth 0 0 1 0 0) cid w
        (snd (blockchainStep cfg env cid rs g p alert level acts w)).
Proof.
  unfold blockchainStep.
  destruct (BLOCKCHAIN_ENABLED cfg && js_ge level (rank_of "WARNING")).
  - unfold try_catch, bind, axios_post_log_event, bind, log_auditPost,
      modify, ret, throw.
    destruct (auditPostOk env); cbn [snd];
      match goal with
      | |- context [auditPosts w ++ [?e]] =>
          appended (@nil SensorReading) (@nil Alert) [e]
                   (@nil (string * Mode)) (@nil WsEvent)
      end.
  - eapply grows_weaken; [.. | apply grows_ret]; cbn; lia.
Qed.

Lemma grows_broadcast (env : Env) (cid rs : string) (p : MLPrediction)
    (reading : SensorReading) (alert : option Alert)
    (vent : option VentilationStatus) (w : World) :
  grows (mkGrowth 0 0 0 0 10) cid w
        (snd (broadcast env cid rs p reading alert vent w)).
Proof.
  unfold broadcast.
  destruct (io env);
    [| eapply grows_weaken; [.. | apply grows_ret]; cbn; lia].
  revert w.
  apply (grows_bind cid (mkGrowth 0 0 0 0 1) (mkGrowth 0 0 0 0 9));
    [intros w; apply grows_emit | intros _].
  apply (grows_bind cid (mkGrowth 0 0 0 0 1) (mkGrowth 0 0 0 0 8));
    [intros w; apply grows_emit | intros _].
  apply (grows_bind cid (mkGrowth 0 0 0 0 1) (mkGrowth 0 0 0 0 7));
    [intros w; apply grows_emit | intros _].
  apply (grows_bind cid (mkGrowth 0 0 0 0 1) (mkGrowth 0 0 0 0 6));
    [intros w; apply grows_emit | intros _].
  apply (grows_bind cid (mkGrowth 0 0 0 0 1) (mkGrowth 0 0 0 0 5));
    [intros w; apply grows_emit | intros _].
  apply (grows_bind cid (mkGrowth 0 0 0 0 2) (mkGrowth 0 0 0 0 3)).
  - destruct alert;
      [| intros w; eapply grows_weaken; [.. | apply grows_ret]; cbn; lia].
    apply (grows_bind cid (mkGrowth 0 0 0 0 1) (mkGrowth 0 0 0 0 1));
      [intros w; apply grows_emit | intros _ w; apply grows_emit].
  - intros _. destruct vent;
      [| intros w; eapply grows_weaken; [.. | apply grows_ret]; cbn; lia].
    apply (grows_bind cid (mkGrowth 0 0 0 0 1) (mkGrowth 0 0 0 0 2));
      [intros w; apply grows_emit | intros _].
    apply (grows_bind cid (mkGrowth 0 0 0 0 1) (mkGrowth 0 0 0 0 1));
      [intros w; apply grows_emit | intros _ w; apply grows_emit].
Qed.

Lemma grows_callMlService (cid : string) (env : Env) (w : World) :
  grows no_growth cid w (snd (callMlService env w)).
Proof.
  destruct (callMlService_frame env w) as [called ->]. apply grows_refl.
Qed.

Lemma grows_decisionEngine (cfg : Config) (env : Env) (req : Body)
    (cid : string) (g : Gases) (p : MLPrediction) (w : World) :
  grows (mkGrowth 1 1 1 1 10) cid w
        (snd (decisionEngine cfg env req cid g p w)).
Proof.
  unfold decisionEngine. revert w.
  apply (grows_bind cid no_growth (mkGrowth 1 1 1 1 10));
    [intros w; apply grows_fresh_id | intros rid].
  apply (grows_bind cid (mkGrowth 0 1 0 0 0) (mkGrowth 1 0 1 1 10));
    [intros w; apply grows_alertStep | intros [oa acts1]].
  apply (grows_bind cid (mkGrowth 0 0 0 1 0) (mkGrowth 1 0 1 0 10));
    [intros w; apply grows_ventilationStep | intros [ov acts2]].
  apply (grows_bind cid (mkGrowth 0 0 1 0 0) (mkGrowth 1 0 0 0 10));
    [intros w; apply grows_blockchainStep | intros acts3].
  apply (grows_bind cid (mkGrowth 1 0 0 0 0) (mkGrowth 0 0 0 0 10));
    [intros w; apply grows_SensorReading_save | intros _].
  apply (grows_bind cid (mkGrowth 0 0 0 0 10) no_growth);
    [intros w; apply grows_broadcast | intros _ w; apply grows_ret].
Qed.

Lemma snd_handler (error : string) (m : M Response) (w : World) :
  snd (handler error m w) = snd (m w).
Proof. unfold handler. destruct (m w) as [[r | e] w']; reflexivity. Qed.

(** Whatever the outcome of a request, the stores only grow, by at most one
    document or call of each kind, and only the zone of the request is
    touched. *)
Lemma grows_processSensorReading (cfg : Config) (env : Env) (req : Body)
    (w : World) :
  grows (mkGrowth 1 1 1 1 10) (label_of (clientID req)) w
        (snd (processSensorReading cfg env req w)).
Proof.
  destruct (valid_body req) eqn:V.
  - destruct (input_loggable req) eqn:L;
      [| rewrite process_unloggable by assumption; cbn [snd];
         eapply grows_weaken; [.. | apply grows_refl]; cbn; lia].
    rewrite process_valid by assumption. rewrite snd_handler. revert w.
    apply (grows_bind _ no_growth (mkGrowth 1 1 1 1 10));
      [intros w; apply grows_callMlService | intros [p | response] w].
    + apply grows_decisionEngine.
    + eapply grows_weaken; [.. | apply grows_ret]; cbn; lia.
  - destruct (process_invalid cfg env req w V) as [error ->]. cbn [snd].
    eapply grows_weaken; [.. | apply grows_refl]; cbn; lia.
Qed.

(** ** Zones are independent *)

(** Processing a reading of one zone never changes the ventilation document
    of another zone, whatever the outcome of the request. *)
Theorem other_zones_untouched (cfg : Config) (env : Env) (req : Body)
    (w : World) (zone : string) :
  zone <> label_of (clientID req) ->
  find_ventilation zone (snd (processSensorReading cfg env req w))
  = find_ventilation zone w
  /\ ventilationMode (snd (processSensorReading cfg env req w)) zone
     = ventilationMode w zone.
Proof.
  intros H.
  destruct (grows_processSensorReading cfg env req w)
    as (_ & _ & _ & _ & _ & F & _).
  split; [apply F; exact H |].
  unfold ventilationMode. rewrite (F zone H). reflexivity.
Qed.

Lemma other_zones_untouched_witness :
  find_ventilation "zone-1"
    (snd (processSensorReading blockchain_on (sample_env "CRITICAL")
            sample_body_zone2 world_after_warning))
  = find_ventilation "zone-1" world_after_warning
  /\ ventilationMode
       (snd (processSensorReading blockchain_on (sample_env "CRITICAL")
               sample_body_zone2 world_after_warning)) "zone-1"
     = ventilationMode world_after_warning "zone-1".
Proof.
  apply (other_zones_untouched blockchain_on (sample_env "CRITICAL")
           sample_body_zone2 world_after_warning "zone-1").
  vm_compute. discriminate.
Defined.

(** ** At most one of each, and nothing is lost *)

(** Whatever the outcome of a request, the readings, the alerts, the audit
    posts and the ventilation updates that existed before are all still
    there, in the same order, and at most one of each has been appended; at
    most ten socket events have been sent. *)
Theorem at_most_one_of_each (cfg : Config) (env : Env) (req : Body)
    (w : World) :
  let w' := snd (processSensorReading cfg env req w) in
  (exists l, readings w' = readings w ++ l /\ (List.length l <= 1)%nat)
  /\ (exists l, alerts w' = alerts w ++ l /\ (List.length l <= 1)%nat)
  /\ (exists l, auditPosts w' = auditPosts w ++ l /\ (List.length l <= 1)%nat)
  /\ (exists l, ventCalls w' = ventCalls w ++ l /\ (List.length l <= 1)%nat)
  /\ (exists l, emitted w' = emitted w ++ l /\ (List.length l <= 10)%nat).
Proof.
  cbv zeta.
  destruct (grows_processSensorReading cfg env req w)
    as (R & A & P & C & E & _).
  refine (conj R (conj A (conj P (conj C E)))).
Qed.

(** ** The status of the answer *)

Lemma bind_throw_inv {A B} (m : M A) (k : A -> M B) (w w' : World)
    (e : Exn) :
  bind m k w = (Throw e, w') ->
  m w = (Throw e, w')
  \/ exists a w1, m w = (Ok a, w1) /\ k a w1 = (Throw e, w').
Proof.
  unfold bind. destruct (m w) as [[a | e0] w1]; intros H.
  - right. exists a, w1. split; [reflexivity | exact H].
  - left. inversion H; subst. reflexivity.
Qed.

Lemma decisionEngine_status (cfg : Config) (env : Env) (req : Body)
    (cid : string) (g : Gases) (p : MLPrediction) (r : Response)
    (w w' : World) :
  decisionEngine cfg env req cid g p w = (Ok r, w') -> status r = 200.
Proof.
  intros H. unfold decisionEngine in H.
  apply bind_inv in H. destruct H as [rid [w1 [_ H]]].
  apply bind_inv in H. destruct H as [[oa acts1] [w2 [_ H]]].
  apply bind_inv in H. destruct H as [[ov acts2] [w3 [_ H]]].
  apply bind_inv in H. destruct H as [acts3 [w4 [_ H]]].
  apply bind_inv in H. destruct H as [[] [w5 [_ H]]].
  apply bind_inv in H. destruct H as [[] [w6 [_ H]]].
  unfold ret in H. inversion H. reflexivity.
Qed.

Lemma callMlService_cases (env : Env) (w : World) :
  (ml_accepted env = true
   /\ exists p, ml env = MLData (Some p)
        /\ truthy_string (riskState p) = true
        /\ callMlService env w = (Ok (inl p), w))
  \/ (ml_accepted env = false
      /\ exists e, callMlService env w
           = (Ok (inr (mkResponse 503
                         (Failure "ML service unavailable" (Some e)))), w)).
Proof.
  unfold ml_accepted, callMlService, try_catch, bind, axios_post_predict,
    logMLResponse.
  destruct (ml env) as [| [p |]]; cbn.
  - right. split; [reflexivity | eexists; reflexivity].
  - destruct (truthy_string (riskState p)) eqn:R;
      destruct (is_some (ppmClassification p)) eqn:P;
      destruct (ml_loggable p) eqn:L; cbn;
      try (right; split; [reflexivity | eexists; reflexivity]).
    left. split; [reflexivity |]. exists p. repeat split; assumption.
  - right. split; [reflexivity | eexists; reflexivity].
Qed.


(** ** Failed requests *)

Lemma grows_keeps_log (g : Growth) (cid : string) (w w' : World) :
  g_readings g = 0%nat -> g_events g = 0%nat ->
  grows g cid w w' -> keeps_log w w'.
Proof.
  intros Hr He ((lr & R & Lr) & _ & _ & _ & (le & E & Le) & _).
  rewrite Hr in Lr. rewrite He in Le.
  destruct lr; [| cbn in Lr; lia]. destruct le; [| cbn in Le; lia].
  rewrite app_nil_r in R, E. split; assumption.
Qed.

Lemma keeps_log_trans (w1 w2 w3 : World) :
  keeps_log w1 w2 -> keeps_log w2 w3 -> keeps_log w1 w3.
Proof. intros [R1 E1] [R2 E2]. split; congruence. Qed.

Lemma bind_throw_keeps {A B} (g : Growth) (cid : string) (m : M A)
    (k : A -> M B) (w w' : World) (e : Exn) :
  (forall w0, grows g cid w0 (snd (m w0))) ->
  g_readings g = 0%nat -> g_events g = 0%nat ->
  (forall a w1, k a w1 = (Throw e, w') -> keeps_log w1 w') ->
  bind m k w = (Throw e, w') -> keeps_log w w'.
Proof.
  intros Hm Hr He Hk H. specialize (Hm w).
  apply bind_throw_inv in H. destruct H as [H | (a & w1 & H1 & H2)].
  - rewrite H in Hm. eapply grows_keeps_log; eassumption.
  - rewrite H1 in Hm. eapply keeps_log_trans.
    + eapply grows_keeps_log; eassumption.
    + eapply Hk; exact H2.
Qed.

(** When the decision engine throws, no reading was stored and nothing was
    broadcast. *)
Lemma decisionEngine_throw (cfg : Config) (env : Env) (req : Body)
    (cid : string) (g : Gases) (p : MLPrediction) (e : Exn) (w w' : World) :
  decisionEngine cfg env req cid g p w = (Throw e, w') -> keeps_log w w'.
Proof.
  unfold decisionEngine.
  apply (bind_throw_keeps no_growth cid);
    [intros; apply grows_fresh_id | reflexivity | reflexivity |].
  intros rid w1.
  apply (bind_throw_keeps (mkGrowth 0 1 0 0 0) cid);
    [intros; apply grows_alertStep | reflexivity | reflexivity |].
  intros [oa acts1] w2.
  apply (bind_throw_keeps (mkGrowth 0 0 0 1 0) cid);
    [intros; apply grows_ventilationStep | reflexivity | reflexivity |].
  intros [ov acts2] w3.
  apply (bind_throw_keeps (mkGrowth 0 0 1 0 0) cid);
    [intros; apply grows_blockchainStep | reflexivity | reflexivity |].
  intros acts3 w4 H.
  apply bind_throw_inv in H. destruct H as [H | ([] & w5 & S & H)].
  - unfold SensorReading_save in H.
    destruct (negb (SensorReading_valid _));
      [| destruct (readingSaveOk env)];
      unfold throw, modify in H; inversion H; subst; split; reflexivity.
  - exfalso.
    match type of H with
    | bind (broadcast ?en ?c ?s ?q ?rd ?al ?ve) _ _ = _ =>
        destruct (broadcast_frame en c s q rd al ve w5) as (w6 & B & _)
    end.
    rewrite (bind_ok _ _ _ _ _ B) in H. discriminate H.
Qed.

(** A request that is not answered with 200 stores no reading and sends no
    socket event. *)
Theorem failed_request_leaves_no_reading (cfg : Config) (env : Env)
    (req : Body) (w w' : World) (r : Response) :
  processSensorReading cfg env req w = (r, w') ->
  status r <> 200 ->
  readings w' = readings w /\ emitted w' = emitted w.
Proof.
  intros H S. destruct (valid_body req) eqn:V.
  - destruct (input_loggable req) eqn:L;
      [| rewrite process_unloggable in H by assumption;
         inversion H; subst; split; reflexivity].
    rewrite process_valid in H by assumption. unfold handler in H.
    destruct (callMlService_cases env w)
      as [(C & p & E & R & M) | (C & e & M)];
      rewrite (bind_ok _ _ _ _ _ M) in H.
    + destruct (decisionEngine cfg env req _ _ p w) as [[r0 | e] w0] eqn:D.
      * inversion H; subst r0 w0.
        apply decisionEngine_status in D. contradiction.
      * inversion H; subst w0. apply decisionEngine_throw in D. exact D.
    + cbn in H. inversion H; subst. split; reflexivity.
  - destruct (process_invalid cfg env req w V) as [error E].
    rewrite E in H. inversion H; subst. split; reflexivity.
Qed.

Lemma failed_request_leaves_no_reading_witness :
  readings (snd (processSensorReading blockchain_on
                   (sample_env_reading_down "CRITICAL") sample_body
                   world_after_warning))
  = readings world_after_warning
  /\ emitted (snd (processSensorReading blockchain_on
                     (sample_env_reading_down "CRITICAL") sample_body
                     world_after_warning))
     = emitted world_after_warning.
Proof.
  apply (failed_request_leaves_no_reading blockchain_on
           (sample_env_reading_down "CRITICAL") sample_body
           world_after_warning _
           (fst (processSensorReading blockchain_on
                   (sample_env_reading_down "CRITICAL") sample_body
                   world_after_warning))).
  - vm_compute. reflexivity.
  - vm_compute. discriminate.
Defined.

(** ** A failure after the actions *)



(** ** What is stored agrees with what is answered *)

Lemma createAlert_fields (cfg : Config) (env : Env) (cid : string)
    (p : MLPrediction) (g : Js.value) (rid : nat) (a : Alert)
    (w w' : World) :
  createAlert cfg env cid p g rid w = (Ok a, w') ->
  a_id a = nextId w
  /\ a_readingId a = rid
  /\ a_status a = "active"
  /\ a_timestamp a = now env
  /\ a_gasLevels a
     = mkGases (Js.prop g "methane") (Js.prop g "lpg")
               (Js.prop g "carbonMonoxide") (Js.prop g "hydrogenSulfide")
  /\ a_ventilation a
     = js_ge (rank_value (label_of (riskState p))) (rank_of "WARNING")
  /\ a_blockchain a
     = BLOCKCHAIN_ENABLED cfg
       && js_ge (rank_value (label_of (riskState p))) (rank_of "WARNING").
Proof.
  unfold createAlert. intros H.
  apply bind_inv in H. destruct H as [id [w1 [F H]]].
  unfold fresh_id in F. inversion F; subst id w1; clear F.
  destruct (severity_or (label_of (riskState p)) "medium") as [sev |];
    [| discriminate H].
  apply bind_inv in H. destruct H as [[] [w2 [S H]]].
  unfold ret in H. inversion H; subst a w'; clear H.
  cbn. repeat split; reflexivity.
Qed.

Lemma rank_value_label (l : RiskLevel) (b : Z) :
  js_ge (rank_value (label l)) b = (b <=? rank l).
Proof. destruct l; reflexivity. Qed.

(** The reading that a successful run stores, the alert it creates and the
    answer it gives. *)
Lemma decisionEngine_stored (cfg : Config) (env : Env) (req : Body)
    (cid : string) (g : Gases) (p : MLPrediction) (rs : string)
    (r : Response) (w w' : World) :
  riskState p = Some rs ->
  decisionEngine cfg env req cid g p w = (Ok r, w') ->
  exists (l : RiskLevel) (oa : option Alert) (rd : SensorReading),
    rs = label l
    /\ readings w' = readings w ++ [rd]
    /\ alerts w' = alerts w ++ match oa with Some a => [a] | None => [] end
    /\ is_some oa = (2 <=? rank l)
    /\ r_id rd = nextId w
    /\ r_clientID rd = cid
    /\ r_gasReadings rd = g
    /\ r_timestamp rd = now env
    /\ sp_riskState (r_mlPrediction rd) = Some rs
    /\ r_source rd = (if truthy_string (source req)
                      then label_of (source req) else "iot_device")
    /\ r_actionsTaken rd
       = mkActionsTaken (2 <=? rank l) (4 <=? rank l)
           (BLOCKCHAIN_ENABLED cfg && (4 <=? rank l) && auditPostOk env)
           false
    /\ (forall a, oa = Some a ->
          a_readingId a = r_id rd
          /\ a_clientID a = cid
          /\ a_status a = "active"
          /\ a_gasLevels a
             = mkGases (Js.prop (gases req) "methane")
                       (Js.prop (gases req) "lpg")
                       (Js.prop (gases req) "carbonMonoxide")
                       (Js.prop (gases req) "hydrogenSulfide")
          /\ a_ventilation a = (4 <=? rank l)
          /\ a_blockchain a = BLOCKCHAIN_ENABLED cfg && (4 <=? rank l))
    /\ body r
       = Processed
           (mkReadingSummary (r_id rd) (r_clientID rd) (Some rs)
                             (confidence p) (r_timestamp rd))
           p
           (mkActions (alertCreated (r_actionsTaken rd))
                      (option_map a_id oa)
                      (ventilationTriggered (r_actionsTaken rd))
                      (if 4 <=? rank l then Some (target_mode l) else None)
                      (blockchainLogged (r_actionsTaken rd))).
Proof.
  intros Hrs H. unfold decisionEngine in H.
  apply bind_inv in H. destruct H as [rid [w1 [F H]]].
  unfold fresh_id in F. inversion F; subst rid w1; clear F.
  apply bind_inv in H. destruct H as [[oa acts1] [w2 [SA H]]].
  apply bind_inv in H. destruct H as [[ov acts2] [w3 [SV H]]].
  apply bind_inv in H. destruct H as [acts3 [w4 [SB H]]].
  apply bind_inv in H. destruct H as [[] [w5 [SS H]]].
  apply bind_inv in H. destruct H as [[] [w6 [BC H]]].
  unfold ret in H. inversion H; subst r w6; clear H.
  apply SensorReading_save_inv in SS.
  destruct SS as (Valid & S1 & S2 & S3 & S4 & S5 & S6).
  assert (En : mem_string rs RISK_STATE_ENUM = true).
  { unfold SensorReading_valid in Valid. cbn in Valid. rewrite Hrs in Valid.
    cbn [enum_ok] in Valid.
    repeat (apply andb_true_iff in Valid; destruct Valid as [Valid ?]).
    assumption. }
  destruct (mem_enum_label rs En) as [l ->].
  rewrite Hrs in SA, SV, SB. cbn [label_of] in SA, SV, SB.
  assert (AF : forall a, oa = Some a ->
            a_readingId a = nextId w
            /\ a_status a = "active"
            /\ a_gasLevels a
               = mkGases (Js.prop (gases req) "methane")
                         (Js.prop (gases req) "lpg")
                         (Js.prop (gases req) "carbonMonoxide")
                         (Js.prop (gases req) "hydrogenSulfide")
            /\ a_ventilation a = (4 <=? rank l)
            /\ a_blockchain a = BLOCKCHAIN_ENABLED cfg && (4 <=? rank l)).
  { intros a Ea. subst oa. unfold alertStep in SA.
    destruct (js_ge (rank_or_zero (label l)) (rank_of "UNUSUAL"));
      [| discriminate SA].
    apply bind_inv in SA. destruct SA as [a0 [w0 [C R]]].
    unfold ret in R. inversion R; subst a0 w0; clear R.
    apply createAlert_fields in C. rewrite Hrs in C. cbn [label_of] in C.
    rewrite rank_value_label in C. change (rank_of "WARNING") with 4 in C.
    destruct C as (_ & C2 & C3 & _ & C5 & C6 & C7).
    repeat split; assumption. }
  apply alertStep_inv in SA; [| exact Hrs].
  apply ventilationStep_inv in SV.
  apply blockchainStep_inv in SB. cbv zeta in SB.
  cbn [readings alerts ventilation auditPosts emitted ventCalls] in SA.
  destruct SA as (A1 & A2 & A3 & A4 & A5 & A6 & A7 & A8 & A9).
  destruct SV as (V1 & V2 & V3 & V4 & V5 & V6 & V7 & V8).
  destruct SB as (B1 & B2 & B3 & B4 & B5 & B6 & B7).
  match type of BC with
  | broadcast ?e ?c ?s ?q ?rd ?al ?ve ?w0 = _ =>
      destruct (broadcast_frame e c s q rd al ve w0)
        as (w6 & BC' & C1 & C2 & C3 & C4 & C5)
  end.
  rewrite BC' in BC. inversion BC; subst w6; clear BC BC'.
  assert (Acts : acts3
                 = mkActionsTaken (2 <=? rank l) (4 <=? rank l)
                     (BLOCKCHAIN_ENABLED cfg && (4 <=? rank l)
                      && auditPostOk env) false).
  { subst acts3 acts2 acts1.
    destruct (2 <=? rank l), (4 <=? rank l), (BLOCKCHAIN_ENABLED cfg),
      (auditPostOk env); reflexivity. }
  exists l, oa. eexists.
  split; [reflexivity |].
  split; [rewrite C1, S1, B3, V5, A5; reflexivity |].
  split; [rewrite C2, S2, B4, V6; exact A1 |].
  split; [exact A2 |].
  cbn [r_id r_clientID r_gasReadings r_timestamp r_mlPrediction sp_riskState
       r_source r_actionsTaken].
  split; [reflexivity |]. split; [reflexivity |]. split; [reflexivity |].
  split; [reflexivity |]. split; [exact Hrs |]. split; [reflexivity |].
  split; [exact Acts |].
  split.
  { intros a Ea. destruct (AF a Ea) as (F1 & F2 & F3 & F4 & F5).
    destruct (A4 a Ea) as (_ & _ & F6).
    repeat split; assumption. }
  unfold ml_riskState. rewrite Hrs, <- V3. destruct ov; reflexivity.
Qed.

(** The reading stored by a successful request is the one the answer
    describes: same identifier, zone and time, and the same action flags;
    it carries the four gas values of the request, and the source
    ["iot_device"] unless the request names one. *)
Theorem stored_reading_matches_answer (cfg : Config) (env : Env)
    (req : Body) (w w' : World) (r : Response) :
  processSensorReading cfg env req w = (r, w') ->
  status r = 200 ->
  exists rd summary classification actions,
    readings w' = readings w ++ [rd]
    /\ body r = Processed summary classification actions
    /\ rs_id summary = r_id rd
    /\ rs_clientID summary = r_clientID rd
    /\ r_clientID rd = label_of (clientID req)
    /\ rs_timestamp summary = r_timestamp rd
    /\ rs_riskState summary = sp_riskState (r_mlPrediction rd)
    /\ r_gasReadings rd
       = mkGases (Js.prop (gases req) "methane") (Js.prop (gases req) "lpg")
                 (Js.prop (gases req) "carbonMonoxide")
                 (Js.prop (gases req) "hydrogenSulfide")
    /\ r_source rd = (if truthy_string (source req)
                      then label_of (source req) else "iot_device")
    /\ act_alertCreated actions = alertCreated (r_actionsTaken rd)
    /\ act_ventilationTriggered actions
       = ventilationTriggered (r_actionsTaken rd)
    /\ act_blockchainLogged actions = blockchainLogged (r_actionsTaken rd)
    /\ notificationSent (r_actionsTaken rd) = false.
Proof.
  intros H S.
  destruct (process_200_inv _ _ _ _ _ _ H S) as (p & rs & V & E & Hrs & D).
  destruct (decisionEngine_stored _ _ _ _ _ _ _ _ _ _ Hrs D)
    as (l & oa & rd & -> & R & _ & _ & I & C & G & T & Rs & So & Ac & _ & B).
  exists rd. eexists; eexists; eexists.
  split; [exact R |]. split; [exact B |].
  cbn [rs_id rs_clientID rs_timestamp rs_riskState act_alertCreated
       act_ventilationTriggered act_blockchainLogged].
  rewrite Ac. cbn [notificationSent].
  repeat split; auto.
Qed.

Lemma stored_reading_matches_answer_witness :
  exists rd summary classification actions,
    readings world_after_warning = readings empty_world ++ [rd]
    /\ body (fst (processSensorReading blockchain_on (sample_env "WARNING")
                    sample_body empty_world))
       = Processed summary classification actions
    /\ rs_id summary = r_id rd
    /\ rs_clientID summary = r_clientID rd
    /\ r_clientID rd = label_of (clientID sample_body)
    /\ rs_timestamp summary = r_timestamp rd
    /\ rs_riskState summary = sp_riskState (r_mlPrediction rd)
    /\ r_gasReadings rd
       = mkGases (Js.prop (gases sample_body) "methane")
                 (Js.prop (gases sample_body) "lpg")
                 (Js.prop (gases sample_body) "carbonMonoxide")
                 (Js.prop (gases sample_body) "hydrogenSulfide")
    /\ r_source rd = (if truthy_string (source sample_body)
                      then label_of (source sample_body) else "iot_device")
    /\ act_alertCreated actions = alertCreated (r_actionsTaken rd)
    /\ act_ventilationTriggered actions
       = ventilationTriggered (r_actionsTaken rd)
    /\ act_blockchainLogged actions = blockchainLogged (r_actionsTaken rd)
    /\ notificationSent (r_actionsTaken rd) = false.
Proof.
  apply (stored_reading_matches_answer blockchain_on (sample_env "WARNING")
           sample_body empty_world world_after_warning
           (fst (processSensorReading blockchain_on (sample_env "WARNING")
                   sample_body empty_world)));
    vm_compute; reflexivity.
Defined.

(** The alert created by a successful request refers to the reading stored
    by the same request and repeats its zone and gas values; it is active;
    its ventilation flag is the reading's; its blockchain flag records that
    the audit post was due, so that the reading's [blockchainLogged] is that
    flag and the success of the post. *)
Theorem alert_refers_to_reading (cfg : Config) (env : Env) (req : Body)
    (w w' : World) (r : Response) (a : Alert) :
  processSensorReading cfg env req w = (r, w') ->
  status r = 200 ->
  alerts w' = alerts w ++ [a] ->
  exists rd,
    readings w' = readings w ++ [rd]
    /\ a_readingId a = r_id rd
    /\ a_clientID a = r_clientID rd
    /\ a_gasLevels a = r_gasReadings rd
    /\ a_status a = "active"
    /\ a_ventilation a = ventilationTriggered (r_actionsTaken rd)
    /\ blockchainLogged (r_actionsTaken rd)
       = a_blockchain a && auditPostOk env.
Proof.
  intros H S Ha.
  destruct (process_200_inv _ _ _ _ _ _ H S) as (p & rs & V & E & Hrs & D).
  destruct (decisionEngine_stored _ _ _ _ _ _ _ _ _ _ Hrs D)
    as (l & oa & rd & -> & R & A & _ & I & C & G & T & Rs & So & Ac & F & B).
  rewrite A in Ha. apply app_inv_head in Ha.
  destruct oa as [a0 |]; [| discriminate Ha].
  inversion Ha; subst a0.
  destruct (F a eq_refl) as (F1 & F2 & F3 & F4 & F5 & F6).
  exists rd. rewrite Ac, G, C, F5, F6.
  cbn [ventilationTriggered blockchainLogged].
  repeat split; auto.
Qed.

Lemma alert_refers_to_reading_witness :
  exists rd,
    readings (snd (processSensorReading blockchain_on
                     (sample_env_audit_down "CRITICAL") sample_body
                     empty_world))
    = readings empty_world ++ [rd]
    /\ a_readingId sample_alert = r_id rd
    /\ a_clientID sample_alert = r_clientID rd
    /\ a_gasLevels sample_alert = r_gasReadings rd
    /\ a_status sample_alert = "active"
    /\ a_ventilation sample_alert = ventilationTriggered (r_actionsTaken rd)
    /\ blockchainLogged (r_actionsTaken rd)
       = a_blockchain sample_alert
         && auditPostOk (sample_env_audit_down "CRITICAL").
Proof.
  apply (alert_refers_to_reading blockchain_on
           (sample_env_audit_down "CRITICAL") sample_body empty_world
           (snd (processSensorReading blockchain_on
                   (sample_env_audit_down "CRITICAL") sample_body
                   empty_world))
           (fst (processSensorReading blockchain_on
                   (sample_env_audit_down "CRITICAL") sample_body
                   empty_world))
           sample_alert);
    vm_compute; reflexivity.
Defined.

(** * The history queries *)

Section SortDesc.

Context {T : Type}.
Variable key : T -> Z.

Lemma in_firstn (n : nat) (l : list T) (x : T) :
  In x (firstn n l) -> In x l.
Proof.
  intros H. rewrite <- (firstn_skipn n l). apply in_or_app. left. exact H.
Qed.

Lemma insert_desc_perm (x : T) (l : list T) :
  Permutation (insert_desc key x l) (x :: l).
Proof.
  induction l as [| y rest IH]; cbn [insert_desc]; [reflexivity |].
  destruct (key y <=? key x); [reflexivity |].
  rewrite IH. apply perm_swap.
Qed.

Lemma sort_desc_perm (l : list T) : Permutation (sort_desc key l) l.
Proof.
  unfold sort_desc. induction l as [| x rest IH]; cbn [fold_right];
    [reflexivity |].
  rewrite insert_desc_perm. apply perm_skip. exact IH.
Qed.

Lemma insert_desc_sorted (x : T) (l : list T) :
  StronglySorted (fun a b => key b <= key a) l ->
  StronglySorted (fun a b => key b <= key a) (insert_desc key x l).
Proof.
  induction l as [| y rest IH]; intros S; cbn [insert_desc].
  - constructor; constructor.
  - inversion S as [| y0 rest0 Srest Hy]; subst.
    destruct (key y <=? key x) eqn:C.
    + apply Z.leb_le in C. constructor; [exact S |].
      constructor; [exact C |].
      eapply Forall_impl; [| exact Hy]. cbv beta. intros; lia.
    + apply Z.leb_gt in C. constructor; [apply IH; exact Srest |].
      eapply Permutation_Forall.
      * symmetry. apply insert_desc_perm.
      * constructor; [lia | exact Hy].
Qed.

Lemma sort_desc_sorted (l : list T) :
  StronglySorted (fun a b => key b <= key a) (sort_desc key l).
Proof.
  unfold sort_desc. induction l as [| x rest IH]; cbn [fold_right].
  - constructor.
  - apply insert_desc_sorted. exact IH.
Qed.

Lemma sorted_firstn (n : nat) (l : list T) :
  StronglySorted (fun a b => key b <= key a) l ->
  StronglySorted (fun a b => key b <= key a) (firstn n l).
Proof.
  revert l. induction n as [| n IH]; intros l S; [constructor |].
  destruct l as [| x rest]; [constructor |].
  inversion S as [| x0 rest0 Srest Hx]; subst.
  cbn [firstn]. constructor; [apply IH; exact Srest |].
  apply Forall_forall. intros y Hy.
  apply (proj1 (Forall_forall _ _) Hx). eapply in_firstn; exact Hy.
Qed.

Lemma sorted_app_le (l1 l2 : list T) :
  StronglySorted (fun a b => key b <= key a) (l1 ++ l2) ->
  forall x y, In x l1 -> In y l2 -> key y <= key x.
Proof.
  induction l1 as [| z rest IH]; intros S x y Hx Hy; [contradiction |].
  cbn [app] in S. inversion S as [| z0 l0 Srest Hz]; subst.
  destruct Hx as [-> | Hx].
  - apply (proj1 (Forall_forall _ _) Hz). apply in_or_app. right. exact Hy.
  - apply IH; assumption.
Qed.

(** [limit n] of the sorted list holds the [n] newest elements. *)
Lemma limit_sorted_newest (n : Z) (l : list T) :
  forall x y,
    In x (limit n (sort_desc key l)) -> In y l ->
    ~ In y (limit n (sort_desc key l)) ->
    key y <= key x.
Proof.
  intros x y Hx Hy Hn. unfold limit in *.
  pose proof (sort_desc_sorted l) as S.
  rewrite <- (firstn_skipn (Z.to_nat n) (sort_desc key l)) in S.
  apply (sorted_app_le _ _ S); [exact Hx |].
  assert (Hs : In y (sort_desc key l)).
  { eapply Permutation_in; [symmetry; apply sort_desc_perm | exact Hy]. }
  rewrite <- (firstn_skipn (Z.to_nat n) (sort_desc key l)) in Hs.
  apply in_app_or in Hs. destruct Hs as [Hs | Hs]; [contradiction | exact Hs].
Qed.

Lemma limit_sort_length (n : Z) (l : list T) :
  List.length (limit n (sort_desc key l))
  = Nat.min (Z.to_nat n) (List.length l).
Proof.
  unfold limit. rewrite length_firstn.
  rewrite (Permutation_length (sort_desc_perm l)). reflexivity.
Qed.

Lemma limit_sort_in (n : Z) (l : list T) (x : T) :
  In x (limit n (sort_desc key l)) -> In x l.
Proof.
  intros H. unfold limit in H. apply in_firstn in H.
  eapply Permutation_in; [apply sort_desc_perm | exact H].
Qed.

End SortDesc.

Lemma field_matches_some (param : option string) (actual c : string) :
  param = Some c -> c <> "" ->
  field_matches param (Some actual) = true -> actual = c.
Proof.
  intros -> Hc. unfold field_matches. cbn.
  destruct c; [congruence |]. cbn. apply String.eqb_eq.
Qed.

(** [GET /api/readings] returns the newest matching readings, newest first:
    [count] is the number of the documents, which is the smaller of the
    limit and of the number of matching readings; the documents are sorted
    by decreasing timestamp; and every stored reading that matches the
    filter and is not returned is at most as recent as each returned one. *)
Theorem getReadings_newest_first (dbOk : bool) (query : ReadingsQuery)
    (w : World) (count : nat) (docs : list SensorReading) :
  body (getReadings dbOk query w) = ReadingList count docs ->
  count = List.length docs
  /\ count
     = Nat.min (Z.to_nat (parseLimit (limit_or_default (rq_limit query))))
         (List.length
            (filter (fun r =>
                       field_matches (rq_clientID query)
                                     (Some (r_clientID r))
                       && field_matches (rq_riskState query)
                            (sp_riskState (r_mlPrediction r)))
                    (readings w)))
  /\ StronglySorted (fun a b => r_timestamp b <= r_timestamp a) docs
  /\ forall x y,
       In x docs -> In y (readings w) ->
       field_matches (rq_clientID query) (Some (r_clientID y)) = true ->
       field_matches (rq_riskState query) (sp_riskState (r_mlPrediction y))
       = true ->
       ~ In y docs ->
       r_timestamp y <= r_timestamp x.
Proof.
  unfold getReadings. destruct dbOk; cbn [body]; [| discriminate].
  intros H. inversion H; subst count docs; clear H.
  split; [reflexivity |]. split; [apply limit_sort_length |]. split.
  - unfold limit. apply sorted_firstn, sort_desc_sorted.
  - intros x y Hx Hy M1 M2 Hn.
    eapply limit_sorted_newest; [exact Hx | | exact Hn].
    apply filter_In. split; [exact Hy |]. rewrite M1, M2. reflexivity.
Qed.

Lemma getReadings_newest_first_witness :
  map r_timestamp sample_newest = [3000; 2000]
  /\ map r_timestamp (readings world_three_readings) = [1000; 3000; 2000]
  /\ (2%nat = List.length sample_newest
      /\ 2%nat
         = Nat.min
             (Z.to_nat
                (parseLimit (limit_or_default (rq_limit sample_query_two))))
             (List.length
                (filter (fun r =>
                           field_matches (rq_clientID sample_query_two)
                                         (Some (r_clientID r))
                           && field_matches (rq_riskState sample_query_two)
                                (sp_riskState (r_mlPrediction r)))
                        (readings world_three_readings)))
      /\ StronglySorted (fun a b => r_timestamp b <= r_timestamp a)
           sample_newest
      /\ forall x y,
           In x sample_newest ->
           In y (readings world_three_readings) ->
           field_matches (rq_clientID sample_query_two)
                         (Some (r_clientID y)) = true ->
           field_matches (rq_riskState sample_query_two)
                         (sp_riskState (r_mlPrediction y)) = true ->
           ~ In y sample_newest ->
           r_timestamp y <= r_timestamp x).
Proof.
  split; [vm_compute; reflexivity |].
  split; [vm_compute; reflexivity |].
  apply (getReadings_newest_first true sample_query_two
           world_three_readings).
  vm_compute. reflexivity.
Defined.



(** [GET /api/alerts] returns stored alerts only, newest first: those whose
    status is the one asked for, the active ones when no status is given, of
    the zone asked for when one is given; each comes with the gas readings
    and the time of the reading it refers to, when that reading is stored. *)
Theorem getAlerts_selects (dbOk : bool) (query : AlertsQuery) (w : World)
    (count : nat) (docs : list (Alert * option (Gases * Z))) :
  body (getAlerts dbOk query w) = AlertList count docs ->
  count = List.length docs
  /\ StronglySorted (fun a b => a_timestamp b <= a_timestamp a)
       (map fst docs)
  /\ forall a populated,
       In (a, populated) docs ->
       In a (alerts w)
       /\ a_status a = match aq_status query with
                       | Some s => s
                       | None => "active"
                       end
       /\ (forall c, aq_clientID query = Some c -> c <> "" ->
             a_clientID a = c)
       /\ match populated with
          | Some (g, t) =>
              exists r, In r (readings w) /\ r_id r = a_readingId a
                        /\ g = r_gasReadings r /\ t = r_timestamp r
          | None => forall r, In r (readings w) -> r_id r <> a_readingId a
          end.
Proof.
  unfold getAlerts. destruct dbOk; cbn [body]; [| discriminate].
  intros H. inversion H; subst count docs; clear H.
  split; [reflexivity |]. split.
  - rewrite map_map. cbn [populate fst]. rewrite map_id.
    unfold limit. apply sorted_firstn, sort_desc_sorted.
  - intros a populated Hin. apply in_map_iff in Hin.
    destruct Hin as (a0 & E & Hin). unfold populate in E.
    inversion E; subst a0; clear E.
    apply limit_sort_in in Hin. apply filter_In in Hin.
    destruct Hin as [Hin M]. apply andb_true_iff in M. destruct M as [M1 M2].
    split; [exact Hin |]. split; [apply String.eqb_eq; exact M1 |]. split.
    + intros c Hc Hne. eapply field_matches_some; eassumption.
    + destruct (find (fun r => Nat.eqb (r_id r) (a_readingId a))
                     (readings w)) as [r |] eqn:F.
      * apply find_some in F. destruct F as [Fin Fid].
        apply Nat.eqb_eq in Fid. exists r. repeat split; assumption.
      * intros r Hr Hid.
        pose proof (find_none _ _ F r Hr) as N. cbv beta in N.
        apply Nat.eqb_neq in N. contradiction.
Qed.

Lemma getAlerts_selects_witness :
  1%nat = List.length [populate world_after_warning sample_warning_alert]
  /\ StronglySorted (fun a b => a_timestamp b <= a_timestamp a)
       (map fst [populate world_after_warning sample_warning_alert])
  /\ forall a populated,
       In (a, populated)
          [populate world_after_warning sample_warning_alert] ->
       In a (alerts world_after_warning)
       /\ a_status a = match aq_status sample_alerts_query with
                       | Some s => s
                       | None => "active"
                       end
       /\ (forall c, aq_clientID sample_alerts_query = Some c -> c <> "" ->
             a_clientID a = c)
       /\ match populated with
          | Some (g, t) =>
              exists r, In r (readings world_after_warning)
                        /\ r_id r = a_readingId a
                        /\ g = r_gasReadings r /\ t = r_timestamp r
          | None => forall r, In r (readings world_after_warning) ->
                              r_id r <> a_readingId a
          end.
Proof.
  apply (getAlerts_selects true sample_alerts_query world_after_warning).
  vm_compute. reflexivity.
Defined.

(** * Manual ventilation control *)

Lemma update_first_found (cid : string)
    (f : VentilationStatus -> VentilationStatus)
    (coll : list VentilationStatus) :
  match update_first cid f coll with
  | Some (d, coll') =>
      exists d0, find (fun x => String.eqb (v_clientID x) cid) coll = Some d0
                 /\ d = f d0
                 /\ List.length coll' = List.length coll
  | None => find (fun x => String.eqb (v_clientID x) cid) coll = None
  end.
Proof.
  induction coll as [| x rest IH]; cbn [update_first find]; [reflexivity |].
  destruct (String.eqb (v_clientID x) cid).
  - exists x. repeat split; reflexivity.
  - destruct (update_first cid f rest) as [[d1 rest1] |].
    + destruct IH as (d0 & F & E & L). exists d0.
      repeat split; try assumption. cbn [List.length]. rewrite L. reflexivity.
    + exact IH.
Qed.

(** A request without zone identifier is answered with 400, a failing update
    with 500; in both cases the ventilation documents are left as they were
    and nothing is broadcast. *)
Theorem control_failure_changes_nothing (env : Env) (req : VentilationBody)
    (w w' : World) (r : ControlResponse) :
  controlVentilation env req w = (r, w') ->
  (truthy_string (vb_clientID req) = false ->
     r = mkControlResponse 400 (ControlRejected "clientID required")
     /\ w' = w)
  /\ (c_status r <> 200 ->
        ventilation w' = ventilation w /\ emitted w' = emitted w).
Proof.
  unfold controlVentilation. intros H.
  destruct (truthy_string (vb_clientID req)) eqn:C; cbn [negb] in H.
  - split; [discriminate |]. intros S.
    destruct (ventUpdateOk env) eqn:U.
    + exfalso. apply S.
      unfold bind, log_ventCall, modify, ret, emit,
        VentilationStatus_findOneAndUpdate,
        VentilationStatus_findOneAndUpdate_existing in H.
      rewrite U in H. cbn in H.
      destruct (Js.truthy (vb_isOn req)); cbn in H.
      * destruct (upsert_first _ _ _ _); cbn in H.
        destruct (io env); cbn in H; inversion H; reflexivity.
      * destruct (update_first _ _ _) as [[d coll] |]; cbn in H;
          destruct (io env); cbn in H; inversion H; reflexivity.
    + unfold bind, log_ventCall, modify, ret, emit,
        VentilationStatus_findOneAndUpdate,
        VentilationStatus_findOneAndUpdate_existing in H.
      rewrite U in H. cbn in H.
      destruct (Js.truthy (vb_isOn req)); cbn in H;
        inversion H; subst; split; reflexivity.
  - unfold ret in H. inversion H; subst. split.
    + intros _. split; reflexivity.
    + intros _. split; reflexivity.
Qed.

Lemma control_failure_changes_nothing_witness :
  (truthy_string (vb_clientID (mkVentilationBody None (Js.Bool true)
                                                  None None)) = false ->
     fst (controlVentilation (sample_env "NORMAL")
            (mkVentilationBody None (Js.Bool true) None None)
            world_after_critical)
     = mkControlResponse 400 (ControlRejected "clientID required")
     /\ snd (controlVentilation (sample_env "NORMAL")
               (mkVentilationBody None (Js.Bool true) None None)
               world_after_critical)
        = world_after_critical)
  /\ (c_status (fst (controlVentilation (sample_env "NORMAL")
                       (mkVentilationBody None (Js.Bool true) None None)
                       world_after_critical)) <> 200 ->
        ventilation (snd (controlVentilation (sample_env "NORMAL")
                            (mkVentilationBody None (Js.Bool true) None None)
                            world_after_critical))
        = ventilation world_after_critical
        /\ emitted (snd (controlVentilation (sample_env "NORMAL")
                           (mkVentilationBody None (Js.Bool true) None None)
                           world_after_critical))
           = emitted world_after_critical).
Proof.
  apply (control_failure_changes_nothing (sample_env "NORMAL")
           (mkVentilationBody None (Js.Bool true) None None)
           world_after_critical).
  vm_compute. reflexivity.
Defined.

(** Switching the ventilation of a zone on: when the update succeeds, the
    answer is 200 with the document of the zone, which is created if the zone
    had none; the zone is active, in the requested mode or in AUTO when the
    request names none, and activated now. *)
Theorem control_switch_on (env : Env) (req : VentilationBody) (w : World) :
  truthy_string (vb_clientID req) = true ->
  Js.truthy (vb_isOn req) = true ->
  ventUpdateOk env = true ->
  exists d w',
    controlVentilation env req w
    = (mkControlResponse 200 (ControlDone (VentilationDocument d)), w')
    /\ find_ventilation (label_of (vb_clientID req)) w' = Some d
    /\ v_isActive d = true
    /\ v_mode d = mode_or_auto (vb_mode req)
    /\ v_activatedAt d = Some (now env)
    /\ ventilationMode w' (label_of (vb_clientID req))
       = mode_or_auto (vb_mode req).
Proof.
  intros C O U. unfold controlVentilation. rewrite C, O. cbn [negb].
  unfold bind, log_ventCall, modify, VentilationStatus_findOneAndUpdate.
  rewrite U. cbv beta iota.
  destruct (upsert_first (label_of (vb_clientID req)) (manual_on env req) _ _)
    as [d coll] eqn:E.
  apply upsert_first_find in E; [| intros x; reflexivity | reflexivity].
  destruct E as (F & d0 & ->).
  destruct (io env); cbn; eexists; eexists;
    (split; [reflexivity |]);
    unfold ventilationMode, find_ventilation, set_ventilation;
      cbn [ventilation];
    rewrite F; repeat split; reflexivity.
Qed.

Lemma control_switch_on_witness :
  exists d w',
    controlVentilation (sample_env "NORMAL") sample_switch_on empty_world
    = (mkControlResponse 200 (ControlDone (VentilationDocument d)), w')
    /\ find_ventilation (label_of (vb_clientID sample_switch_on)) w' = Some d
    /\ v_isActive d = true
    /\ v_mode d = mode_or_auto (vb_mode sample_switch_on)
    /\ v_activatedAt d = Some (now (sample_env "NORMAL"))
    /\ ventilationMode w' (label_of (vb_clientID sample_switch_on))
       = mode_or_auto (vb_mode sample_switch_on).
Proof.
  apply (control_switch_on (sample_env "NORMAL") sample_switch_on
           empty_world); reflexivity.
Defined.

(** Switching the ventilation of a zone off: when the update succeeds, a zone
    that has a document is left inactive and in OFF whatever its mode was,
    FORCED included, and deactivated now, with no document added or removed;
    for a zone without document nothing is written and the answer is the
    default: inactive, OFF. *)
Theorem control_switch_off (env : Env) (req : VentilationBody) (w : World) :
  truthy_string (vb_clientID req) = true ->
  Js.truthy (vb_isOn req) = false ->
  ventUpdateOk env = true ->
  match find_ventilation (label_of (vb_clientID req)) w with
  | Some d0 =>
      exists w',
        controlVentilation env req w
        = (mkControlResponse 200
             (ControlDone (VentilationDocument (manual_off env d0))), w')
        /\ find_ventilation (label_of (vb_clientID req)) w'
           = Some (manual_off env d0)
        /\ ventilationMode w' (label_of (vb_clientID req)) = OFF
        /\ List.length (ventilation w') = List.length (ventilation w)
  | None =>
      exists w',
        controlVentilation env req w
        = (mkControlResponse 200
             (ControlDone (VentilationDefault (label_of (vb_clientID req)))),
           w')
        /\ ventilation w' = ventilation w
  end.
Proof.
  intros C O U. unfold controlVentilation. rewrite C, O. cbn [negb].
  unfold bind, log_ventCall, modify,
    VentilationStatus_findOneAndUpdate_existing.
  rewrite U. cbv beta iota. cbn [ventilation].
  pose proof (update_first_found (label_of (vb_clientID req))
                (manual_off env) (ventilation w)) as Fd.
  destruct (update_first (label_of (vb_clientID req)) (manual_off env)
              (ventilation w)) as [[d coll] |] eqn:E.
  - destruct Fd as (d0 & F0 & -> & L).
    unfold find_ventilation at 1. rewrite F0.
    apply update_first_some in E; [| intros x; reflexivity].
    destruct E as (F & _).
    destruct (io env); cbn; eexists;
      (split; [reflexivity |]);
      unfold ventilationMode, find_ventilation, set_ventilation;
      cbn [ventilation];
      rewrite F; repeat split; try reflexivity; exact L.
  - unfold find_ventilation at 1. rewrite Fd.
    destruct (io env); cbn; eexists; split; reflexivity.
Qed.

Lemma control_switch_off_witness :
  match find_ventilation (label_of (vb_clientID sample_switch_off))
                         world_after_critical with
  | Some d0 =>
      exists w',
        controlVentilation (sample_env "NORMAL") sample_switch_off
                           world_after_critical
        = (mkControlResponse 200
             (ControlDone (VentilationDocument
                             (manual_off (sample_env "NORMAL") d0))), w')
        /\ find_ventilation (label_of (vb_clientID sample_switch_off)) w'
           = Some (manual_off (sample_env "NORMAL") d0)
        /\ ventilationMode w' (label_of (vb_clientID sample_switch_off)) = OFF
        /\ List.length (ventilation w')
           = List.length (ventilation world_after_critical)
  | None =>
      exists w',
        controlVentilation (sample_env "NORMAL") sample_switch_off
                           world_after_critical
        = (mkControlResponse 200
             (ControlDone (VentilationDefault
                             (label_of (vb_clientID sample_switch_off)))),
           w')
        /\ ventilation w' = ventilation world_after_critical
  end.
Proof.
  apply (control_switch_off (sample_env "NORMAL") sample_switch_off
           world_after_critical); reflexivity.
Defined.

(** Manual control of one zone never changes the ventilation document of
    another zone, whatever the outcome of the request. *)
Theorem control_other_zones_untouched (env : Env) (req : VentilationBody)
    (w : World) (zone : string) :
  zone <> label_of (vb_clientID req) ->
  find_ventilation zone (snd (controlVentilation env req w))
  = find_ventilation zone w.
Proof.
  intros Hz. unfold controlVentilation.
  destruct (truthy_string (vb_clientID req)); cbn [negb];
    [| reflexivity].
  unfold bind, log_ventCall, modify, VentilationStatus_findOneAndUpdate,
    VentilationStatus_findOneAndUpdate_existing.
  cbv beta iota. cbn [ventilation].
  destruct (Js.truthy (vb_isOn req)); cbv beta iota;
    destruct (ventUpdateOk env); try reflexivity.
  - pose proof (upsert_first_other (label_of (vb_clientID req)) zone
                  (manual_on env req)
                  (mkVentilationStatus (label_of (vb_clientID req)) false OFF
                     None None None (now env))
                  (ventilation w) (fun x => eq_refl) eq_refl Hz) as F.
    cbn [ventilation] in F |- *.
    destruct (upsert_first _ _ _ _) as [d coll]. cbn [snd] in F.
    destruct (io env); cbn; exact F.
  - destruct (update_first (label_of (vb_clientID req)) (manual_off env)
                (ventilation w)) as [[d coll] |] eqn:E.
    + pose proof (update_first_other (label_of (vb_clientID req)) zone
                    (manual_off env) (ventilation w) (fun x => eq_refl) Hz
                    d coll E) as F.
      destruct (io env); cbn; exact F.
    + destruct (io env); reflexivity.
Qed.

Lemma control_other_zones_untouched_witness :
  find_ventilation "zone-1"
    (snd (controlVentilation (sample_env "NORMAL")
            (mkVentilationBody (Some "zone-2") (Js.Bool true) None None)
            world_after_critical))
  = find_ventilation "zone-1" world_after_critical.
Proof.
  apply (control_other_zones_untouched (sample_env "NORMAL")
           (mkVentilationBody (Some "zone-2") (Js.Bool true) None None)
           world_after_critical "zone-1").
  vm_compute. discriminate.
Defined.

(** * Acknowledging an alert *)

Lemma update_alert_spec (id : nat) (f : Alert -> Alert) (coll : list Alert) :
  match update_alert id f coll with
  | Some (a', coll') =>
      exists l1 a l2,
        coll = l1 ++ a :: l2
        /\ coll' = l1 ++ f a :: l2
        /\ a' = f a
        /\ a_id a = id
        /\ (forall x, In x l1 -> a_id x <> id)
  | None => forall x, In x coll -> a_id x <> id
  end.
Proof.
  induction coll as [| a rest IH]; cbn [update_alert].
  - intros x [].
  - destruct (Nat.eqb (a_id a) id) eqn:E.
    + apply Nat.eqb_eq in E. exists [], a, rest.
      repeat split; try reflexivity; try assumption. intros x [].
    + apply Nat.eqb_neq in E.
      destruct (update_alert id f rest) as [[a' rest'] |].
      * destruct IH as (l1 & a0 & l2 & -> & -> & -> & Hid & Hl1).
        exists (a :: l1), a0, l2.
        repeat split; try reflexivity; try assumption.
        intros x [<- | Hx]; [exact E | apply Hl1; exact Hx].
      * intros x [<- | Hx]; [exact E | apply IH; exact Hx].
Qed.

(** Acknowledging an alert changes that alert and nothing else: with no
    alert of this identifier the answer is 404 and nothing changes; otherwise
    the answer is 200, the first alert of this identifier has the status
    [acknowledged] and is otherwise the same, all other alerts are the same
    and in the same place, and the time of the call is recorded, also when
    the alert was acknowledged before. *)
Theorem acknowledge_changes_one (now : Z) (id : nat) (s : Desk) :
  let '(r, s') := acknowledgeAlert true now id s in
  ((forall x, In x (alerts (stores s)) -> a_id x <> id)
   /\ k_status r = 404 /\ s' = s)
  \/ (exists l1 a l2,
        alerts (stores s) = l1 ++ a :: l2
        /\ a_id a = id
        /\ (forall x, In x l1 -> a_id x <> id)
        /\ alerts (stores s') = l1 ++ set_status "acknowledged" a :: l2
        /\ r = mkAckResponse 200
                 (AckDone (set_status "acknowledged" a) now)
        /\ time_of id (acknowledgedAt s') = Some now
        /\ readings (stores s') = readings (stores s)
        /\ ventilation (stores s') = ventilation (stores s)).
Proof.
  unfold acknowledgeAlert.
  pose proof (update_alert_spec id (set_status "acknowledged")
                (alerts (stores s))) as U.
  destruct (update_alert id (set_status "acknowledged") (alerts (stores s)))
    as [[a' coll] |].
  - right. destruct U as (l1 & a & l2 & E & -> & -> & Hid & Hl1).
    exists l1, a, l2. cbn. rewrite Nat.eqb_refl.
    repeat split; try reflexivity; assumption.
  - left. repeat split; try reflexivity. exact U.
Qed.

Lemma update_alert_unique (id : nat) (f : Alert -> Alert)
    (coll coll' : list Alert) (a' : Alert) :
  (forall a, a_id (f a) = a_id a) ->
  NoDup (map a_id coll) ->
  update_alert id f coll = Some (a', coll') ->
  forall x, In x coll' -> a_id x = id -> x = a'.
Proof.
  intros Hf Hnd H.
  pose proof (update_alert_spec id f coll) as U. rewrite H in U.
  destruct U as (l1 & a & l2 & -> & -> & -> & Hid & Hl1).
  intros x Hx Hxid. apply in_app_or in Hx.
  destruct Hx as [Hx | [<- | Hx]].
  - exfalso. apply (Hl1 x Hx). exact Hxid.
  - reflexivity.
  - exfalso. rewrite map_app in Hnd. cbn [map] in Hnd.
    apply NoDup_remove_2 in Hnd. apply Hnd. apply in_or_app. right.
    rewrite Hid, <- Hxid. apply in_map. exact Hx.
Qed.

Lemma getAlerts_docs (dbOk : bool) (query : AlertsQuery) (w : World)
    (count : nat) (docs : list (Alert * option (Gases * Z))) :
  body (getAlerts dbOk query w) = AlertList count docs ->
  forall a populated, In (a, populated) docs ->
    In a (alerts w)
    /\ a_status a = match aq_status query with
                    | Some s => s
                    | None => "active"
                    end.
Proof.
  unfold getAlerts. destruct dbOk; cbn [body]; [| discriminate].
  intros H. inversion H; subst count docs; clear H.
  intros a populated Hin. apply in_map_iff in Hin.
  destruct Hin as (a0 & E & Hin). unfold populate in E.
  inversion E; subst a0; clear E.
  apply limit_sort_in in Hin. apply filter_In in Hin.
  destruct Hin as [Hin M]. apply andb_true_iff in M. destruct M as [M1 M2].
  split; [exact Hin | apply String.eqb_eq; exact M1].
Qed.

(** Once an alert is acknowledged, the listing of the active alerts (the
    default of [GET /api/alerts]) no longer shows it, identifiers being
    unique. *)
Theorem acknowledged_alert_leaves_listing (now : Z) (id : nat) (s s' : Desk)
    (r : AckResponse) (dbOk : bool) (query : AlertsQuery) (count : nat)
    (docs : list (Alert * option (Gases * Z))) :
  NoDup (map a_id (alerts (stores s))) ->
  acknowledgeAlert true now id s = (r, s') ->
  k_status r = 200 ->
  aq_status query = None ->
  body (getAlerts dbOk query (stores s')) = AlertList count docs ->
  forall a populated, In (a, populated) docs -> a_id a <> id.
Proof.
  intros Hnd H S Q B a populated Hin Hid.
  destruct (getAlerts_docs _ _ _ _ _ B a populated Hin) as [Ha Hs].
  rewrite Q in Hs.
  unfold acknowledgeAlert in H.
  destruct (update_alert id (set_status "acknowledged") (alerts (stores s)))
    as [[a' coll] |] eqn:U.
  - inversion H; subst r s'; clear H. cbn in Ha.
    assert (X : a = a').
    { eapply update_alert_unique; try eassumption. intros x; reflexivity. }
    pose proof (update_alert_spec id (set_status "acknowledged")
                  (alerts (stores s))) as Sp.
    rewrite U in Sp. destruct Sp as (l1 & a0 & l2 & _ & _ & -> & _).
    subst a. cbn in Hs. discriminate Hs.
  - inversion H; subst r. discriminate S.
Qed.

Lemma acknowledged_alert_leaves_listing_witness :
  a_id (fst sample_listed) <> a_id sample_warning_alert.
Proof.
  apply (acknowledged_alert_leaves_listing 2000 (a_id sample_warning_alert)
           (mkDesk world_after_two_warnings [])
           desk_after_acknowledge
           (fst (acknowledgeAlert true 2000 (a_id sample_warning_alert)
                   (mkDesk world_after_two_warnings [])))
           true sample_alerts_query (List.length sample_listing)
           sample_listing)
    with (a := fst sample_listed) (populated := snd sample_listed).
  - vm_compute.
    constructor; [intros [H | []]; discriminate H |].
    constructor; [intros [] | constructor].
  - vm_compute. reflexivity.
  - vm_compute. reflexivity.
  - reflexivity.
  - vm_compute. reflexivity.
  - vm_compute. left. reflexivity.
Defined.

(** * Statistics *)

Lemma own_increment (risk k : string) (dist : list (string * nat)) :
  own (increment risk dist) k
  = if String.eqb k risk then option_map S (own dist k) else own dist k.
Proof.
  induction dist as [| [k' n] rest IH]; cbn [increment own option_map].
  - destruct (String.eqb k risk); reflexivity.
  - destruct (String.eqb risk k') eqn:E.
    + apply String.eqb_eq in E. subst k'. cbn [own].
      destruct (String.eqb k risk); reflexivity.
    + cbn [own]. destruct (String.eqb k k') eqn:E'.
      * apply String.eqb_eq in E'. subst k'.
        rewrite String.eqb_sym, E. reflexivity.
      * exact IH.
Qed.

Lemma total_increment (risk : string) (dist : list (string * nat)) :
  (total (increment risk dist) <= S (total dist))%nat.
Proof.
  unfold total.
  induction dist as [| [k n] rest IH]; cbn [increment fold_right snd].
  - lia.
  - destruct (String.eqb risk k); cbn [fold_right snd]; lia.
Qed.

Lemma own_tally (dist : list (string * nat)) (r : SensorReading)
    (k : string) :
  own dist "" = None ->
  own (tally dist r) k
  = option_map (fun n => (n + List.length (with_risk k [r]))%nat)
               (own dist k).
Proof.
  intros Hempty. unfold tally, with_risk. cbn [filter].
  destruct (sp_riskState (r_mlPrediction r)) as [s |];
    cbn [truthy_string label_of andb].
  - destruct (Js.str_nonempty s) eqn:Ne; cbn [andb].
    + destruct (own dist s) as [m |] eqn:Os; cbn [is_some].
      * rewrite own_increment. rewrite (String.eqb_sym k s).
        destruct (String.eqb s k) eqn:E.
        -- apply String.eqb_eq in E. subst k. rewrite Os. cbn.
           f_equal. lia.
        -- destruct (own dist k); cbn; [f_equal; lia | reflexivity].
      * destruct (String.eqb s k) eqn:E.
        -- apply String.eqb_eq in E. subst k. rewrite Os. reflexivity.
        -- destruct (own dist k); cbn; [f_equal; lia | reflexivity].
    + assert (s = "") as -> by (destruct s; [reflexivity | discriminate Ne]).
      destruct (String.eqb "" k) eqn:E.
      * apply String.eqb_eq in E. subst k. rewrite Hempty. reflexivity.
      * destruct (own dist k); cbn; [f_equal; lia | reflexivity].
  - destruct (own dist k); cbn; [f_equal; lia | reflexivity].
Qed.

Lemma own_forEach (l : list SensorReading) (dist : list (string * nat))
    (k : string) :
  own dist "" = None ->
  own (fold_left tally l dist) k
  = option_map (fun n => (n + List.length (with_risk k l))%nat)
               (own dist k).
Proof.
  revert dist. induction l as [| r rest IH]; intros dist Hempty;
    cbn [fold_left].
  - destruct (own dist k); cbn; [f_equal; lia | reflexivity].
  - rewrite IH.
    + rewrite own_tally by exact Hempty.
      destruct (own dist k); cbn [option_map]; [| reflexivity].
      f_equal. unfold with_risk. cbn [filter].
      destruct (match sp_riskState (r_mlPrediction r) with
                | Some s => String.eqb s k
                | None => false
                end); cbn [List.length]; lia.
    + rewrite own_tally by exact Hempty. rewrite Hempty. reflexivity.
Qed.

Lemma total_forEach (l : list SensorReading) (dist : list (string * nat)) :
  (total (fold_left tally l dist) <= total dist + List.length l)%nat.
Proof.
  revert dist. induction l as [| r rest IH]; intros dist;
    cbn [fold_left List.length].
  - lia.
  - specialize (IH (tally dist r)).
    assert (total (tally dist r) <= S (total dist))%nat.
    { unfold tally.
      destruct (truthy_string (sp_riskState (r_mlPrediction r))
                && is_some (own dist
                              (label_of (sp_riskState (r_mlPrediction r)))));
        [apply total_increment | lia]. }
    lia.
Qed.

(** The risk distribution of the statistics counts, for each of the six risk
    states, the readings with that state among the 100 most recent ones, and
    has no other entry; the counts add up to at most 100 and to at most the
    number of stored readings. *)
Theorem stats_distribution (w : World) :
  exists s,
    getStats true w = StatsOk s
    /\ (forall risk,
          own (riskDistribution s) risk
          = if is_some (own RISK_DISTRIBUTION risk)
            then Some (List.length (with_risk risk (recentReadings w)))
            else None)
    /\ (total (riskDistribution s) <= Nat.min 100 (totalReadings s))%nat.
Proof.
  eexists. split; [reflexivity |]. cbn [riskDistribution totalReadings].
  split.
  - intros risk. rewrite own_forEach by reflexivity.
    destruct (own RISK_DISTRIBUTION risk) as [n |] eqn:O;
      cbn [option_map is_some]; [| reflexivity].
    f_equal.
    assert (n = 0%nat) as ->; [| reflexivity].
    unfold RISK_DISTRIBUTION in O. cbn [own] in O.
    repeat match type of O with
           | (if ?c then _ else _) = _ => destruct c
           end; congruence.
  - pose proof (total_forEach (recentReadings w) RISK_DISTRIBUTION) as T.
    unfold recentReadings in *. rewrite limit_sort_length in T.
    change (total RISK_DISTRIBUTION) with 0%nat in T.
    change (Z.to_nat 100) with 100%nat in T. lia.
Qed.

(** The number of active alerts of the statistics is the number of alerts
    that the listing of the alerts, asked without a status and without a
    zone, shows, up to the limit of the listing. *)
Theorem stats_active_alerts_listed (w : World) (lim : option QueryVal) :
  exists s,
    getStats true w = StatsOk s
    /\ returned_documents (getAlerts true (mkAlertsQuery None None lim) w)
       = Nat.min (Z.to_nat (parseLimit (limit_or_default lim)))
                 (activeAlerts s).
Proof.
  eexists. split; [reflexivity |].
  unfold getAlerts, returned_documents.
  cbn [body aq_status aq_clientID aq_limit activeAlerts].
  rewrite length_map, limit_sort_length. f_equal. f_equal.
  apply filter_ext. intros a. unfold field_matches. cbn [truthy_string].
  apply andb_true_r.
Qed.

(** * The audit ledger *)

Section Slice.

Context {T : Type}.

Lemma slice_suffix (start : Z) (l : list T) :
  exists pre, l = pre ++ Ledger.slice start l.
Proof.
  unfold Ledger.slice.
  eexists. symmetry. apply firstn_skipn.
Qed.

Lemma slice_zero (l : list T) : Ledger.slice 0 l = l.
Proof.
  unfold Ledger.slice. cbn [Z.ltb Z.compare].
  replace (Z.to_nat (Z.min 0 (Z.of_nat (List.length l)))) with 0%nat by lia.
  reflexivity.
Qed.

Lemma slice_from (n : Z) (l : list T) :
  0 <= n -> Ledger.slice n l = skipn (Z.to_nat n) l.
Proof.
  intros H. unfold Ledger.slice.
  destruct (Z.ltb_spec n 0) as [Hlt | _]; [lia |].
  destruct (Z.le_gt_cases n (Z.of_nat (List.length l))) as [Hle | Hgt].
  - rewrite Z.min_l by exact Hle. reflexivity.
  - rewrite Z.min_r by lia. rewrite Nat2Z.id.
    rewrite skipn_all. symmetry. apply skipn_all2. lia.
Qed.

Lemma slice_last_length (n : Z) (l : list T) :
  0 < n ->
  Z.of_nat (List.length (Ledger.slice (- n) l))
  = Z.min n (Z.of_nat (List.length l)).
Proof.
  intros H. unfold Ledger.slice.
  destruct (Z.ltb_spec (- n) 0) as [_ | Hge]; [| lia].
  rewrite length_skipn. lia.
Qed.

Lemma slice_last_all (n : Z) (l : list T) :
  Z.of_nat (List.length l) <= n -> Ledger.slice (- n) l = l.
Proof.
  intros H. unfold Ledger.slice.
  destruct (Z.ltb_spec (- n) 0) as [_ | Hge].
  - replace (Z.to_nat (Z.max (Z.of_nat (List.length l) + - n) 0)) with 0%nat
      by lia.
    reflexivity.
  - replace (Z.to_nat (Z.min (- n) (Z.of_nat (List.length l)))) with 0%nat
      by lia.
    reflexivity.
Qed.

Lemma skipn_snoc (k : nat) (l : list T) (x : T) :
  (k <= List.length l)%nat -> skipn k (l ++ [x]) = skipn k l ++ [x].
Proof.
  intros H. rewrite skipn_app.
  replace (k - List.length l)%nat with 0%nat by lia. reflexivity.
Qed.

Lemma slice_last_snoc (n : Z) (l : list T) (x : T) :
  0 < n ->
  exists pre, Ledger.slice (- n) (l ++ [x]) = pre ++ [x]
              /\ exists dropped, l = dropped ++ pre.
Proof.
  intros H. unfold Ledger.slice.
  destruct (Z.ltb_spec (- n) 0) as [_ | Hge]; [| lia].
  rewrite length_app. cbn [List.length].
  set (k := Z.to_nat _).
  exists (skipn k l). split.
  - apply skipn_snoc. subst k. lia.
  - exists (firstn k l). symmetry. apply firstn_skipn.
Qed.

End Slice.

Lemma addSimulatedTransaction_spec (d : Ledger.Draw)
    (eventType data : Js.value) (s : Ledger.Simulation) :
  let tx := Ledger.mkTransaction (Ledger.txHash d) eventType data
              (Ledger.txTime d) (Ledger.currentBlock s + 1) 21000
              Ledger.ACCOUNT in
  let s' := snd (Ledger.addSimulatedTransaction d eventType data s) in
  fst (Ledger.addSimulatedTransaction d eventType data s) = tx
  /\ Ledger.currentBlock s' = Ledger.currentBlock s + 1
  /\ (exists dropped kept,
        Ledger.transactions s = dropped ++ kept
        /\ Ledger.transactions s' = kept ++ [tx])
  /\ Z.of_nat (List.length (Ledger.transactions s'))
     = Z.min (Z.of_nat (List.length (Ledger.transactions s)) + 1)
             Ledger.MAX_TRANSACTIONS
  /\ (if Z.of_nat (List.length (Ledger.transactions s')) mod 5 =? 0
      then
        exists dropped kept,
          Ledger.blocks s = dropped ++ kept
          /\ Ledger.blocks s'
             = kept
               ++ [Ledger.mkBlock (Ledger.currentBlock s + 1)
                     (Ledger.blockHash d)
                     (match Ledger.blocks s with
                      | b :: _ => Ledger.b_hash (last (Ledger.blocks s) b)
                      | [] => Ledger.ZERO_HASH
                      end)
                     (Ledger.blockTime d)
                     (map Ledger.hash
                        (Ledger.slice (-5) (Ledger.transactions s')))
                     (fold_left (fun sum t => sum + Ledger.gasUsed t)
                        (Ledger.slice (-5) (Ledger.transactions s')) 0)
                     8000000]
          /\ Z.of_nat (List.length (Ledger.blocks s'))
             = Z.min (Z.of_nat (List.length (Ledger.blocks s)) + 1)
                     Ledger.MAX_BLOCKS
      else Ledger.blocks s' = Ledger.blocks s).
Proof.
  intros tx s'. subst s'. unfold Ledger.addSimulatedTransaction.
  fold tx. cbn [fst snd].
  set (pushed := Ledger.transactions s ++ [tx]).
  set (kept := if Z.of_nat (List.length pushed) >? Ledger.MAX_TRANSACTIONS
               then Ledger.slice (- Ledger.MAX_TRANSACTIONS) pushed
               else pushed).
  assert (K : exists dropped k0,
             Ledger.transactions s = dropped ++ k0 /\ kept = k0 ++ [tx]).
  { subst kept.
    destruct (Z.of_nat (List.length pushed) >? Ledger.MAX_TRANSACTIONS).
    - destruct (slice_last_snoc Ledger.MAX_TRANSACTIONS
                  (Ledger.transactions s) tx) as (pre & E & dropped & E');
        [reflexivity |].
      exists dropped, pre. split; assumption.
    - exists [], (Ledger.transactions s). split; reflexivity. }
  assert (L : Z.of_nat (List.length kept)
              = Z.min (Z.of_nat (List.length (Ledger.transactions s)) + 1)
                      Ledger.MAX_TRANSACTIONS).
  { subst kept.
    assert (Z.of_nat (List.length pushed)
            = Z.of_nat (List.length (Ledger.transactions s)) + 1) as P
      by (subst pushed; rewrite length_app; cbn [List.length]; lia).
    destruct (Z.gtb_spec (Z.of_nat (List.length pushed))
                         Ledger.MAX_TRANSACTIONS) as [G | G].
    - rewrite slice_last_length by reflexivity. lia.
    - lia. }
  assert (S1 : forall s1,
             Ledger.currentBlock
               (if Z.of_nat (List.length kept) mod 5 =? 0
                then Ledger.createSimulatedBlock d s1 else s1)
             = Ledger.currentBlock s1
             /\ Ledger.transactions
                  (if Z.of_nat (List.length kept) mod 5 =? 0
                   then Ledger.createSimulatedBlock d s1 else s1)
                = Ledger.transactions s1).
  { intros s1. destruct (Z.of_nat (List.length kept) mod 5 =? 0);
      [| split; reflexivity].
    unfold Ledger.createSimulatedBlock.
    destruct (Z.of_nat _ >? Ledger.MAX_BLOCKS); split; reflexivity. }
  destruct (S1 (Ledger.mkSimulation (Ledger.blocks s) kept
                  (Ledger.currentBlock s + 1))) as [Sc St].
  cbn [Ledger.currentBlock Ledger.transactions] in Sc, St.
  split; [reflexivity |]. split; [exact Sc |]. split; [rewrite St; exact K |].
  split; [rewrite St; exact L |].
  rewrite St.
  destruct (Z.of_nat (List.length kept) mod 5 =? 0); [| reflexivity].
  unfold Ledger.createSimulatedBlock.
  cbn [Ledger.blocks Ledger.transactions Ledger.currentBlock].
  set (block := Ledger.mkBlock _ _ _ _ _ _ _).
  assert (P : Z.of_nat (List.length (Ledger.blocks s ++ [block]))
              = Z.of_nat (List.length (Ledger.blocks s)) + 1)
    by (rewrite length_app; cbn [List.length]; lia).
  destruct (Z.gtb_spec (Z.of_nat (List.length (Ledger.blocks s ++ [block])))
                       Ledger.MAX_BLOCKS) as [G | G];
    cbn [Ledger.set_blocks Ledger.blocks].
  - destruct (slice_last_snoc Ledger.MAX_BLOCKS (Ledger.blocks s) block)
      as (pre & E & dropped & E'); [reflexivity |].
    exists dropped, pre. split; [exact E' |]. split; [exact E |].
    rewrite slice_last_length by reflexivity. lia.
  - exists [], (Ledger.blocks s). split; [reflexivity |].
    split; [reflexivity | lia].
Qed.

Lemma snd_logEvent (d : Ledger.Draw) (eventType data : Js.value)
    (s : Ledger.Simulation) :
  snd (Ledger.logEvent Ledger.isConnected d eventType data s)
  = snd (Ledger.addSimulatedTransaction d eventType data s).
Proof.
  unfold Ledger.logEvent, Ledger.isConnected, Ledger.logEventSimulated.
  destruct (Ledger.addSimulatedTransaction d eventType data s).
  reflexivity.
Qed.


Lemma logEvents_invariant (I : Ledger.Simulation -> Prop) :
  (forall d eventType data s,
      I s -> I (snd (Ledger.addSimulatedTransaction d eventType data s))) ->
  forall events s, I s -> I (Ledger.logEvents events s).
Proof.
  intros Step events.
  induction events as [| [[d eventType] data] rest IH]; intros s H;
    cbn [Ledger.logEvents]; [exact H |].
  apply IH. rewrite snd_logEvent. apply Step. exact H.
Qed.

(** Logging keeps the ledger within its caps: at most 10000 transactions
    and at most 2000 blocks, after any sequence of events. *)
Theorem ledger_within_caps (s : Ledger.Simulation)
    (events : list (Ledger.Draw * Js.value * Js.value)) :
  Z.of_nat (List.length (Ledger.transactions s)) <= Ledger.MAX_TRANSACTIONS ->
  Z.of_nat (List.length (Ledger.blocks s)) <= Ledger.MAX_BLOCKS ->
  Z.of_nat (List.length (Ledger.transactions (Ledger.logEvents events s)))
  <= Ledger.MAX_TRANSACTIONS
  /\ Z.of_nat (List.length (Ledger.blocks (Ledger.logEvents events s)))
     <= Ledger.MAX_BLOCKS.
Proof.
  intros Ht Hb.
  apply (logEvents_invariant
           (fun s => Z.of_nat (List.length (Ledger.transactions s))
                     <= Ledger.MAX_TRANSACTIONS
                     /\ Z.of_nat (List.length (Ledger.blocks s))
                        <= Ledger.MAX_BLOCKS));
    [| split; assumption].
  clear. intros d eventType data s [Ht Hb].
  pose proof (addSimulatedTransaction_spec d eventType data s) as H.
  cbv zeta in H. destruct H as (_ & _ & _ & Hl & Hk).
  split; [lia |].
  destruct (Z.of_nat _ mod 5 =? 0).
  - destruct Hk as (_ & _ & _ & _ & Hk). lia.
  - rewrite Hk. exact Hb.
Qed.

Lemma ledger_within_caps_witness :
  Z.of_nat (List.length
              (Ledger.transactions (Ledger.logEvents sample_events
                                      full_ledger)))
  <= Ledger.MAX_TRANSACTIONS
  /\ Z.of_nat (List.length
                 (Ledger.blocks (Ledger.logEvents sample_events
                                   full_ledger)))
     <= Ledger.MAX_BLOCKS.
Proof.
  apply (ledger_within_caps full_ledger sample_events).
  - vm_compute. discriminate.
  - vm_compute. discriminate.
Defined.

(** Once the ledger holds 10000 transactions it stays at that number, which
    is a multiple of five: from then on every logged event closes a block of
    its own, numbered as the event's transaction. *)
Theorem full_ledger_blocks_every_transaction (d : Ledger.Draw)
    (eventType data : Js.value) (s : Ledger.Simulation) :
  Ledger.MAX_TRANSACTIONS - 1
  <= Z.of_nat (List.length (Ledger.transactions s)) ->
  let s' := snd (Ledger.addSimulatedTransaction d eventType data s) in
  Z.of_nat (List.length (Ledger.transactions s')) = Ledger.MAX_TRANSACTIONS
  /\ exists kept block,
       Ledger.blocks s' = kept ++ [block]
       /\ Ledger.b_number block = Ledger.currentBlock s'
       /\ Ledger.b_hash block = Ledger.blockHash d
       /\ Ledger.b_transactions block
          = map Ledger.hash (Ledger.slice (-5) (Ledger.transactions s')).
Proof.
  intros Hfull s'. subst s'.
  pose proof (addSimulatedTransaction_spec d eventType data s) as H.
  cbv zeta in H. destruct H as (_ & Hc & _ & Hl & Hk).
  rewrite Z.min_r in Hl by (unfold Ledger.MAX_TRANSACTIONS in *; lia).
  split; [exact Hl |].
  rewrite Hl in Hk.
  change (Ledger.MAX_TRANSACTIONS mod 5 =? 0) with true in Hk.
  cbv iota in Hk. destruct Hk as (dropped & kept & _ & Hb & _).
  eexists kept, _. split; [exact Hb |].
  cbn [Ledger.b_number Ledger.b_hash Ledger.b_transactions].
  rewrite Hc. repeat split; reflexivity.
Qed.

Lemma full_ledger_blocks_every_transaction_witness :
  let s' := snd (Ledger.addSimulatedTransaction (sample_draw 1)
                   (Js.Str "GAS_ALERT") (Js.Obj []) full_ledger) in
  Z.of_nat (List.length (Ledger.transactions s')) = Ledger.MAX_TRANSACTIONS
  /\ exists kept block,
       Ledger.blocks s' = kept ++ [block]
       /\ Ledger.b_number block = Ledger.currentBlock s'
       /\ Ledger.b_hash block = Ledger.blockHash (sample_draw 1)
       /\ Ledger.b_transactions block
          = map Ledger.hash (Ledger.slice (-5) (Ledger.transactions s')).
Proof.
  apply (full_ledger_blocks_every_transaction (sample_draw 1)
           (Js.Str "GAS_ALERT") (Js.Obj []) full_ledger).
  vm_compute. discriminate.
Defined.




Lemma last_suffix {T : Type} (l1 l2 : list T) (d d' : T) :
  l2 <> [] -> last (l1 ++ l2) d = last l2 d'.
Proof.
  intros H. destruct (exists_last H) as (l & x & ->).
  rewrite app_assoc, !last_last. reflexivity.
Qed.

Lemma linked_suffix (l1 l2 : list Ledger.Block) :
  Ledger.linked (l1 ++ l2) -> Ledger.linked l2.
Proof.
  induction l1 as [| b rest IH]; cbn [app]; [trivial |].
  intros H. apply IH. cbn [Ledger.linked] in H.
  destruct (rest ++ l2) as [| b' rest'] eqn:E; [exact I |].
  apply H.
Qed.

Lemma linked_snoc (l : list Ledger.Block) (b : Ledger.Block) :
  Ledger.linked l ->
  match l with
  | b0 :: _ => Ledger.b_parentHash b = Ledger.b_hash (last l b0)
  | [] => True
  end ->
  Ledger.linked (l ++ [b]).
Proof.
  induction l as [| b0 rest IH]; [intros; exact I |].
  intros L P. destruct rest as [| b1 rest'].
  - cbn in *. split; [exact P | exact I].
  - change (Ledger.linked (b0 :: (b1 :: rest') ++ [b])).
    change (Ledger.linked (b0 :: b1 :: rest')) with
      (Ledger.b_parentHash b1 = Ledger.b_hash b0
       /\ Ledger.linked (b1 :: rest')) in L.
    destruct L as [L1 L2].
    change (Ledger.b_parentHash b1 = Ledger.b_hash b0
            /\ Ledger.linked ((b1 :: rest') ++ [b])).
    split; [exact L1 |]. apply IH; [exact L2 |].
    rewrite P. f_equal. apply (last_suffix [b0] (b1 :: rest')).
    discriminate.
Qed.

Section SortedLists.

Context {T : Type}.
Variable R : T -> T -> Prop.

Lemma sorted_suffix (l1 l2 : list T) :
  StronglySorted R (l1 ++ l2) -> StronglySorted R l2.
Proof.
  induction l1 as [| x rest IH]; cbn [app]; [trivial |].
  intros H. apply StronglySorted_inv in H. apply IH, H.
Qed.

Lemma sorted_snoc (l : list T) (x : T) :
  StronglySorted R l -> Forall (fun y => R y x) l ->
  StronglySorted R (l ++ [x]).
Proof.
  induction l as [| y rest IH]; intros S F; cbn [app].
  - constructor; constructor.
  - apply StronglySorted_inv in S. destruct S as [S Fy].
    inversion F as [| ? ? Ryx F']; subst.
    constructor; [apply IH; assumption |].
    apply Forall_app. split; [exact Fy | constructor; [exact Ryx | constructor]].
Qed.

End SortedLists.

(** Logging keeps the ledger consistent, after any sequence of events: each
    block names the block before it as its parent, and the transactions are
    numbered in strictly increasing order, none above the counter. *)
Theorem ledger_stays_consistent (s : Ledger.Simulation)
    (events : list (Ledger.Draw * Js.value * Js.value)) :
  Ledger.linked (Ledger.blocks s) ->
  Ledger.numbered s ->
  Ledger.linked (Ledger.blocks (Ledger.logEvents events s))
  /\ Ledger.numbered (Ledger.logEvents events s).
Proof.
  intros HL HN.
  apply (logEvents_invariant
           (fun s => Ledger.linked (Ledger.blocks s) /\ Ledger.numbered s));
    [| split; assumption].
  clear. intros d eventType data s [HL [HS HF]].
  pose proof (addSimulatedTransaction_spec d eventType data s) as H.
  cbv zeta in H.
  destruct H as (_ & Hc & (dropped & kept & Ht & Ht') & _ & Hk).
  split.
  - destruct (Z.of_nat _ mod 5 =? 0); [| rewrite Hk; exact HL].
    destruct Hk as (droppedb & keptb & Hb & Hb' & _).
    rewrite Hb'. rewrite Hb in HL. apply linked_snoc.
    + eapply linked_suffix. exact HL.
    + cbn [Ledger.b_parentHash]. destruct keptb as [| k ks]; [exact I |].
      destruct (Ledger.blocks s) as [| b0 l0] eqn:E.
      * destruct droppedb; discriminate Hb.
      * rewrite Hb. apply f_equal. apply last_suffix. discriminate.
  - unfold Ledger.numbered. rewrite Ht', Hc. rewrite Ht in HS, HF.
    apply Forall_app in HF. destruct HF as [_ HF].
    rewrite map_app in HS. apply sorted_suffix in HS.
    split.
    + rewrite map_app. cbn [map Ledger.blockNumber].
      apply sorted_snoc; [exact HS |].
      apply Forall_map. eapply Forall_impl; [| exact HF].
      cbv beta. intros tx Hle. lia.
    + apply Forall_app. split.
      * eapply Forall_impl; [| exact HF]. cbv beta. intros tx Hle. lia.
      * constructor; [cbn [Ledger.blockNumber]; lia | constructor].
Qed.

Lemma ledger_stays_consistent_witness :
  Ledger.linked (Ledger.blocks (Ledger.logEvents sample_events Ledger.fresh))
  /\ Ledger.numbered (Ledger.logEvents sample_events Ledger.fresh).
Proof.
  apply (ledger_stays_consistent Ledger.fresh sample_events).
  - simpl. exact I.
  - split; simpl; constructor.
Defined.

(** [GET /blocks] returns the most recent blocks, at most 500 of them when
    the limit is absent, not a number or not negative; a negative limit
    returns all blocks but the first ones, as many as there may be. *)
Theorem blocks_query_limit (limit : option QueryVal)
    (s : Ledger.Simulation) :
  let '(found, count, total) := Ledger.getBlocks limit s in
  count = List.length found
  /\ total = List.length (Ledger.blocks s)
  /\ (exists earlier, Ledger.blocks s = earlier ++ found)
  /\ match match limit with
           | None => None
           | Some v => parseInt (LQuery v)
           end with
     | Some n =>
         if n <? 0
         then found = skipn (Z.to_nat (- n)) (Ledger.blocks s)
         else (count <= 500)%nat
     | None => (count <= 500)%nat
     end.
Proof.
  unfold Ledger.getBlocks.
  split; [reflexivity |]. split; [reflexivity |].
  split; [apply slice_suffix |].
  set (parsed := match limit with
                 | None => None
                 | Some v => parseInt (LQuery v)
                 end).
  assert (B : forall n, 0 < n -> n <= 500 ->
                (List.length (Ledger.slice (- n) (Ledger.blocks s))
                 <= 500)%nat).
  { intros n H0 H5.
    pose proof (slice_last_length n (Ledger.blocks s) H0). lia. }
  destruct parsed as [n |]; [| cbn [or_default]].
  - destruct (Z.ltb_spec n 0) as [Hn | Hn].
    + assert (or_default (Some n) 50 = n) as -> by (destruct n; reflexivity || lia).
      rewrite Z.min_l by lia. apply slice_from. lia.
    + destruct n as [| p | p]; cbn [or_default]; [apply B; lia | | lia].
      apply B; lia.
  - apply B; lia.
Qed.

(** [GET /transactions] returns the last [limit] transactions for a positive
    limit, the last ten without one; with the limit 0, or one that is not a
    number, it returns every transaction of the ledger, and with a negative
    one all but the first ones. *)
Theorem transactions_query_limit (limit : option QueryVal)
    (s : Ledger.Simulation) :
  let '(found, count) := Ledger.getTransactions limit s in
  count = List.length found
  /\ (exists earlier,
        map Ledger.view (Ledger.transactions s) = earlier ++ found)
  /\ match limit with
     | None =>
         Z.of_nat count
         = Z.min 10 (Z.of_nat (List.length (Ledger.transactions s)))
     | Some v =>
         match parseInt (LQuery v) with
         | Some n =>
             if 0 <? n
             then Z.of_nat count
                  = Z.min n (Z.of_nat (List.length (Ledger.transactions s)))
             else found
                  = map Ledger.view
                      (skipn (Z.to_nat (- n)) (Ledger.transactions s))
         | None => found = map Ledger.view (Ledger.transactions s)
         end
     end.
Proof.
  unfold Ledger.getTransactions, Ledger.getSimulatedTransactions.
  split; [reflexivity |]. split.
  - unfold Ledger.slice_last.
    destruct (parseInt _) as [n |];
      [destruct (slice_suffix (- n) (Ledger.transactions s)) as [pre E]
      | destruct (slice_suffix 0 (Ledger.transactions s)) as [pre E]];
      exists (map Ledger.view pre); rewrite <- map_app, <- E; reflexivity.
  - destruct limit as [v |].
    + destruct (parseInt (LQuery v)) as [n |]; cbn [Ledger.slice_last].
      * destruct (Z.ltb_spec 0 n) as [Hn | Hn].
        -- rewrite length_map. apply slice_last_length. exact Hn.
        -- rewrite slice_from by lia. reflexivity.
      * rewrite slice_zero. reflexivity.
    + change (parseInt (LNum 10)) with (Some 10).
      cbn [Ledger.slice_last]. rewrite length_map.
      apply (slice_last_length 10). reflexivity.
Qed.

(** * From the controller to the ledger *)

Section AuditPosts.

Variable P : AuditEvent -> Prop.

Lemma posts_refl (w : World) : posts P w w.
Proof. exists []. rewrite app_nil_r. split; [reflexivity | constructor]. Qed.

Lemma posts_trans (w1 w2 w3 : World) :
  posts P w1 w2 -> posts P w2 w3 -> posts P w1 w3.
Proof.
  intros (l1 & E1 & F1) (l2 & E2 & F2). exists (l1 ++ l2).
  rewrite E2, E1, app_assoc. split; [reflexivity |].
  apply Forall_app. split; assumption.
Qed.

Lemma posts_of_grows (g : Growth) (cid : string) (w w' : World) :
  g_audit g = 0%nat -> grows g cid w w' -> posts P w w'.
Proof.
  intros G (_ & _ & (l & E & L) & _). exists l.
  split; [exact E |]. destruct l; [constructor | cbn in L; lia].
Qed.

Lemma posts_bind {A B : Type} (m : M A) (k : A -> M B) :
  (forall w, posts P w (snd (m w))) ->
  (forall a w, posts P w (snd (k a w))) ->
  forall w, posts P w (snd (bind m k w)).
Proof.
  intros Hm Hk w. unfold bind. specialize (Hm w).
  destruct (m w) as [[a | e] w1]; cbn [snd] in *.
  - eapply posts_trans; [exact Hm | apply Hk].
  - exact Hm.
Qed.

End AuditPosts.

Lemma posts_blockchainStep (cfg : Config) (env : Env) (cid rs : string)
    (g : Js.value) (p : MLPrediction) (alert : option Alert)
    (level : Operand) (acts : ActionsTaken) (w : World) :
  posts (fun e => e_eventType e = "GAS_ALERT" /\ e_clientID e = cid) w
        (snd (blockchainStep cfg env cid rs g p alert level acts w)).
Proof.
  unfold blockchainStep.
  destruct (BLOCKCHAIN_ENABLED cfg && js_ge level (rank_of "WARNING"));
    [| apply posts_refl].
  unfold try_catch, bind, axios_post_log_event, bind, log_auditPost,
    modify, ret, throw.
  destruct (auditPostOk env); cbn [snd auditPosts];
    (eexists; split; [reflexivity |]);
    (constructor; [split; reflexivity | constructor]).
Qed.

Lemma posts_decisionEngine (cfg : Config) (env : Env) (req : Body)
    (cid : string) (g : Gases) (p : MLPrediction) (w : World) :
  posts (fun e => e_eventType e = "GAS_ALERT" /\ e_clientID e = cid) w
        (snd (decisionEngine cfg env req cid g p w)).
Proof.
  unfold decisionEngine. revert w.
  apply posts_bind;
    [intros w; eapply posts_of_grows; [| apply (grows_fresh_id cid)];
     reflexivity
    | intros rid].
  apply posts_bind;
    [intros w; eapply posts_of_grows; [| apply grows_alertStep]; reflexivity
    | intros [oa acts1]].
  apply posts_bind;
    [intros w; eapply posts_of_grows; [| apply grows_ventilationStep];
     reflexivity
    | intros [ov acts2]].
  apply posts_bind; [intros w; apply posts_blockchainStep | intros acts3].
  apply posts_bind;
    [intros w; eapply posts_of_grows; [| apply (grows_SensorReading_save cid)];
     reflexivity
    | intros _].
  apply posts_bind;
    [intros w; eapply posts_of_grows; [| apply grows_broadcast]; reflexivity
    | intros _ w; apply posts_refl].
Qed.

Lemma posts_processSensorReading (cfg : Config) (env : Env) (req : Body)
    (w : World) :
  posts (fun e => e_eventType e = "GAS_ALERT"
                  /\ e_clientID e = label_of (clientID req)) w
        (snd (processSensorReading cfg env req w)).
Proof.
  destruct (valid_body req) eqn:V.
  - destruct (input_loggable req) eqn:L;
      [| rewrite process_unloggable by assumption; apply posts_refl].
    rewrite process_valid by assumption. rewrite snd_handler. revert w.
    apply posts_bind.
    + intros w. destruct (callMlService_frame env w) as [called ->].
      apply posts_refl.
    + intros [p | response] w; [apply posts_decisionEngine | apply posts_refl].
  - destruct (process_invalid cfg env req w V) as [error ->].
    apply posts_refl.
Qed.

(** Every audit event that the controller posts for a reading whose
    identifier is a string, whatever the outcome of the request, is one that
    the ledger accepts: it is logged as the last transaction, with the event
    type [GAS_ALERT] and the identifier as a string, and the ledger shows it
    among the transactions of the zone of the reading.  The zone route
    compares with [===]: it never returns a transaction whose [clientID] and
    [zone] are not that very string, so an identifier posted as a number is
    not found under its numeral. *)
Theorem posted_events_reach_ledger (cfg : Config) (env : Env) (req : Body)
    (w : World) :
  (exists posted,
     auditPosts (snd (processSensorReading cfg env req w))
     = auditPosts w ++ posted
     /\ forall e d s,
          In e posted ->
          exists result stamp tx earlier,
            Ledger.postLogEvent d (wire e) s
            = (Ledger.Logged result stamp,
               snd (Ledger.postLogEvent d (wire e) s))
            /\ Ledger.transactions (snd (Ledger.postLogEvent d (wire e) s))
               = earlier ++ [tx]
            /\ Ledger.eventType tx = Js.Str "GAS_ALERT"
            /\ Js.prop (Ledger.data tx) "clientID"
               = Js.Str (label_of (clientID req))
            /\ In (Ledger.view tx)
                  (fst (Ledger.getTransactionsByZone
                          (label_of (clientID req))
                          (snd (Ledger.postLogEvent d (wire e) s)))))
  /\ (forall (zone : string) (s : Ledger.Simulation)
             (v : Ledger.TransactionView),
        In v (fst (Ledger.getTransactionsByZone zone s)) ->
        Js.prop (Ledger.v_data v) "clientID" = Js.Str zone
        \/ Js.prop (Ledger.v_data v) "zone" = Js.Str zone).
Proof.
  split.
  - destruct (posts_processSensorReading cfg env req w) as (posted & E & F).
    exists posted. split; [exact E |].
    intros e d s Hin. rewrite Forall_forall in F.
    destruct (F e Hin) as [Het Hcid].
    pose proof (addSimulatedTransaction_spec d
                  (Ledger.q_eventType (wire e)) (Ledger.q_data (wire e)) s)
      as H.
    cbv zeta in H. destruct H as (Hf & _ & (dropped & kept & _ & Ht) & _).
    unfold Ledger.postLogEvent.
    assert (T1 : Js.truthy (Ledger.q_eventType (wire e)) = true)
      by (unfold wire; cbn [Ledger.q_eventType Js.truthy]; rewrite Het;
          reflexivity).
    assert (T2 : Js.truthy (Ledger.q_data (wire e)) = true) by reflexivity.
    rewrite T1, T2. cbn [negb orb].
    unfold Ledger.logEvent, Ledger.isConnected, Ledger.logEventSimulated.
    destruct (Ledger.addSimulatedTransaction d (Ledger.q_eventType (wire e))
                (Ledger.q_data (wire e)) s) as [tx s'].
    cbn [fst snd] in *.
    assert (C : Js.prop (Ledger.data tx) "clientID"
                = Js.Str (label_of (clientID req))).
    { subst tx. cbn [Ledger.data]. unfold wire.
      cbn [Ledger.q_data Js.prop app Js.assoc].
      cbn [String.eqb Ascii.eqb Bool.eqb]. rewrite Hcid. reflexivity. }
    eexists _, _, tx, kept.
    split; [reflexivity |]. split; [subst tx; exact Ht |].
    split; [subst tx; cbn [Ledger.eventType wire Ledger.q_eventType];
            rewrite Het; reflexivity |].
    split; [exact C |].
    unfold Ledger.getTransactionsByZone. cbn [fst].
    apply in_map. apply filter_In. split.
    + rewrite Ht. apply in_or_app. right. left. symmetry. exact Hf.
    + rewrite C. subst tx. cbn [Ledger.data]. rewrite T2. cbn [andb].
      apply orb_true_iff. left. cbn [Ledger.is_string].
      apply String.eqb_refl.
  - intros zone s v Hin.
    unfold Ledger.getTransactionsByZone in Hin. cbn [fst] in Hin.
    apply in_map_iff in Hin. destruct Hin as (tx & <- & Hin).
    apply filter_In in Hin. destruct Hin as [_ M].
    apply andb_true_iff in M. destruct M as [_ M].
    apply orb_true_iff in M. cbn [Ledger.view Ledger.v_data].
    assert (S : forall x, Ledger.is_string x zone = true -> x = Js.Str zone).
    { intros x Hx. destruct x; cbn in Hx; try discriminate Hx.
      apply String.eqb_eq in Hx. subst. reflexivity. }
    destruct M as [M | M]; [left | right]; apply S; exact M.
Qed.
